(* ===== verification/_CoqProject ===== *)
-Q . S2P
Prelude.v
Python.v
Geometry.v
Widgets.v
Snake.v
Game.v
Keyboard.v
Packaging.v
Invariants.v
StateMachine.v
Liveness.v
Legacy.v
LegacyApp.v
Scenarios.v
