(* ===== verification/Prelude.v ===== *)
(** * A verification development of simply-snakes

    simply-snakes ([src/simply_snakes/snakes.py], with an older copy
    [src/snakes.py]) is a two-player Kivy game.  Two snake heads move over a
    play field and leave trails of rectangles behind them.  A round ends
    when a head hits a wall, the status bar, the other head or a trail.

    ** The program and how its parts interact

    - [Snake.collide_widget] (lines 93-125) is an AABB overlap test with a
      1-unit tolerance.  It handles a second widget of negative width or
      height.
    - [Snake] (lines 83-172) is a head.  Its state is position, size,
      direction, score and [trail], a reference to the Trail it grows.
      - [move(other)] advances the head by [direction * speed_scale], grows
        [self.trail] and returns whether a wall, the status bar, [other] or
        any Trail of [parent.trails] was hit (a head-on hit also gives
        [self] a point).
      - [on_direction] is the Kivy callback fired when the [direction]
        property changes.  It creates a Trail at the trailing edge of the
        head, adds it to the parent's children and appends it to
        [parent.trails].
    - [Trail] (lines 175-178) is a rectangle with a color.
    - [SnakesGame] (lines 16-80) owns both snakes, [trails] and the status
      bar.
      - [__init__] binds [_on_keyboard_down] to the window's keyboard, and
        [_keyboard_closed] unbinds it.
      - [_on_keyboard_down] assigns a heading unless it is the opposite of
        the current one.
      - [run] schedules [update] on the clock.  [update] moves snake 1,
        then snake 2 unless snake 1 collided, and scores and resets on a
        collision.
      - [reset] re-centres the heads, makes them idle and removes all
        Trails.
    - [SnakesApp.build] (lines 187-193) creates the game and runs it;
      [main] (lines 196-201) starts the application.
    - [src/setup.py] installs the package and a command [simply-snakes]
      that calls [main].
    - [src/snakes.py] is the first version of the same module: the same
      classes and methods, with [keyboard_closed]/[on_keyboard_down] named
      without the underscore and written for Python 3.

    ** Files, and how the model corresponds to the code

    - [Prelude] (this file):
      - boolean comparisons on [Q] for the code's tests (scope
        [snakes_scope]), their [BoolSpec] views and their [Proper]
        instances for [==];
      - the tactics [qlra], [qcase] and [qdecide];
      - the hint databases [snakes] and [snakes_rw];
      - Python's [list.remove] ([remove_first]) and the fact that removing
        every element of a list from a permutation of it leaves nothing.
    - [Python]: a monad for the statements of a Python method over a state:
      fall through ([Go]), [return] ([Return]) and uncaught exceptions
      ([Raise] of [AttributeError] or Kivy's [WidgetException]); [py_if],
      [py_for], method [call], a method of an attribute's object
      ([py_on]) and [exec] by the event loop.
    - [Geometry]: the class [Widget] (Kivy's x, y, width, height), [right],
      [top] and [collide_widget]/[collide_y], translated branch by branch;
      the setoid [wequiv] of widgets with [==] coordinates, for which the
      test is [Proper].
    - [Widgets]: the records [trail], [snake] and [game].
      - Python object identity is modelled by a store
        [heap : gmap nat trail] with a counter [next_id].
      - [Snake.trail] and [SnakesGame.trails] hold identities, so growing a
        snake's trail grows the element of the list: the aliasing of the
        source.
      - [children] holds the Trail widgets of the game, newest first as
        [add_widget] inserts them.
    - [Snake]: [speed_scale], [advance] (line 135), [grow_heap]
      (lines 136-138), [trail_hit] (lines 150-152), [move], [new_trail],
      [on_direction], and [set_direction].  [set_direction] models Kivy's
      assignment to a ReferenceListProperty: it dispatches [on_direction]
      only on a change.
    - [Game]: [steer] and [on_keyboard_down], [set_center],
      [remove_trail_widgets], [reset], [update], and the event loop [run]
      over [Tick] and [Key] events.
    - [Keyboard]: the keyboard plumbing and the application around the game
      ([sg_init], [keyboard_closed], [sg_run], [build]), as statements of
      the [Python] monad on a state [app]; Kivy's dispatch [app_handle],
      with the window's [request_keyboard] and [release_keyboard] (which
      clears the keyboard's callback before calling it);
      [sg_main], the model of [main] ([build], then the dispatch of the
      events); and [key_for], the key of each (snake, heading) pair.
    - [Packaging]: the [setup(...)] call of setup.py as a record
      [setup_py], setuptools' reading of an entry point ([parse_entry],
      with its round trip) and the resolution of the installed command to
      [sg_main].
    - [Invariants]: the well-formedness predicate [wf], the inductive
      [reachable], and preservation lemmas for every operation.
    - [StateMachine]: the spec's direction state machine [dir_trans], the
      discipline of the trail list [trail_discipline], and [frozen] Trails
      (no snake refers to them any more).
    - [Liveness]: the frame of a tick, quiet ticks, the bound on the
      length of a round, and [first_collision], the number of quiet ticks
      the clock runs before the first collision.
    - [Legacy]: every method of [src/snakes.py] translated statement by
      statement in the [Python] monad ([l_move], [l_on_direction],
      [l_reset], [l_update], ...), with attribute reads and writes through
      the object store, [Trail(...)] as allocation and Kivy's
      [add_widget]/[remove_widget] with their guards.  The invariant
      [allocated] says every Trail the methods reach is in the store.
    - [LegacyApp]: the application plumbing of [src/snakes.py] ([__init__],
      [keyboard_closed], [run], [build], the [__main__] guard), with Kivy's
      dispatch calling the [Legacy] methods on the game ([l_app_handle],
      [l_main]).
    - [Scenarios]: the 250 x 250 game of the spec and a few other concrete
      games, and one witness for each theorem with hypotheses.

    ** The theorems

    - Collision (Geometry): the test refines an interval specification
      ([collide_widget_spec]).  The tolerance boundary, the negative-size
      equivalence and symmetry for non-negative sizes also hold.
    - Snake:
      - [move_collided] characterises the collision report;
      - [move_score] characterises the head-on point;
      - [speed_scale_min] gives the speed scale.
    - Game:
      - refinement of the key handler to a table, no-reversal, and trail
        creation on a turn;
      - the state after [reset];
      - the three outcomes of [update] ([update_collision_order]):
        preemption of snake 2, a collision of snake 2 after snake 1's move,
        and a quiet tick; the double award on a head-on hit, by snake 1
        ([update_head_on]) or by snake 2 ([update_head_on_snake2]); the
        wall check pre-empting the head-on point ([update_wall_preempts]);
      - movement over quiet ticks ([ticks_advance]).
    - Keyboard: the round trip of the key map ([key_roundtrip]); the
      application runs the event loop of the game ([app_refines_loop]);
      keys are ignored after the keyboard is released; [main] never raises,
      because Kivy clears the keyboard's callback before calling
      [_keyboard_closed], and it keeps the attribute, the binding and the
      callback in agreement ([main_never_raises]).
    - Invariants:
      - every reachable game is well formed ([wf_reachable], by rule
        induction);
      - directions stay valid;
      - a heading snake's own trail never triggers its collision
        ([own_trail_safe]);
      - scores never decrease and grow by at most one per tick.
    - StateMachine: every event moves each direction along [dir_trans]
      ([direction_state_machine]); a frozen Trail never changes again; the
      trail list only grows within a round and only a tick with a collision
      empties it; two keys before one tick reverse a snake, which then runs
      into its own trail ([reversal_collides]).
    - Liveness: with no key pressed, a round with a moving snake ends, and
      some snake scores, within a bound of ticks ([round_ends]); the clock
      reaches the first colliding tick, and [first_collision] returns it
      ([round_terminates]); a tick awards points exactly when it collides
      ([score_iff_collision]).
    - Legacy: the legacy copy raises nothing on reachable games and computes
      the same games as the functional model ([legacy_refines],
      [legacy_no_exception]); its [move], [on_direction] and
      [collide_widget], [reset] and [on_keyboard_down] are equivalent to
      the functional ones.  So every
      theorem above also holds of [src/snakes.py].  At the application
      level, the legacy [__main__] and the package's [main] agree on every
      sequence of events, exceptions included ([legacy_app_refines]).
    - Packaging: the only command setup.py installs is simply-snakes, and
      it runs [sg_main] ([installed_simply_snakes]); the entry point syntax
      round-trips.

    ** Bounds and modelling choices

    - Python floats are exact rationals [Q]; IEEE rounding is not
      modelled.  The code only adds, and divides by the constants 250, 3
      and 2.  Equalities of coordinates are stated with [==].
    - Directions are pairs of [Z], as Kivy's [NumericProperty] stores
      them.  Scores are [nat]: they start at 0 and are only incremented.
    - No operation of the program needs fuel.  Every operation is
      structural, a method's loops run over the list the loop header
      evaluated, and a run is a fold over a finite list of events.
      [quiet g n] tests the next [n] ticks for collisions.  The clock that
      calls [update] forever is [first_collision g fuel], which looks for
      the first collision within [fuel] ticks; [round_terminates] shows
      that fuel [n + 1] always finds it.  The bound of [round_ends] is [n + 1] ticks
      for any [n] with [max(width, status bar) <= n * speed_scale]: the
      head crosses the whole field in [n] ticks.  The concrete runs are at
      most 80 ticks, the first wall hit of the scenario game; longer runs
      only repeat the same steps.
    - A Python exception that escapes a callback ends the run ([l_run] and
      [app_run] return it).

    ** Not modelled

    - Rendering: canvas, colors as drawn, and the .kv layout, which is not
      among the sources.  The initial game is [init_game], with the
      layout's sizes and positions as parameters.
    - The 1/60 s clock period and the unused [dt].  Window resizing: the
      sizes come from the .kv layout, which is not among the sources; the
      game's size is read on every tick but does not change in a run.
    - [Config.set('kivy', 'exit_on_escape', '0')]: it changes Kivy's
      global configuration and no state of the game.
    - setuptools itself: building and installing the distribution.  Only
      the reading of the entry point is modelled.

    ** Possible extensions

    - A general theorem for U-turns made of two quarter turns less than a
      head apart, with ticks between them; [reversal_collides] covers the
      case of two keys within one tick.
    - Iris specifications of the methods of [Legacy] over a heap of
      Python objects, instead of the explicit store [heap].
*)

From stdpp Require Export base list gmap strings.
From Stdlib Require Export ZArith QArith Qminmax Lqa.

Declare Scope snakes_scope.
Delimit Scope snakes_scope with snk.

(** ** Boolean comparisons on rationals, as the code's [if] tests use them *)

Definition Qltb (a b : Q) : bool := negb (Qle_bool b a).

Notation "a <=? b" := (Qle_bool a b) : snakes_scope.
Notation "a <? b" := (Qltb a b) : snakes_scope.

Open Scope Q_scope.
Open Scope snakes_scope.

Lemma Qle_bool_true_iff (a b : Q) : (a <=? b) = true <-> a <= b.
Proof. apply Qle_bool_iff. Qed.

Lemma Qle_bool_false_iff (a b : Q) : (a <=? b) = false <-> b < a.
Proof.
  split.
  - intros H. apply Qnot_le_lt. intros Hle. apply Qle_bool_iff in Hle. congruence.
  - intros H. destruct (a <=? b) eqn:E; [|done].
    apply Qle_bool_iff in E. exfalso. apply (Qlt_not_le _ _ H E).
Qed.

Lemma Qltb_true_iff (a b : Q) : (a <? b) = true <-> a < b.
Proof. unfold Qltb. rewrite negb_true_iff. apply Qle_bool_false_iff. Qed.

Lemma Qltb_false_iff (a b : Q) : (a <? b) = false <-> b <= a.
Proof. unfold Qltb. rewrite negb_false_iff. apply Qle_bool_true_iff. Qed.

(** The code's comparisons read rationals up to [==]: setoid rewriting
    with [==] facts goes through them ([Qle_bool] has the Standard
    Library's [Qleb_comp]). *)
#[export] Instance Qltb_comp : Proper (Qeq ==> Qeq ==> eq) Qltb.
Proof. intros a a' Ha b b' Hb. unfold Qltb. by rewrite Ha, Hb. Qed.

(** A view of a comparison as the case analysis the proofs need. *)
Lemma Qltb_spec (a b : Q) : BoolSpec (a < b) (b <= a) (a <? b).
Proof.
  destruct (a <? b) eqn:E; constructor.
  - by apply Qltb_true_iff.
  - by apply Qltb_false_iff.
Qed.

Lemma Qle_bool_spec (a b : Q) : BoolSpec (a <= b) (b < a) (a <=? b).
Proof.
  destruct (a <=? b) eqn:E; constructor.
  - by apply Qle_bool_true_iff.
  - by apply Qle_bool_false_iff.
Qed.

(** Division by a positive literal is multiplication by its inverse, which
    [lra] reads as a constant. *)
Lemma Qdiv_pos_const (x : Q) (p : positive) : x / (Zpos p # 1) = x * (1 # p).
Proof. reflexivity. Qed.

Create HintDb snakes.
Create Rewrite HintDb snakes_rw.
#[export] Hint Rewrite Qltb_true_iff Qltb_false_iff Qle_bool_true_iff
  Qle_bool_false_iff orb_true_iff orb_false_iff andb_true_iff andb_false_iff
  : snakes_rw.

(** [qlra] closes linear goals over [Q], and equivalences of them, once the
    integers under [inject_Z] are literals. *)
Ltac qlra :=
  rewrite ?Qdiv_pos_const in *; unfold inject_Z in *;
  lazymatch goal with
  | |- _ <-> _ => split; intros; lra
  | _ => lra
  end.

(** [qdecide] proves a comparison of closed rationals by evaluation. *)
Ltac qdecide :=
  first [ apply Qle_bool_true_iff | apply Qltb_true_iff | apply Qeq_bool_iff ];
  vm_compute; reflexivity.

(** [qcase] splits on every comparison of the goal. *)
Ltac qcase :=
  repeat match goal with
  | |- context [?a <? ?b] => destruct (Qltb_spec a b)
  | |- context [?a <=? ?b] => destruct (Qle_bool_spec a b)
  end.

(** An early [return True] in front of the rest of a function. *)
Lemma snd_if_true {A} (b : bool) (x : A) (r : A * bool) :
  snd (if b then (x, true) else r) = true <-> b = true \/ snd r = true.
Proof. destruct b; cbn; intuition congruence. Qed.

(** ** Python's [list.remove] on object identities

    [remove_first x l] removes the first occurrence of [x]; Kivy's
    [remove_widget] checks membership first, so an absent [x] leaves the
    list unchanged, as here. *)
Fixpoint remove_first (x : nat) (l : list nat) : list nat :=
  match l with
  | [] => []
  | y :: l' => if decide (x = y) then l' else y :: remove_first x l'
  end.

Lemma remove_first_perm (x : nat) (l : list nat) :
  x ∈ l -> l ≡ₚ x :: remove_first x l.
Proof.
  induction l as [|y l IH]; simpl; intros Hx; [set_solver|].
  case_decide as Hxy; [by subst|].
  rewrite elem_of_cons in Hx. destruct Hx as [->|Hx]; [done|].
  rewrite (IH Hx) at 1. apply Permutation_swap.
Qed.

(** Removing, one by one, every element of [l] from a permutation of [l]
    leaves the empty list. *)
Lemma fold_remove_first_perm (l m : list nat) :
  m ≡ₚ l -> foldl (fun c x => remove_first x c) m l = [].
Proof.
  revert m. induction l as [|x l IH]; simpl; intros m Hm.
  - by apply Permutation_nil_r.
  - apply IH. assert (Hx : x ∈ m) by (rewrite Hm; set_solver).
    apply (Permutation_cons_inv (a:=x)).
    by rewrite <- remove_first_perm.
Qed.
