(* ===== verification/Python.v ===== *)
(** * Python: the statements of a Python method as a monad

    A method of the source runs its statements in order on the objects it
    can reach, and leaves in one of three ways: it falls off its end, it
    executes [return], or an exception propagates out of it.  [pyM S R A]
    is a statement sequence over a state [S] that yields an [A] when it
    falls through and the method's result [R] when it returns:
    - [Go a]: the next statement runs;
    - [Return r]: [return r], which skips every statement up to the end of
      the method (also out of a [for] loop);
    - [Raise e]: an exception that no code of the program catches.

    [call] is a method call: the callee's [Return] is the value of the
    call, its [Raise] propagates; [py_on] calls a method of the object an
    attribute holds.  The monad is given as stdpp's [MRet] and
    [MBind], so [x ← m; k] and [m ;; k] read as statement sequences. *)

From S2P Require Import Prelude.

(** The exceptions the modelled code can raise.
    - [AttributeError]: an attribute read or written through [None], or
      through an identity that the object store does not hold.
    - [WidgetException]: Kivy's [Widget.add_widget] on a widget that
      already has a parent. *)
Inductive py_error := AttributeError | WidgetException.

#[export] Instance py_error_eq_dec : EqDecision py_error.
Proof. solve_decision. Defined.

Inductive flow (R A : Type) :=
  | Go (a : A)
  | Return (r : R)
  | Raise (e : py_error).
Arguments Go {R A} a.
Arguments Return {R A} r.
Arguments Raise {R A} e.

Definition pyM (S R A : Type) : Type := S -> S * flow R A.

#[export] Instance pyM_ret {S R} : MRet (pyM S R) := fun A a s => (s, Go a).

#[export] Instance pyM_bind {S R} : MBind (pyM S R) := fun A B f m s =>
  match m s with
  | (s', Go a) => f a s'
  | (s', Return r) => (s', Return r)
  | (s', Raise e) => (s', Raise e)
  end.

Section Statements.
Context {S R : Type}.

(** [return r]. *)
Definition py_return {A} (r : R) : pyM S R A := fun s => (s, Return r).

(** [raise e]. *)
Definition py_raise {A} (e : py_error) : pyM S R A := fun s => (s, Raise e).

(** Reading and updating the objects the method reaches. *)
Definition py_get : pyM S R S := fun s => (s, Go s).

Definition py_modify (f : S -> S) : pyM S R unit := fun s => (f s, Go ()).

(** [if b: body] (no [else]). *)
Definition py_if (b : bool) (body : pyM S R unit) : pyM S R unit :=
  if b then body else mret ().

(** [for x in l: body x]; the list is the one the loop header evaluated. *)
Fixpoint py_for {X} (l : list X) (body : X -> pyM S R unit) : pyM S R unit :=
  match l with
  | [] => mret ()
  | x :: l' => body x ;; py_for l' body
  end.

(** Python's truth value of an attribute that holds an object or [None]:
    an object without [__bool__] or [__len__] is true. *)
Definition py_truthy {A} (o : option A) : bool :=
  match o with Some _ => true | None => false end.
End Statements.

(** A method call inside another method. *)
Definition call {S R R'} (m : pyM S R R) : pyM S R' R := fun s =>
  match m s with
  | (s', Go r) | (s', Return r) => (s', Go r)
  | (s', Raise e) => (s', Raise e)
  end.

(** [self.attr.m()]: a method of the object an attribute holds, called
    from its owner; the object is read from the attribute and written back,
    and an exception of the callee propagates. *)
Definition py_on {S T R R'} (get : S -> T) (put : S -> T -> S) (m : pyM T R R) : pyM S R' R :=
  fun s =>
    match m (get s) with
    | (t, Go r) | (t, Return r) => (put s t, Go r)
    | (t, Raise e) => (put s t, Raise e)
    end.

(** A method invoked by the event loop: the state it leaves, or the
    exception that escapes it (Kivy's loop does not catch it). *)
Definition exec {S R} (m : pyM S R R) (s : S) : (S + py_error)%type :=
  match m s with
  | (s', Go _) | (s', Return _) => inl s'
  | (_, Raise e) => inr e
  end.

(** ** Evaluation lemmas *)

Section Laws.
Context {S R : Type}.

(** A statement that falls through hands its state and value to the next. *)
Lemma py_bind_go {A B} (m : pyM S R A) (f : A -> pyM S R B) (s s' : S) (a : A) :
  m s = (s', Go a) -> (m ≫= f) s = f a s'.
Proof. intros Hm. unfold mbind, pyM_bind. by rewrite Hm. Qed.

Lemma py_bind_return {A B} (m : pyM S R A) (f : A -> pyM S R B) (s s' : S) (r : R) :
  m s = (s', Return r) -> (m ≫= f) s = (s', Return r).
Proof. intros Hm. unfold mbind, pyM_bind. by rewrite Hm. Qed.

Lemma py_bind_raise {A B} (m : pyM S R A) (f : A -> pyM S R B) (s s' : S) e :
  m s = (s', Raise e) -> (m ≫= f) s = (s', Raise e).
Proof. intros Hm. unfold mbind, pyM_bind. by rewrite Hm. Qed.

(** A loop whose body falls through without changing the state on every
    element falls through. *)
Lemma py_for_go {X} (l : list X) (body : X -> pyM S R unit) (s : S) :
  (forall x, x ∈ l -> body x s = (s, Go ())) -> py_for l body s = (s, Go ()).
Proof.
  induction l as [|x l IH]; intros Hb; [done|]. cbn [py_for].
  rewrite (py_bind_go _ _ s s ()); [|apply Hb; set_solver]. apply IH. set_solver.
Qed.
End Laws.

Lemma call_go {S R R'} (m : pyM S R R) (s s' : S) (r : R) :
  m s = (s', Go r) \/ m s = (s', Return r) -> call (R' := R') m s = (s', Go r).
Proof. unfold call. by intros [-> | ->]. Qed.

Lemma exec_go {S R} (m : pyM S R R) (s s' : S) (r : R) :
  m s = (s', Go r) \/ m s = (s', Return r) -> exec m s = inl s'.
Proof. unfold exec. by intros [-> | ->]. Qed.

Lemma py_on_go {S T R R'} (get : S -> T) (put : S -> T -> S) (m : pyM T R R) (s : S) (t : T) (r : R) :
  m (get s) = (t, Go r) \/ m (get s) = (t, Return r) -> py_on (R' := R') get put m s = (put s t, Go r).
Proof. unfold py_on. by intros [-> | ->]. Qed.
