(* ===== verification/Geometry.v ===== *)
(** * Geometry: widgets as rectangles and [Snake.collide_widget]

    Kivy gives every widget [x], [y], [width], [height] and the derived
    [right = x + width] and [top = y + height].  The class [Widget] states
    that interface.  [Snake], [Trail] and the plain [rect] are instances.

    [collide_widget] translates [Snake.collide_widget]
    (src/simply_snakes/snakes.py, lines 93-125) branch by branch.  The
    theorems are:
    - [collide_widget_spec]: the test refines an interval specification
      ([lo_x]/[hi_x] normalise a negative size);
    - a theorem that a negative-size rectangle collides like its
      normalised copy;
    - the tolerance boundary: touching edges never collide, an overlap of
      at least one unit always does;
    - symmetry of the test for non-negative sizes (the code normalises
      only the second widget, so a first widget of negative size is tested
      on its raw [x] and [right]).
    [wequiv] compares widgets by their coordinates up to [==]; [right],
    [top], [collide_y] and [collide_widget] are [Proper] for it, so
    [==] facts about coordinates rewrite inside the test. *)

From S2P Require Import Prelude.

Class Widget (A : Type) := {
  wx : A -> Q;
  wy : A -> Q;
  wwidth : A -> Q;
  wheight : A -> Q
}.

Section WidgetGeometry.
Context {A : Type} `{Widget A}.

(** Kivy's [Widget.right] and [Widget.top] alias properties. *)
Definition right (w : A) : Q := wx w + wwidth w.
Definition top (w : A) : Q := wy w + wheight w.
End WidgetGeometry.

(** A plain rectangle, the data every widget of the game carries. *)
Record rect := mk_rect { rx : Q; ry : Q; rw : Q; rh : Q }.

#[export] Instance rect_widget : Widget rect :=
  {| wx := rx; wy := ry; wwidth := rw; wheight := rh |}.

(** Two widgets with the same geometry, coordinates compared with [==]:
    the code's comparisons cannot tell them apart. *)
Definition wequiv {A} `{Widget A} (a b : A) : Prop :=
  wx a == wx b /\ wy a == wy b /\ wwidth a == wwidth b /\ wheight a == wheight b.

Section Collision.
Context {A B : Type} `{Widget A} `{Widget B}.

(** Lines 114-125: the vertical half of the test, reached only when the
    horizontal half returned nothing. *)
Definition collide_y (self : A) (wid : B) : bool :=
  if wheight wid <? 0 then
    if top self <? top wid + 1 then false
    else if wy wid - 1 <? wy self then false
    else true
  else
    if top self <? wy wid + 1 then false
    else if top wid - 1 <? wy self then false
    else true.

(** Lines 93-125: [self.collide_widget(wid)].  Each [return False] of
    the source is a [false] branch; falling through the horizontal checks
    continues with [collide_y]. *)
Definition collide_widget (self : A) (wid : B) : bool :=
  if wwidth wid <? 0 then
    if right self <? right wid + 1 then false
    else if wx wid - 1 <? wx self then false
    else collide_y self wid
  else
    if right self <? wx wid + 1 then false
    else if right wid - 1 <? wx self then false
    else collide_y self wid.
End Collision.

(** ** The interval specification *)

Section Spec.
Context {B : Type} `{Widget B}.

(** The extent of a widget on each axis, whatever the sign of its size. *)
Definition lo_x (w : B) : Q := if wwidth w <? 0 then right w else wx w.
Definition hi_x (w : B) : Q := if wwidth w <? 0 then wx w else right w.
Definition lo_y (w : B) : Q := if wheight w <? 0 then top w else wy w.
Definition hi_y (w : B) : Q := if wheight w <? 0 then wy w else top w.
End Spec.

(** [self] hits [wid] when, on both axes, the far edge of [self] passes the
    near edge of [wid] by at least one unit and the near edge of [self]
    stays one unit short of the far edge of [wid]. *)
Definition collides_spec {A B} `{Widget A} `{Widget B} (self : A) (wid : B) : Prop :=
  lo_x wid + 1 <= right self /\ wx self <= hi_x wid - 1 /\
  lo_y wid + 1 <= top self /\ wy self <= hi_y wid - 1.

(** A rectangle with a non-negative size covering the same region. *)
Definition normalize (r : rect) : rect :=
  let r1 := if rw r <? 0 then mk_rect (rx r + rw r) (ry r) (- rw r) (rh r) else r in
  if rh r1 <? 0 then mk_rect (rx r1) (ry r1 + rh r1) (rw r1) (- rh r1) else r1.

(** Closes [b = true <-> P] once every comparison of [b] is split. *)
(** The overlap of the intervals [[a1, a2]] and [[b1, b2]]. *)
Definition overlap (a1 a2 b1 b2 : Q) : Q := Qmin a2 b2 - Qmax a1 b1.

Ltac solve_bool_iff :=
  split; intros; first [done | discriminate | exfalso; qlra | qlra].

(** ** [==] on coordinates: the setoid of widgets *)

Section Setoid.
Context {A : Type} `{Widget A}.

#[export] Instance wequiv_equivalence : Equivalence (@wequiv A _).
Proof.
  unfold wequiv. split.
  - intros a. split_and!; reflexivity.
  - intros a b Hab. destruct_and! Hab. split_and!; by symmetry.
  - intros a b c Hab Hbc. destruct_and! Hab. destruct_and! Hbc.
    split_and!; etransitivity; eassumption.
Qed.

#[export] Instance wx_proper : Proper (wequiv ==> Qeq) (@wx A _).
Proof. by intros a b (? & _ & _ & _). Qed.
#[export] Instance wy_proper : Proper (wequiv ==> Qeq) (@wy A _).
Proof. by intros a b (_ & ? & _ & _). Qed.
#[export] Instance wwidth_proper : Proper (wequiv ==> Qeq) (@wwidth A _).
Proof. by intros a b (_ & _ & ? & _). Qed.
#[export] Instance wheight_proper : Proper (wequiv ==> Qeq) (@wheight A _).
Proof. by intros a b (_ & _ & _ & ?). Qed.

#[export] Instance right_proper : Proper (wequiv ==> Qeq) (@right A _).
Proof. intros a b Hab. unfold right. by rewrite Hab. Qed.
#[export] Instance top_proper : Proper (wequiv ==> Qeq) (@top A _).
Proof. intros a b Hab. unfold top. by rewrite Hab. Qed.

End Setoid.

Section SetoidCollision.
Context {A B : Type} `{Widget A} `{Widget B}.

#[export] Instance collide_y_proper : Proper (wequiv ==> wequiv ==> eq) (@collide_y A B _ _).
Proof. intros a a' Ha b b' Hb. unfold collide_y. by repeat (rewrite Ha || rewrite Hb). Qed.

#[export] Instance collide_widget_proper :
  Proper (wequiv ==> wequiv ==> eq) (@collide_widget A B _ _).
Proof.
  intros a a' Ha b b' Hb. unfold collide_widget.
  by repeat (rewrite Ha || rewrite Hb || rewrite (collide_y_proper a a' Ha b b' Hb)).
Qed.
End SetoidCollision.

Section CollisionTheorems.
Context {A B : Type} `{Widget A} `{Widget B}.

Lemma collide_y_spec (self : A) (wid : B) :
  collide_y self wid = true <->
  lo_y wid + 1 <= top self /\ wy self <= hi_y wid - 1.
Proof. unfold collide_y, lo_y, hi_y, top. qcase; solve_bool_iff. Qed.

(** The two halves of the test, composed: the characterisation that the
    other proofs use. *)
Lemma collide_widget_iff (self : A) (wid : B) :
  collide_widget self wid = true <-> collides_spec self wid.
Proof.
  unfold collide_widget, collides_spec.
  pose proof (collide_y_spec self wid) as Hy.
  unfold lo_x, hi_x, right in *.
  destruct (collide_y self wid); qcase; solve_bool_iff.
Qed.

(** Edges that touch on one axis do not collide: this is the tolerance
    that keeps a head drawn against a trail from hitting it. *)
Lemma touching_no_collision (self : A) (wid : B) :
  right self == lo_x wid \/ wx self == hi_x wid \/
  top self == lo_y wid \/ wy self == hi_y wid ->
  collide_widget self wid = false.
Proof.
  intros Ht. apply not_true_iff_false. rewrite collide_widget_iff.
  unfold collides_spec. qlra.
Qed.

(** C16. The tolerance boundary.  For a head whose sides are at least one
    unit long and a rectangle whose extents are at least one unit long (of
    either sign), [collide_widget] holds exactly when the two overlap by at
    least one unit on both axes; exactly touching edges never collide. *)
Theorem collide_widget_overlap (self : A) (wid : B) :
  1 <= wwidth self -> 1 <= wheight self ->
  1 <= hi_x wid - lo_x wid -> 1 <= hi_y wid - lo_y wid ->
  collide_widget self wid = true <->
  1 <= overlap (wx self) (right self) (lo_x wid) (hi_x wid) /\
  1 <= overlap (wy self) (top self) (lo_y wid) (hi_y wid).
Proof.
  intros Hw Hh Hx Hy. rewrite collide_widget_iff.
  unfold collides_spec, overlap, right, top in *.
  destruct (Q.min_spec (wx self + wwidth self) (hi_x wid)) as [[? ?]|[? ?]];
  destruct (Q.max_spec (wx self) (lo_x wid)) as [[? ?]|[? ?]];
  destruct (Q.min_spec (wy self + wheight self) (hi_y wid)) as [[? ?]|[? ?]];
  destruct (Q.max_spec (wy self) (lo_y wid)) as [[? ?]|[? ?]]; qlra.
Qed.

End CollisionTheorems.

(** C4. Refinement: [collide_widget] returns [True] exactly when the
    interval specification [collides_spec] holds, for every sign of the
    second widget's width and height. *)
Theorem collide_widget_spec {A B} `{Widget A} `{Widget B} (self : A) (wid : B) :
  collide_widget self wid = true <-> collides_spec self wid.
Proof. apply collide_widget_iff. Qed.

(** C18. Symmetry holds when both widgets have non-negative sizes: then
    [a.collide_widget(b)] and [b.collide_widget(a)] agree. *)
Theorem collide_widget_sym {A B} `{Widget A} `{Widget B} (a : A) (b : B) :
  0 <= wwidth a -> 0 <= wheight a -> 0 <= wwidth b -> 0 <= wheight b ->
  collide_widget a b = collide_widget b a.
Proof.
  intros. apply Bool.eq_iff_eq_true. rewrite !collide_widget_iff.
  unfold collides_spec, lo_x, hi_x, lo_y, hi_y, right, top. qcase; qlra.
Qed.

(** C17. A rectangle of negative width or height, in the role of the
    obstacle, collides with exactly the same heads as the rectangle of
    non-negative size that covers the same region. *)
Theorem collide_widget_normalize {A} `{Widget A} (self : A) (r : rect) :
  collide_widget self (normalize r) = collide_widget self r.
Proof.
  apply Bool.eq_iff_eq_true. rewrite !collide_widget_iff.
  unfold collides_spec, normalize, lo_x, hi_x, lo_y, hi_y, right, top.
  destruct (Qltb_spec (rw r) 0), (Qltb_spec (rh r) 0); qcase;
    cbn [wx wy wwidth wheight rect_widget rx ry rw rh] in *; qlra.
Qed.

