(* ===== verification/Widgets.v ===== *)
(** * Widgets: the data model of the game

    The records below translate the Kivy classes of
    src/simply_snakes/snakes.py.
    - [trail] is class [Trail] (lines 175-178): a rectangle and a color.
    - [snake] is class [Snake] (lines 83-91): its position and size (Kivy
      [pos]/[size]), [color], [direction_x]/[direction_y], the reference
      [trail] and [score].
    - [game] is class [SnakesGame] (lines 16-22), the parent widget.  It
      holds its own size, [status_bar.y], both snakes and the list
      [trails].

    Python lists hold references.  [Snake.trail] and an element of
    [SnakesGame.trails] are the same object, so growing one grows the
    other.  The model keeps every Trail object in a store [heap] indexed
    by its identity.  [trails] and [Snake.trail] hold identities, and
    [next_id] is the next fresh identity.  [children] is the list of Trail
    widgets added to the game with [add_widget], in Kivy's order (newest
    first); the other children of the game (the snakes and the status bar)
    do not change during a run and are left out. *)

From S2P Require Import Prelude Geometry.

Record trail := mk_trail {
  tx : Q; ty : Q; twidth : Q; theight : Q;
  tcolor : list Q
}.

#[export] Instance trail_widget : Widget trail :=
  {| wx := tx; wy := ty; wwidth := twidth; wheight := theight |}.

Record snake := mk_snake {
  sx : Q; sy : Q; swidth : Q; sheight : Q;
  scolor : list Q;
  direction_x : Z; direction_y : Z;
  strail : option nat;
  score : nat
}.

#[export] Instance snake_widget : Widget snake :=
  {| wx := sx; wy := sy; wwidth := swidth; wheight := sheight |}.

(** A snake as the class declares it (lines 86-91): [NumericProperty()]
    defaults to 0 and [ObjectProperty()] to [None].  Position, size and
    color come from the .kv layout. *)
Definition init_snake (x y w h : Q) (c : list Q) : snake :=
  mk_snake x y w h c 0 0 None 0.

(** Field updates, as the assignments of the source perform them. *)
Definition set_pos (s : snake) (x y : Q) : snake :=
  mk_snake x y (swidth s) (sheight s) (scolor s) (direction_x s) (direction_y s)
    (strail s) (score s).

Definition set_dir (s : snake) (dx dy : Z) : snake :=
  mk_snake (sx s) (sy s) (swidth s) (sheight s) (scolor s) dx dy (strail s) (score s).

Definition set_trail (s : snake) (t : option nat) : snake :=
  mk_snake (sx s) (sy s) (swidth s) (sheight s) (scolor s) (direction_x s)
    (direction_y s) t (score s).

(** [score += 1] (lines 65, 68 and 146). *)
Definition add_score (s : snake) : snake :=
  mk_snake (sx s) (sy s) (swidth s) (sheight s) (scolor s) (direction_x s)
    (direction_y s) (strail s) (S (score s)).

Inductive player := Player1 | Player2.

#[export] Instance player_eq_dec : EqDecision player.
Proof. solve_decision. Defined.

Definition other (p : player) : player :=
  match p with Player1 => Player2 | Player2 => Player1 end.

Record game := mk_game {
  gwidth : Q; gheight : Q;
  status_bar_y : Q;
  snake1 : snake; snake2 : snake;
  trails : list nat;
  heap : gmap nat trail;
  next_id : nat;
  children : list nat
}.

(** The game as constructed (lines 19-22): [trails = ListProperty()] starts
    empty and no Trail exists yet. *)
Definition init_game (w h sby : Q) (s1 s2 : snake) : game :=
  mk_game w h sby s1 s2 [] ∅ 0 [].

(** [self.snake1] and [self.snake2], selected by [player]. *)
Definition get_snake (g : game) (p : player) : snake :=
  match p with Player1 => snake1 g | Player2 => snake2 g end.

Definition set_snake (g : game) (p : player) (s : snake) : game :=
  match p with
  | Player1 => mk_game (gwidth g) (gheight g) (status_bar_y g) s (snake2 g)
                 (trails g) (heap g) (next_id g) (children g)
  | Player2 => mk_game (gwidth g) (gheight g) (status_bar_y g) (snake1 g) s
                 (trails g) (heap g) (next_id g) (children g)
  end.

Definition set_heap (g : game) (h : gmap nat trail) : game :=
  mk_game (gwidth g) (gheight g) (status_bar_y g) (snake1 g) (snake2 g)
    (trails g) h (next_id g) (children g).

Definition set_trails_children (g : game) (ts cs : list nat) : game :=
  mk_game (gwidth g) (gheight g) (status_bar_y g) (snake1 g) (snake2 g)
    ts (heap g) (next_id g) cs.

(** ** Lemmas on the accessors *)

Lemma get_set_snake_eq (g : game) (p : player) (s : snake) :
  get_snake (set_snake g p s) p = s.
Proof. by destruct p. Qed.

Lemma get_set_snake_ne (g : game) (p q : player) (s : snake) :
  p ≠ q -> get_snake (set_snake g p s) q = get_snake g q.
Proof. destruct p, q; naive_solver. Qed.

Lemma get_snake_other_ne (p : player) : p ≠ other p.
Proof. by destruct p. Qed.

Lemma ne_other (p q : player) : q ≠ p -> q = other p.
Proof. destruct p, q; done. Qed.

Lemma set_snake_get (g : game) (p : player) : set_snake g p (get_snake g p) = g.
Proof. by destruct g, p. Qed.

(** [set_snake] leaves every other field of the game alone. *)
Lemma gwidth_set_snake g p s : gwidth (set_snake g p s) = gwidth g.
Proof. by destruct p. Qed.
Lemma gheight_set_snake g p s : gheight (set_snake g p s) = gheight g.
Proof. by destruct p. Qed.
Lemma status_bar_y_set_snake g p s : status_bar_y (set_snake g p s) = status_bar_y g.
Proof. by destruct p. Qed.
Lemma trails_set_snake g p s : trails (set_snake g p s) = trails g.
Proof. by destruct p. Qed.
Lemma heap_set_snake g p s : heap (set_snake g p s) = heap g.
Proof. by destruct p. Qed.
Lemma next_id_set_snake g p s : next_id (set_snake g p s) = next_id g.
Proof. by destruct p. Qed.
Lemma children_set_snake g p s : children (set_snake g p s) = children g.
Proof. by destruct p. Qed.

Lemma heap_set_heap (g : game) (h : gmap nat trail) : heap (set_heap g h) = h.
Proof. done. Qed.
Lemma trails_set_heap (g : game) (h : gmap nat trail) : trails (set_heap g h) = trails g.
Proof. done. Qed.
Lemma get_snake_set_heap (g : game) (h : gmap nat trail) (p : player) :
  get_snake (set_heap g h) p = get_snake g p.
Proof. by destruct p. Qed.

#[export] Hint Rewrite heap_set_heap trails_set_heap get_snake_set_heap : snakes_rw.
#[export] Hint Rewrite get_set_snake_eq gwidth_set_snake gheight_set_snake
  status_bar_y_set_snake trails_set_snake heap_set_snake next_id_set_snake
  children_set_snake : snakes_rw.
