(* ===== verification/Snake.v ===== *)
(** * Snake: the methods of class [Snake]

    The operations of src/simply_snakes/snakes.py, class [Snake], on the
    state of the whole game.  [self] is the snake selected by a [player];
    [self.parent] is the game.
    - [speed_scale] is lines 129-133.
    - [move] is lines 127-153: it moves the head, grows the head's trail
      in the store and tests the walls, the status bar, the other head and
      every trail of [parent.trails].
    - [new_trail] and [on_direction] are lines 155-172: the Trail created
      when the direction changes.
    - [set_direction] is Kivy's [ReferenceListProperty] assignment
      [snake.direction = (dx, dy)] (declared at lines 87-89).  It stores the
      pair and fires [on_direction] only when the value changes.

    The theorems give the result of [move] on each branch (position,
    growth of the trail, scoring on a head-on hit) and the placement of a
    new trail. *)

From S2P Require Import Prelude Geometry Widgets.

Section SnakeOps.
Implicit Types (g : game) (p : player) (s : snake) (t : trail).

(** Lines 129-133: speed is scaled to the smaller side of the game. *)
Definition speed_scale g : Q :=
  if gwidth g <? gheight g then gwidth g / 250 else gheight g / 250.

(** Lines 137-138: [trail.width += direction_x * speed_scale] and the same
    for the height. *)
Definition grow_trail (dx dy : Z) (k : Q) t : trail :=
  mk_trail (tx t) (ty t) (twidth t + inject_Z dx * k) (theight t + inject_Z dy * k)
    (tcolor t).

(** One iteration of lines 150-152: does [self] hit the Trail whose
    identity is [id]? *)
Definition trail_hit s (h : gmap nat trail) (id : nat) : bool :=
  match h !! id with
  | Some t => collide_widget s t
  | None => false
  end.

(** Line 135: [self.pos = Vector(self.direction) * speed_scale + self.pos]. *)
Definition advance s (k : Q) : snake :=
  set_pos s (inject_Z (direction_x s) * k + sx s) (inject_Z (direction_y s) * k + sy s).

(** Lines 136-138: [if self.trail:] grow that Trail object in the store. *)
Definition grow_heap s (k : Q) (h : gmap nat trail) : gmap nat trail :=
  match strail s with
  | Some id => alter (grow_trail (direction_x s) (direction_y s) k) id h
  | None => h
  end.

(** Lines 127-153: [self.move(other)].  The checks run in the source's
    order and the first that trips returns [True]; the new position and
    the grown trail are kept in every case. *)
Definition move g p (other_snake : snake) : game * bool :=
  let self := get_snake g p in
  let k := speed_scale g in
  let self1 := advance self k in
  let h := grow_heap self k (heap g) in
  let g1 := set_heap (set_snake g p self1) h in
  if (gwidth g <=? right self1) || (wx self1 <=? 0) then (g1, true)
  else if (status_bar_y g <=? top self1) || (wy self1 <=? 0) then (g1, true)
  else if collide_widget self1 other_snake then (set_snake g1 p (add_score self1), true)
  else (g1, existsb (trail_hit self1 h) (trails g)).

(** Lines 157-169: a Trail with the snake's position, size and color, then
    flattened to zero length along the new direction and placed on the
    snake's side opposite to that direction. *)
Definition new_trail s : trail :=
  let t := mk_trail (sx s) (sy s) (swidth s) (sheight s) (scolor s) in
  if (direction_x s =? 1)%Z then mk_trail (tx t) (ty t) 0 (theight t) (tcolor t)
  else if (direction_x s =? -1)%Z then mk_trail (right s) (ty t) 0 (theight t) (tcolor t)
  else if (direction_y s =? 1)%Z then mk_trail (tx t) (ty t) (twidth t) 0 (tcolor t)
  else if (direction_y s =? -1)%Z then mk_trail (tx t) (top s) (twidth t) 0 (tcolor t)
  else t.

(** Lines 155-172: [on_direction].  The new Trail gets a fresh identity;
    [self.trail] refers to it, [parent.add_widget] puts it first among
    the children and [parent.trails.append] puts it last in [trails]. *)
Definition on_direction g p : game :=
  let self := get_snake g p in
  let id := next_id g in
  let g1 := set_snake g p (set_trail self (Some id)) in
  mk_game (gwidth g1) (gheight g1) (status_bar_y g1) (snake1 g1) (snake2 g1)
    (trails g1 ++ [id]) (<[id := new_trail self]> (heap g1)) (S id) (id :: children g1).

(** [snake.direction = (dx, dy)]: Kivy compares the new value with the
    stored one and dispatches [on_direction] only on a change. *)
Definition set_direction g p (dx dy : Z) : game :=
  let self := get_snake g p in
  if decide ((direction_x self, direction_y self) = (dx, dy)) then g
  else on_direction (set_snake g p (set_dir self dx dy)) p.

(** The four headings a key can give; [(0, 0)] is the idle direction. *)
Definition heading (dx dy : Z) : bool :=
  bool_decide ((dx, dy) ∈ [(1, 0); (-1, 0); (0, 1); (0, -1)]%Z).

Definition valid_direction (dx dy : Z) : bool :=
  heading dx dy || bool_decide ((dx, dy) = (0%Z, 0%Z)).

(** [t] is the rectangle swept by [s] since its last turn: it lies
    behind the head, on the side opposite the heading, with its leading
    edge on the head's trailing edge and the head's cross-section. *)
Definition trail_follows s t : Prop :=
  match direction_x s, direction_y s with
  | 1%Z, 0%Z => tx t + twidth t == sx s /\ 0 <= twidth t /\
                ty t == sy s /\ theight t == sheight s
  | (-1)%Z, 0%Z => tx t + twidth t == right s /\ twidth t <= 0 /\
                   ty t == sy s /\ theight t == sheight s
  | 0%Z, 1%Z => ty t + theight t == sy s /\ 0 <= theight t /\
                tx t == sx s /\ twidth t == swidth s
  | 0%Z, (-1)%Z => ty t + theight t == top s /\ theight t <= 0 /\
                   tx t == sx s /\ twidth t == swidth s
  | _, _ => False
  end.
End SnakeOps.

(** ** Helper lemmas *)

Lemma heading_cases (dx dy : Z) :
  heading dx dy = true ->
  (dx = 1 /\ dy = 0 \/ dx = -1 /\ dy = 0 \/ dx = 0 /\ dy = 1 \/ dx = 0 /\ dy = -1)%Z.
Proof.
  unfold heading. rewrite bool_decide_eq_true, !elem_of_cons, elem_of_nil.
  intros H; destruct_or! H; simplify_eq; tauto.
Qed.

Lemma advance_dir (s : snake) (k : Q) :
  direction_x (advance s k) = direction_x s /\ direction_y (advance s k) = direction_y s.
Proof. done. Qed.

Lemma existsb_trail_hit (s : snake) (h : gmap nat trail) (l : list nat) :
  existsb (trail_hit s h) l = true <->
  exists id t, id ∈ l /\ h !! id = Some t /\ collides_spec s t.
Proof.
  rewrite existsb_exists. unfold trail_hit. split.
  - intros (id & Hin & Hhit). destruct (h !! id) as [t|] eqn:E; [|done].
    exists id, t. rewrite list_elem_of_In, <- collide_widget_iff. done.
  - intros (id & t & Hin & E & Hc). exists id.
    rewrite <- list_elem_of_In, E, collide_widget_iff. done.
Qed.

(** Splits a [trail_follows] hypothesis into its four headings. *)
Ltac destruct_heading s :=
  destruct (direction_x s) as [|[?|?|]|[?|?|]];
  destruct (direction_y s) as [|[?|?|]|[?|?|]]; cbn in *; try contradiction.

(** [trail_follows] reads only the geometry and the direction of the head. *)
Lemma follows_set_trail (s : snake) (o : option nat) (t : trail) :
  trail_follows (set_trail s o) t <-> trail_follows s t.
Proof. done. Qed.

Lemma follows_add_score (s : snake) (t : trail) :
  trail_follows (add_score s) t <-> trail_follows s t.
Proof. done. Qed.

#[export] Hint Rewrite follows_set_trail follows_add_score : snakes_rw.

(** ** Theorems *)

(** C20. Speed scaling: the distance a head moves per tick is the smaller
    side of the game divided by 250. *)
Theorem speed_scale_min (g : game) :
  speed_scale g == Qmin (gwidth g) (gheight g) / 250.
Proof.
  unfold speed_scale. destruct (Q.min_spec (gwidth g) (gheight g)) as [[? ?]|[? ?]];
  qcase; qlra.
Qed.

Lemma speed_scale_nonneg (g : game) :
  0 <= gwidth g -> 0 <= gheight g -> 0 <= speed_scale g.
Proof. unfold speed_scale. qcase; qlra. Qed.

(** A head never hits a trail that follows it: [s.collide_widget(t)] is
    [False], thanks to the one-unit tolerance. *)
Lemma follows_no_collision (s : snake) (t : trail) :
  trail_follows s t -> collide_widget s t = false.
Proof.
  intros Hf. apply not_true_iff_false. rewrite collide_widget_iff.
  unfold trail_follows, collides_spec, lo_x, hi_x, lo_y, hi_y, right, top in *.
  cbn [wx wy wwidth wheight snake_widget trail_widget] in *.
  destruct_heading s; qcase; qlra.
Qed.

(** A new trail follows its head. *)
Lemma new_trail_follows (s : snake) :
  heading (direction_x s) (direction_y s) = true -> trail_follows s (new_trail s).
Proof.
  intros Hh. apply heading_cases in Hh.
  unfold trail_follows, new_trail, right, top.
  destruct Hh as [[-> ->]|[[-> ->]|[[-> ->]|[-> ->]]]]; cbn; qlra.
Qed.

(** One tick keeps a trail following its head, for a non-negative speed. *)
Lemma follows_advance (s : snake) (t : trail) (k : Q) :
  0 <= k -> trail_follows s t ->
  trail_follows (advance s k) (grow_trail (direction_x s) (direction_y s) k t).
Proof.
  intros Hk Hf. unfold trail_follows, advance, grow_trail, right, top in *.
  cbn [wx wy wwidth wheight snake_widget set_pos direction_x direction_y sx sy
       swidth sheight tx ty twidth theight] in *.
  destruct_heading s; qlra.
Qed.

(** What [move] changes: the mover's position (and, on a head-on hit, its
    score) and the mover's trail in the store; nothing else. *)
Lemma move_frame (g : game) (p : player) (o : snake) :
  let s1 := advance (get_snake g p) (speed_scale g) in
  let g' := fst (move g p o) in
  (get_snake g' p = s1 \/ get_snake g' p = add_score s1) /\
  get_snake g' (other p) = get_snake g (other p) /\
  heap g' = grow_heap (get_snake g p) (speed_scale g) (heap g) /\
  trails g' = trails g /\ next_id g' = next_id g /\ children g' = children g /\
  gwidth g' = gwidth g /\ gheight g' = gheight g /\ status_bar_y g' = status_bar_y g.
Proof.
  unfold move. cbn zeta.
  repeat case_match; destruct p; cbn; auto 10.
Qed.

(** The state after [move]: the store with the mover's trail grown, and the
    mover advanced (with one more point on a head-on hit). *)
Lemma move_shape (g : game) (p : player) (o : snake) :
  let s1 := advance (get_snake g p) (speed_scale g) in
  exists s', (s' = s1 \/ s' = add_score s1) /\
    fst (move g p o) =
    set_snake (set_heap g (grow_heap (get_snake g p) (speed_scale g) (heap g))) p s'.
Proof.
  unfold move. cbn zeta.
  repeat case_match; eexists; (split; [by (left + right)|]); by destruct p.
Qed.

(** Without a collision the mover is only advanced. *)
Lemma move_false_snake (g : game) (p : player) (o : snake) :
  snd (move g p o) = false ->
  get_snake (fst (move g p o)) p = advance (get_snake g p) (speed_scale g).
Proof.
  unfold move. cbn zeta. repeat case_match; cbn; try discriminate.
  intros _. apply get_set_snake_eq.
Qed.

(** The head-on branch of [move] (lines 145-147). *)
Lemma move_head_on_branch (g : game) (p : player) (o : snake) :
  let s1 := advance (get_snake g p) (speed_scale g) in
  let h := grow_heap (get_snake g p) (speed_scale g) (heap g) in
  right s1 < gwidth g -> 0 < wx s1 -> top s1 < status_bar_y g -> 0 < wy s1 ->
  collides_spec s1 o ->
  move g p o = (set_snake (set_heap (set_snake g p s1) h) p (add_score s1), true).
Proof.
  intros s1 h H1 H2 H3 H4 Hc. unfold move. fold s1 h.
  apply collide_widget_iff in Hc. rewrite Hc.
  destruct (Qle_bool_spec (gwidth g) (right s1)), (Qle_bool_spec (wx s1) 0),
    (Qle_bool_spec (status_bar_y g) (top s1)), (Qle_bool_spec (wy s1) 0);
  cbn [orb]; first [done | exfalso; qlra].
Qed.

(** C3. [move] reports a collision exactly when the moved head reaches the
    right wall, the left wall, the status bar or the bottom, or collides
    with the other head, or collides with one of the game's trails (after
    its own trail has grown). *)
Theorem move_collided (g : game) (p : player) (o : snake) :
  let s1 := advance (get_snake g p) (speed_scale g) in
  let h := grow_heap (get_snake g p) (speed_scale g) (heap g) in
  snd (move g p o) = true <->
  gwidth g <= right s1 \/ wx s1 <= 0 \/ status_bar_y g <= top s1 \/ wy s1 <= 0 \/
  collides_spec s1 o \/
  (exists id t, id ∈ trails g /\ h !! id = Some t /\ collides_spec s1 t).
Proof.
  unfold move. cbn zeta.
  set (s1 := advance (get_snake g p) (speed_scale g)).
  set (h := grow_heap (get_snake g p) (speed_scale g) (heap g)).
  rewrite !snd_if_true, !orb_true_iff, !Qle_bool_true_iff, collide_widget_iff.
  cbn [snd]. rewrite existsb_trail_hit. tauto.
Qed.

(** C15. Scoring inside [move] (line 146): the mover gains one point exactly
    when its moved head stays inside the walls and below the status bar and
    collides with the other head; otherwise its score is unchanged. *)
Theorem move_score (g : game) (p : player) (o : snake) :
  let s := get_snake g p in
  let s1 := advance s (speed_scale g) in
  let head_on := right s1 < gwidth g /\ 0 < wx s1 /\ top s1 < status_bar_y g /\
                 0 < wy s1 /\ collides_spec s1 o in
  let s' := get_snake (fst (move g p o)) p in
  (head_on /\ score s' = S (score s)) \/ (~ head_on /\ score s' = score s).
Proof.
  unfold move. cbn zeta.
  set (s1 := advance (get_snake g p) (speed_scale g)).
  rewrite <- collide_widget_iff.
  destruct (Qle_bool_spec (gwidth g) (right s1)), (Qle_bool_spec (wx s1) 0),
    (Qle_bool_spec (status_bar_y g) (top s1)), (Qle_bool_spec (wy s1) 0);
  cbn [orb fst]; rewrite ?get_set_snake_eq;
  try (right; split; [intros ?; destruct_and?; qlra | destruct p; done]).
  destruct (collide_widget s1 o); cbn [fst]; rewrite ?get_set_snake_eq.
  - left. split; [done|]. destruct p; done.
  - right. split; [intros ?; destruct_and?; done | destruct p; done].
Qed.
