(* ===== verification/Game.v ===== *)
(** * Game: the methods of class [SnakesGame]

    The operations of src/simply_snakes/snakes.py, class [SnakesGame].
    - [steer] and [on_keyboard_down] are [_on_keyboard_down] (lines
      33-57): a key names a snake and a heading.  The heading is assigned
      unless the snake currently has the opposite heading.
    - [set_center] is Kivy's [center] setter as [reset] uses it (lines
      73-74).
    - [remove_trail_widgets] and [reset] are lines 71-80.
    - [update] is lines 62-69, one tick: snake 1 moves first; if it
      collided, snake 2 scores and the game resets, and snake 2 does not
      move in that tick.
    - [event] and [run] are the Kivy event loop that [run] (lines 59-60)
      starts: clock ticks every 1/60 s interleaved with key presses.

    The theorems give the guard of the key handler, the state after
    [reset] and its idempotence, and the scoring and preemption of
    [update]. *)

From S2P Require Import Prelude Geometry Widgets Snake.

(** One branch of lines 34-57:
    [if snake.direction != forbidden: snake.direction = d]. *)
Definition steer (g : game) (p : player) (forbidden d : Z * Z) : game :=
  let s := get_snake g p in
  if decide ((direction_x s, direction_y s) = forbidden) then g
  else set_direction g p d.1 d.2.

(** Lines 33-57: [_on_keyboard_down]; [key] is [keycode[1]]. *)
Definition on_keyboard_down (g : game) (key : string) : game :=
  if String.eqb key "s"%string then steer g Player1 (0, 1)%Z (0, -1)%Z
  else if String.eqb key "w"%string then steer g Player1 (0, -1)%Z (0, 1)%Z
  else if String.eqb key "a"%string then steer g Player1 (1, 0)%Z (-1, 0)%Z
  else if String.eqb key "d"%string then steer g Player1 (-1, 0)%Z (1, 0)%Z
  else if String.eqb key "down"%string then steer g Player2 (0, 1)%Z (0, -1)%Z
  else if String.eqb key "up"%string then steer g Player2 (0, -1)%Z (0, 1)%Z
  else if String.eqb key "left"%string then steer g Player2 (1, 0)%Z (-1, 0)%Z
  else if String.eqb key "right"%string then steer g Player2 (-1, 0)%Z (1, 0)%Z
  else g.

(** The key map the handler implements, as a table: the snake a key steers
    and the heading it asks for. *)
Definition bindings : list (string * (player * (Z * Z))) :=
  [("s", (Player1, (0, -1))); ("w", (Player1, (0, 1)));
   ("a", (Player1, (-1, 0))); ("d", (Player1, (1, 0)));
   ("down", (Player2, (0, -1))); ("up", (Player2, (0, 1)));
   ("left", (Player2, (-1, 0))); ("right", (Player2, (1, 0)))]%string%Z.

Definition binding (key : string) : option (player * (Z * Z)) :=
  snd <$> find (fun e => String.eqb key e.1) bindings.

Definition opposite (d : Z * Z) : Z * Z := (- d.1, - d.2)%Z.

Definition dir_of (s : snake) : Z * Z := (direction_x s, direction_y s).

(** Kivy's [Widget.center] setter: [x = cx - width / 2], [y = cy - height / 2]. *)
Definition set_center (s : snake) (cx cy : Q) : snake :=
  set_pos s (cx - swidth s / 2) (cy - sheight s / 2).

(** Lines 78-79: [self.remove_widget(trail)] for each trail of the list. *)
Definition remove_trail_widgets (g : game) : list nat :=
  foldl (fun cs id => remove_first id cs) (children g) (trails g).

(** Lines 71-80: [reset].  The assignments of [(0, 0)] fire
    [on_direction] for a snake that was not idle, which adds a Trail that
    the loop below removes again; [self.trail] keeps referring to it. *)
Definition reset (g : game) : game :=
  let g1 := set_snake g Player1 (set_center (snake1 g) (gwidth g / 3) (gheight g / 2)) in
  let g2 := set_snake g1 Player2
              (set_center (snake2 g1) (gwidth g1 * 2 / 3) (gheight g1 / 2)) in
  let g3 := set_direction g2 Player1 0 0 in
  let g4 := set_direction g3 Player2 0 0 in
  set_trails_children g4 [] (remove_trail_widgets g4).

(** Lines 62-69: [update(dt)]; [dt] is not used by the code. *)
Definition update (g : game) : game :=
  let '(g1, c1) := move g Player1 (snake2 g) in
  if c1 then reset (set_snake g1 Player2 (add_score (snake2 g1)))
  else
    let '(g2, c2) := move g1 Player2 (snake1 g1) in
    if c2 then reset (set_snake g2 Player1 (add_score (snake1 g2)))
    else g2.

(** The events the Kivy loop delivers to the game. *)
Inductive event :=
  | Tick                     (* Clock.schedule_interval(self.update, 1/60.) *)
  | Key (key : string).      (* on_key_down *)

Definition handle (g : game) (e : event) : game :=
  match e with
  | Tick => update g
  | Key k => on_keyboard_down g k
  end.

(** The game after a sequence of events. *)
Definition run (g : game) (es : list event) : game := foldl handle g es.

(** Whether the next [n] ticks run without any collision. *)
Fixpoint quiet (g : game) (n : nat) : bool :=
  match n with
  | O => true
  | S n =>
      let '(g1, c1) := move g Player1 (snake2 g) in
      let '(_, c2) := move g1 Player2 (snake1 g1) in
      negb c1 && negb c2 && quiet (update g) n
  end.

(** ** Lemmas on [set_direction] *)

Lemma set_direction_frame (g : game) (p : player) (dx dy : Z) :
  let g' := set_direction g p dx dy in
  let s := get_snake g p in
  let s' := get_snake g' p in
  gwidth g' = gwidth g /\ gheight g' = gheight g /\ status_bar_y g' = status_bar_y g /\
  get_snake g' (other p) = get_snake g (other p) /\
  sx s' = sx s /\ sy s' = sy s /\ swidth s' = swidth s /\ sheight s' = sheight s /\
  score s' = score s /\ direction_x s' = dx /\ direction_y s' = dy.
Proof.
  unfold set_direction. case_decide as Hd.
  - simplify_eq. destruct p; cbn; rewrite <- ?H0, <- ?H1; auto 20.
  - destruct p; cbn; auto 20.
Qed.

(** Assigning the current direction again does nothing. *)
Lemma set_direction_same (g : game) (p : player) :
  set_direction g p (direction_x (get_snake g p)) (direction_y (get_snake g p)) = g.
Proof. unfold set_direction. by rewrite decide_True. Qed.

(** The trails and children of the game after a direction change: either
    unchanged, or one fresh Trail appended to [trails] and put first among
    the children. *)
Lemma set_direction_trails (g : game) (p : player) (dx dy : Z) :
  let g' := set_direction g p dx dy in
  (trails g' = trails g /\ children g' = children g /\ next_id g' = next_id g /\
   heap g' = heap g) \/
  (trails g' = trails g ++ [next_id g] /\ children g' = next_id g :: children g /\
   next_id g' = S (next_id g) /\
   heap g' = <[next_id g := new_trail (set_dir (get_snake g p) dx dy)]> (heap g) /\
   strail (get_snake g' p) = Some (next_id g)).
Proof.
  unfold set_direction. case_decide; [by left|right].
  unfold on_direction. destruct p; cbn; auto 10.
Qed.

(** ** Theorems on the key handler *)

Lemma on_keyboard_down_table (g : game) (k : string) :
  on_keyboard_down g k =
  match binding k with
  | Some (p, d) =>
      if decide (dir_of (get_snake g p) = opposite d) then g else set_direction g p d.1 d.2
  | None => g
  end.
Proof.
  unfold on_keyboard_down, binding, steer, dir_of, opposite. cbn.
  repeat match goal with
  | |- context [String.eqb k ?key] => destruct (String.eqb k key); [done|]
  end.
  done.
Qed.

(** C8. Refinement of [_on_keyboard_down]: the eight branches of the source
    implement one rule.  Look the key up in the table [bindings]; if the
    snake it names currently has the opposite heading, do nothing; otherwise
    assign the heading.  Unknown keys do nothing. *)
Theorem on_keyboard_down_spec (g : game) (k : string) :
  on_keyboard_down g k =
  match binding k with
  | Some (p, d) =>
      if decide (dir_of (get_snake g p) = opposite d) then g else set_direction g p d.1 d.2
  | None => g
  end.
Proof. apply on_keyboard_down_table. Qed.

(** C7. No reversal: a key asking a snake for the opposite of its current
    heading leaves the whole game unchanged, so no trail is created. *)
Theorem no_reversal (g : game) (k : string) (p : player) (d : Z * Z) :
  binding k = Some (p, d) -> dir_of (get_snake g p) = opposite d ->
  on_keyboard_down g k = g.
Proof.
  intros Hb Hd. rewrite on_keyboard_down_table, Hb. by rewrite decide_True.
Qed.

(** C9. A key that changes a snake's heading assigns it and creates, at
    that moment, one new Trail.  The Trail gets the next fresh identity, is
    appended to [trails] and first among the children, and becomes the
    snake's [trail]. *)
Theorem on_keyboard_down_turn (g : game) (k : string) (p : player) (d : Z * Z) :
  binding k = Some (p, d) ->
  dir_of (get_snake g p) <> opposite d -> dir_of (get_snake g p) <> d ->
  let g' := on_keyboard_down g k in
  dir_of (get_snake g' p) = d /\ trails g' = trails g ++ [next_id g] /\
  children g' = next_id g :: children g /\ strail (get_snake g' p) = Some (next_id g) /\
  heap g' !! next_id g = Some (new_trail (set_dir (get_snake g p) d.1 d.2)).
Proof.
  intros Hb Hop Hne. cbn zeta. rewrite on_keyboard_down_table, Hb, decide_False by done.
  unfold set_direction. rewrite decide_False by (unfold dir_of in Hne; by destruct d).
  unfold on_direction, dir_of. destruct p, d; cbn; by rewrite lookup_insert_eq.
Qed.

(** ** Theorems on [reset] *)

(** The Trail widgets among the children are the trails of the list. *)
Lemma set_direction_perm (g : game) (p : player) (dx dy : Z) :
  children g ≡ₚ trails g ->
  children (set_direction g p dx dy) ≡ₚ trails (set_direction g p dx dy).
Proof.
  intros Hc. destruct (set_direction_trails g p dx dy) as [(-> & -> & _)|(-> & -> & _)];
    [done|].
  rewrite Hc. apply Permutation_cons_append.
Qed.

Lemma remove_trail_widgets_perm (g : game) :
  children g ≡ₚ trails g -> remove_trail_widgets g = [].
Proof. apply fold_remove_first_perm. Qed.

(** The fields of both snakes and of the game after [reset]. *)
Lemma reset_fields (g : game) :
  let g' := reset g in
  sx (snake1 g') = gwidth g / 3 - swidth (snake1 g) / 2 /\
  sy (snake1 g') = gheight g / 2 - sheight (snake1 g) / 2 /\
  sx (snake2 g') = gwidth g * 2 / 3 - swidth (snake2 g) / 2 /\
  sy (snake2 g') = gheight g / 2 - sheight (snake2 g) / 2 /\
  swidth (snake1 g') = swidth (snake1 g) /\ sheight (snake1 g') = sheight (snake1 g) /\
  swidth (snake2 g') = swidth (snake2 g) /\ sheight (snake2 g') = sheight (snake2 g) /\
  dir_of (snake1 g') = (0, 0)%Z /\ dir_of (snake2 g') = (0, 0)%Z /\
  score (snake1 g') = score (snake1 g) /\ score (snake2 g') = score (snake2 g) /\
  gwidth g' = gwidth g /\ gheight g' = gheight g /\ status_bar_y g' = status_bar_y g /\
  trails g' = [] /\
  (children g ≡ₚ trails g -> children g' = []).
Proof.
  unfold reset.
  set (g2 := set_snake (set_snake g Player1 _) Player2 _).
  set (g3 := set_direction g2 Player1 0 0).
  set (g4 := set_direction g3 Player2 0 0).
  pose proof (set_direction_frame g2 Player1 0 0) as F3.
  pose proof (set_direction_frame g3 Player2 0 0) as F4.
  cbn zeta in F3, F4. fold g3 in F3. fold g4 in F4.
  destruct_and! F3. destruct_and! F4. cbn [get_snake other] in *.
  cbn [snake1 snake2 set_trails_children trails children gwidth gheight status_bar_y].
  unfold dir_of.
  repeat match goal with H : ?lhs = _ |- context [?lhs] => rewrite H end.
  subst g2. cbn. split_and!; try done.
  intros Hc. apply remove_trail_widgets_perm. by do 2 apply set_direction_perm.
Qed.

Lemma set_pos_same (s : snake) : set_pos s (sx s) (sy s) = s.
Proof. by destruct s. Qed.

Lemma set_direction_id (g : game) (p : player) (dx dy : Z) :
  dir_of (get_snake g p) = (dx, dy) -> set_direction g p dx dy = g.
Proof. intros Hd. unfold set_direction. by rewrite decide_True. Qed.

(** C10. [reset]: both heads are centred at a third and two thirds of the
    game's width and half its height, both are idle, the trail list is
    empty and no Trail widget is left among the children (when the children
    were the trails of the list).  Scores are kept. *)
Theorem reset_spec (g : game) :
  children g ≡ₚ trails g ->
  let g' := reset g in
  sx (snake1 g') = gwidth g / 3 - swidth (snake1 g) / 2 /\
  sy (snake1 g') = gheight g / 2 - sheight (snake1 g) / 2 /\
  sx (snake2 g') = gwidth g * 2 / 3 - swidth (snake2 g) / 2 /\
  sy (snake2 g') = gheight g / 2 - sheight (snake2 g) / 2 /\
  dir_of (snake1 g') = (0, 0)%Z /\ dir_of (snake2 g') = (0, 0)%Z /\
  trails g' = [] /\ children g' = [] /\
  score (snake1 g') = score (snake1 g) /\ score (snake2 g') = score (snake2 g).
Proof.
  intros Hc. pose proof (reset_fields g) as F. cbn zeta in F. destruct_and! F.
  split_and!; auto.
Qed.

(** [reset] is idempotent: resetting twice gives the same game as
    resetting once (same positions, idle directions, empty trail list,
    same children and the same Trail objects). *)
Theorem reset_idempotent (g : game) : reset (reset g) = reset g.
Proof.
  pose proof (reset_fields g) as F. cbn zeta in F.
  destruct F as (Hx1 & Hy1 & Hx2 & Hy2 & Hw1 & Hh1 & Hw2 & Hh2 & Hd1 & Hd2 &
                 _ & _ & Hgw & Hgh & _ & Htr & _).
  set (r := reset g) in *. clearbody r.
  unfold reset at 1. unfold set_center.
  rewrite Hgw, Hgh, Hw1, Hh1, <- Hx1, <- Hy1, set_pos_same.
  change (snake1 r) with (get_snake r Player1). rewrite set_snake_get.
  rewrite Hgw, Hgh, Hw2, Hh2, <- Hx2, <- Hy2, set_pos_same.
  change (snake2 r) with (get_snake r Player2). rewrite set_snake_get.
  rewrite (set_direction_id r Player1 0 0 Hd1), (set_direction_id r Player2 0 0 Hd2).
  unfold remove_trail_widgets. rewrite Htr. cbn.
  clear -Htr. destruct r; cbn in *. by rewrite Htr.
Qed.

(** ** Theorems on [update] *)

Lemma reset_scores (g : game) :
  score (snake1 (reset g)) = score (snake1 g) /\ score (snake2 (reset g)) = score (snake2 g).
Proof. pose proof (reset_fields g) as F. cbn zeta in F. destruct_and! F. done. Qed.

Lemma move_score_step (g : game) (p : player) (o : snake) :
  score (get_snake (fst (move g p o)) p) = score (get_snake g p) \/
  score (get_snake (fst (move g p o)) p) = S (score (get_snake g p)).
Proof.
  pose proof (move_frame g p o) as F. cbn zeta in F.
  destruct F as [[-> | ->] _]; [left|right]; done.
Qed.

Lemma move_false_score (g : game) (p : player) (o : snake) :
  snd (move g p o) = false ->
  score (get_snake (fst (move g p o)) p) = score (get_snake g p).
Proof. intros Hf. by rewrite move_false_snake. Qed.

Lemma move_other (g : game) (p : player) (o : snake) :
  get_snake (fst (move g p o)) (other p) = get_snake g (other p).
Proof. pose proof (move_frame g p o) as F. cbn zeta in F. by destruct_and! F. Qed.

(** C5. The order of a tick, on each of its three outcomes.
    - Preemption: when snake 1's move collides, snake 2 scores one point
      and the game resets in the same tick; snake 2 is not moved (its state
      before the reset is its state before the tick, plus the point).
    - When only snake 2's move collides, snake 1 scores one point on top of
      its state after its own move (a head-on point of the same tick
      counts), and the game resets.
    - When neither collides, the tick leaves both moves in place. *)
Theorem update_collision_order (g : game) :
  let '(g1, c1) := move g Player1 (snake2 g) in
  let '(g2, c2) := move g1 Player2 (snake1 g1) in
  (c1 = true -> update g = reset (set_snake g1 Player2 (add_score (snake2 g)))) /\
  (c1 = false -> c2 = true -> update g = reset (set_snake g2 Player1 (add_score (snake1 g1)))) /\
  (c1 = false -> c2 = false -> update g = g2).
Proof.
  pose proof (move_other g Player1 (snake2 g)) as O1. cbn in O1. unfold update.
  destruct (move g Player1 (snake2 g)) as [g1 c1]. cbn in O1.
  pose proof (move_other g1 Player2 (snake1 g1)) as O2. cbn in O2.
  destruct (move g1 Player2 (snake1 g1)) as [g2 c2]. cbn in O2.
  split_and!; intros; simplify_eq; [by rewrite O1 | by rewrite O2 | done].
Qed.

(** The four possible outcomes of a tick for the scores: no point, a point
    for snake 2, a point for snake 1, a point for both. *)
Lemma update_score_cases (g : game) :
  let g' := update g in
  let a := score (snake1 g) in
  let b := score (snake2 g) in
  (score (snake1 g') = a /\ score (snake2 g') = b) \/
  (score (snake1 g') = a /\ score (snake2 g') = S b) \/
  (score (snake1 g') = S a /\ score (snake2 g') = b) \/
  (score (snake1 g') = S a /\ score (snake2 g') = S b).
Proof.
  pose proof (move_score_step g Player1 (snake2 g)) as S1.
  pose proof (move_false_score g Player1 (snake2 g)) as F1.
  pose proof (move_other g Player1 (snake2 g)) as O1.
  unfold update. destruct (move g Player1 (snake2 g)) as [g1 []]; cbn [fst snd get_snake other] in *.
  - destruct (reset_scores (set_snake g1 Player2 (add_score (snake2 g1)))) as [-> ->].
    cbn [snake1 snake2 set_snake score add_score]. rewrite O1. destruct S1 as [-> | ->]; tauto.
  - specialize (F1 eq_refl).
    pose proof (move_score_step g1 Player2 (snake1 g1)) as S2.
    pose proof (move_false_score g1 Player2 (snake1 g1)) as F2.
    pose proof (move_other g1 Player2 (snake1 g1)) as O2.
    destruct (move g1 Player2 (snake1 g1)) as [g2 []]; cbn [fst snd get_snake other] in *.
    + destruct (reset_scores (set_snake g2 Player1 (add_score (snake1 g2)))) as [-> ->].
      cbn [snake1 snake2 set_snake score add_score]. rewrite O2, F1, <- O1. destruct S2 as [-> | ->]; tauto.
    + rewrite O2, F1, F2, <- O1 by done. tauto.
Qed.

(** C6. Double award on a head-on hit: when snake 1's moved head stays
    inside the walls and below the status bar and collides with snake 2's
    head, snake 1 scores in [move] (line 146) and snake 2 scores in
    [update] (line 65).  Both gain exactly one point in that tick. *)
Theorem update_head_on (g : game) :
  let s1 := advance (snake1 g) (speed_scale g) in
  right s1 < gwidth g -> 0 < wx s1 -> top s1 < status_bar_y g -> 0 < wy s1 ->
  collides_spec s1 (snake2 g) ->
  score (snake1 (update g)) = S (score (snake1 g)) /\
  score (snake2 (update g)) = S (score (snake2 g)).
Proof.
  intros s1 H1 H2 H3 H4 Hc. unfold update.
  rewrite (move_head_on_branch g Player1 (snake2 g)) by done.
  match goal with |- context [reset ?x] => destruct (reset_scores x) as [-> ->] end.
  done.
Qed.

(** C19. The head-on hit of snake 2: when snake 1's move is quiet and snake 2's
    moved head stays inside the walls and below the status bar and hits
    snake 1's moved head, snake 2 scores in [move] and snake 1 in
    [update] (line 68): both gain exactly one point in that tick, as in
    [update_head_on]. *)
Theorem update_head_on_snake2 (g : game) :
  let g1 := fst (move g Player1 (snake2 g)) in
  let s2 := advance (snake2 g1) (speed_scale g1) in
  snd (move g Player1 (snake2 g)) = false ->
  right s2 < gwidth g1 -> 0 < wx s2 -> top s2 < status_bar_y g1 -> 0 < wy s2 ->
  collides_spec s2 (snake1 g1) ->
  score (snake1 (update g)) = S (score (snake1 g)) /\
  score (snake2 (update g)) = S (score (snake2 g)).
Proof.
  cbv zeta. intros Hq H1 H2 H3 H4 Hc.
  pose proof (move_false_score g Player1 (snake2 g) Hq) as F1.
  pose proof (move_other g Player1 (snake2 g)) as O1.
  unfold update. destruct (move g Player1 (snake2 g)) as [g1 c1]. cbn in Hq, F1, O1 |- *. subst c1.
  rewrite (move_head_on_branch g1 Player2 (snake1 g1)) by done.
  match goal with |- context [reset ?x] => destruct (reset_scores x) as [-> ->] end.
  cbn. by rewrite F1, O1.
Qed.

(** C25. The wall check comes before the head-on check in [move] (lines
    141-147): when snake 1's moved head reaches a wall or the status bar,
    the tick gives snake 2 one point and snake 1 none, whether or not
    snake 1's head also overlaps snake 2's head; there is no double award
    at a wall. *)
Theorem update_wall_preempts (g : game) :
  let s1 := advance (snake1 g) (speed_scale g) in
  gwidth g <= right s1 \/ wx s1 <= 0 \/ status_bar_y g <= top s1 \/ wy s1 <= 0 ->
  score (snake1 (update g)) = score (snake1 g) /\
  score (snake2 (update g)) = S (score (snake2 g)).
Proof.
  cbv zeta. intros Hw. unfold update.
  replace (move g Player1 (snake2 g)) with
    (set_heap (set_snake g Player1 (advance (snake1 g) (speed_scale g)))
       (grow_heap (snake1 g) (speed_scale g) (heap g)), true).
  2:{ unfold move. cbn [get_snake].
      destruct (Qle_bool_spec (gwidth g) (right (advance (snake1 g) (speed_scale g)))),
        (Qle_bool_spec (wx (advance (snake1 g) (speed_scale g))) 0),
        (Qle_bool_spec (status_bar_y g) (top (advance (snake1 g) (speed_scale g)))),
        (Qle_bool_spec (wy (advance (snake1 g) (speed_scale g))) 0);
      cbn [orb]; first [done | exfalso; destruct_or! Hw; qlra]. }
  match goal with |- context [reset ?x] => destruct (reset_scores x) as [-> ->] end.
  done.
Qed.

Lemma update_score_step (g : game) (p : player) :
  score (get_snake (update g) p) = score (get_snake g p) \/
  score (get_snake (update g) p) = S (score (get_snake g p)).
Proof. destruct (update_score_cases g) as [|[|[|]]]; destruct p; cbn; lia. Qed.

Lemma on_keyboard_down_score (g : game) (k : string) (p : player) :
  score (get_snake (on_keyboard_down g k) p) = score (get_snake g p).
Proof.
  rewrite on_keyboard_down_table. destruct (binding k) as [[q d]|]; [|done].
  case_decide; [done|].
  pose proof (set_direction_frame g q d.1 d.2) as F. cbn zeta in F.
  destruct F as (_ & _ & _ & Ho & _ & _ & _ & _ & Hs & _).
  destruct (decide (p = q)) as [->|Hne]; [done|].
  by rewrite (ne_other q p Hne), Ho.
Qed.

(** A tick without collision advances both heads and changes nothing else
    that [speed_scale] or the directions read. *)
Lemma update_quiet_snake (g : game) (p : player) :
  let '(g1, c1) := move g Player1 (snake2 g) in
  let '(_, c2) := move g1 Player2 (snake1 g1) in
  c1 = false -> c2 = false ->
  get_snake (update g) p = advance (get_snake g p) (speed_scale g) /\
  gwidth (update g) = gwidth g /\ gheight (update g) = gheight g.
Proof.
  unfold update.
  pose proof (move_false_snake g Player1 (snake2 g)) as A1.
  pose proof (move_other g Player1 (snake2 g)) as O1.
  pose proof (move_frame g Player1 (snake2 g)) as F1. cbn zeta in F1.
  destruct (move g Player1 (snake2 g)) as [g1 c1]. cbn [fst snd other get_snake] in *.
  destruct F1 as (_ & _ & _ & _ & _ & _ & W1 & H1 & _).
  pose proof (move_false_snake g1 Player2 (snake1 g1)) as A2.
  pose proof (move_other g1 Player2 (snake1 g1)) as O2.
  pose proof (move_frame g1 Player2 (snake1 g1)) as F2. cbn zeta in F2.
  destruct (move g1 Player2 (snake1 g1)) as [g2 c2]. cbn [fst snd other get_snake] in *.
  destruct F2 as (_ & _ & _ & _ & _ & _ & W2 & H2 & _).
  intros -> ->. specialize (A1 eq_refl). specialize (A2 eq_refl).
  unfold speed_scale in *. rewrite W1, H1 in A2. cbn.
  split_and!.
  - destruct p; cbn; [by rewrite O2 | by rewrite A2, O1].
  - by rewrite W2.
  - by rewrite H2.
Qed.

(** The position and direction of a head after [n] quiet ticks. *)
Lemma quiet_advance (g : game) (n : nat) (p : player) :
  quiet g n = true ->
  let s := get_snake g p in
  let s' := get_snake (run g (repeat Tick n)) p in
  sx s' == sx s + inject_Z (Z.of_nat n) * (inject_Z (direction_x s) * speed_scale g) /\
  sy s' == sy s + inject_Z (Z.of_nat n) * (inject_Z (direction_y s) * speed_scale g) /\
  dir_of s' = dir_of s.
Proof.
  revert g. induction n as [|n IH]; intros g Hq; cbn zeta.
  - cbn. split_and!; [ring | ring | done].
  - cbn [quiet] in Hq. pose proof (update_quiet_snake g p) as U.
    destruct (move g Player1 (snake2 g)) as [g1 c1].
    destruct (move g1 Player2 (snake1 g1)) as [g2 c2].
    apply andb_true_iff in Hq as [Hq Hrest]. apply andb_true_iff in Hq as [Hc1 Hc2].
    apply negb_true_iff in Hc1, Hc2.
    destruct (U Hc1 Hc2) as (Hs & Hw & Hh).
    destruct (IH (update g) Hrest) as (Hx & Hy & Hd).
    change (run g (repeat Tick (S n))) with (run (update g) (repeat Tick n)).
    assert (Hk : speed_scale (update g) = speed_scale g) by (unfold speed_scale; rewrite Hw, Hh; reflexivity).
    rewrite Hs, Hk in Hx, Hy. rewrite Hs in Hd. cbn in Hx, Hy, Hd.
    rewrite Nat2Z.inj_succ. unfold Z.succ. rewrite inject_Z_plus. unfold dir_of in *.
    split_and!; [rewrite Hx; ring | rewrite Hy; ring | done].
Qed.

(** C14. Movement: while [n] ticks run without collision, each head moves
    [n] times its direction scaled by [speed_scale]; with a 250 x 250 game
    that is one unit per tick. *)
Theorem ticks_advance (g : game) (n : nat) (p : player) :
  quiet g n = true ->
  let s := get_snake g p in
  let s' := get_snake (run g (repeat Tick n)) p in
  sx s' == sx s + inject_Z (Z.of_nat n) * (inject_Z (direction_x s) * speed_scale g) /\
  sy s' == sy s + inject_Z (Z.of_nat n) * (inject_Z (direction_y s) * speed_scale g) /\
  dir_of s' = dir_of s.
Proof. apply quiet_advance. Qed.
