(* ===== verification/Keyboard.v ===== *)
(** * Keyboard: the plumbing around the game, and the key map

    src/simply_snakes/snakes.py connects the game to Kivy in four places:
    - [SnakesGame.__init__] (lines 24-27) requests the window's keyboard and
      binds [_on_keyboard_down] to its [on_key_down] event;
    - [_keyboard_closed] (lines 29-31), the callback Kivy calls when the
      keyboard is released, unbinds the handler and sets [self._keyboard]
      to [None];
    - [run] (lines 59-60) schedules [update] on the clock;
    - [SnakesApp.build] (lines 187-193) creates the game and calls [run].
    [main] (lines 196-197) runs [build] and then Kivy's event loop.

    [app] is the state these methods touch: the keyboard object of the
    window (whether the handler is bound to it), the attribute
    [self._keyboard] (the keyboard object or [None]), whether [update] is
    scheduled, and the game.  The methods are statements of the [Python]
    monad: [self._keyboard.unbind(...)] through [None] raises
    [AttributeError].  [app_handle] is what Kivy does on a clock tick, a
    key press and a release of the keyboard; [request_keyboard] and
    [release_keyboard] are the two methods of Kivy's window that the code
    relies on.

    The key map: [key_for p d] is the key that steers snake [p] to the
    heading [d].  The round trip theorem says that pressing a key turns an
    idle snake to [d] exactly when the key is [key_for p d].

    The keyboard release goes through Kivy's [release_keyboard], which
    clears the keyboard's callback before calling [_keyboard_closed]: the
    callback runs at most once per [request_keyboard].  So every run from
    [launched] stays [launched] until the first release and [released]
    after it ([launched_outcome]), and [main] never raises. *)

From S2P Require Import Prelude Geometry Widgets Snake Game Python.

(** The keyboard object Kivy's window hands out: whether
    [_on_keyboard_down] is bound to its [on_key_down] event, and whether
    its [callback] holds [_keyboard_closed] (set by [request_keyboard],
    [None] otherwise). *)
Record keyboard := mk_keyboard { handler_bound : bool; callback_set : bool }.

Record app := mk_app {
  window_keyboard : keyboard;
  (** [self._keyboard]: the window's keyboard object ([true]; the window
      has one) or [None] ([false]). *)
  game_keyboard : bool;
  (** [Clock.schedule_interval(self.update, 1/60.)] has run. *)
  scheduled : bool;
  app_game : game
}.

Definition set_window_keyboard (a : app) (k : keyboard) : app :=
  mk_app k (game_keyboard a) (scheduled a) (app_game a).
Definition set_game_keyboard (a : app) (o : bool) : app :=
  mk_app (window_keyboard a) o (scheduled a) (app_game a).
Definition set_scheduled (a : app) : app :=
  mk_app (window_keyboard a) (game_keyboard a) true (app_game a).
Definition set_app_game (a : app) (g : game) : app :=
  mk_app (window_keyboard a) (game_keyboard a) (scheduled a) g.

Abbreviation A R X := (pyM app R X).

(** [self._keyboard.bind(on_key_down=...)] or [.unbind(...)]: a method
    call through the attribute, which raises when it holds [None]. *)
Definition bind_handler {R} (b : bool) : A R unit :=
  a ← py_get;
  if game_keyboard a then
    py_modify (fun a => set_window_keyboard a (mk_keyboard b (callback_set (window_keyboard a))))
  else py_raise AttributeError.

(** Kivy's [Window.request_keyboard(callback, target)] with the system
    keyboard: it stores [callback] in the keyboard object and returns that
    object. *)
Definition request_keyboard {R} : A R unit :=
  py_modify (fun a => set_window_keyboard a (mk_keyboard (handler_bound (window_keyboard a)) true)).

(** Kivy's [Window.release_keyboard()]: when the keyboard holds a
    callback, it sets [keyboard.callback = None] and only then calls the
    callback [cb]; without a callback it does nothing. *)
Definition release_keyboard (cb : A unit unit) : A unit unit :=
  a ← py_get;
  py_if (callback_set (window_keyboard a))
    (py_modify (fun a => set_window_keyboard a (mk_keyboard (handler_bound (window_keyboard a)) false));;
     call cb).

(** Lines 24-27: [SnakesGame.__init__] after [Widget.__init__]. *)
Definition sg_init : A unit unit :=
  request_keyboard;;
  py_modify (fun a => set_game_keyboard a true);;
  bind_handler true.

(** Lines 29-31: [_keyboard_closed]. *)
Definition keyboard_closed : A unit unit :=
  bind_handler false;;
  py_modify (fun a => set_game_keyboard a false).

(** Lines 59-60: [SnakesGame.run]. *)
Definition sg_run : A unit unit := py_modify set_scheduled.

(** Lines 187-193: [SnakesApp.build]; [Config.set] changes no state of
    the game. *)
Definition build : A unit unit := call sg_init;; call sg_run.

Inductive app_event := AppTick | AppKey (k : string) | AppKeyboardClosed.

(** Kivy's dispatch: a tick calls [update] once it is scheduled, a key
    press calls the handler bound to the keyboard, a release of the
    keyboard goes through [release_keyboard], which calls
    [_keyboard_closed] at most once per request. *)
Definition app_handle (e : app_event) : A unit unit :=
  a ← py_get;
  match e with
  | AppTick => py_if (scheduled a) (py_modify (fun a => set_app_game a (update (app_game a))))
  | AppKey k =>
      py_if (handler_bound (window_keyboard a))
        (py_modify (fun a => set_app_game a (on_keyboard_down (app_game a) k)))
  | AppKeyboardClosed => release_keyboard keyboard_closed
  end.

Fixpoint app_run (a : app) (es : list app_event) : (app + py_error)%type :=
  match es with
  | [] => inl a
  | e :: es' => match exec (app_handle e) a with inl a' => app_run a' es' | inr err => inr err end
  end.

(** The key of [bindings] that steers snake [p] to the heading [d]. *)
Definition key_for (p : player) (d : Z * Z) : option string :=
  fst <$> find (fun e => bool_decide (e.2 = (p, d))) bindings.

#[export] Instance app_event_eq_dec : EqDecision app_event.
Proof. solve_decision. Defined.

(** The window before the game exists: its keyboard object has no handler
    and nothing is scheduled. *)
Definition app0 (g : game) : app := mk_app (mk_keyboard false false) false false g.

(** The application once [build] has run, and once the keyboard has been
    released. *)
Definition launched (g : game) : app := mk_app (mk_keyboard true true) true true g.
Definition released (g : game) : app := mk_app (mk_keyboard false false) false true g.

(** Lines 196-197: [main], i.e. [SnakesApp().run()]: Kivy's [App.run]
    calls [build] on the window and then dispatches the events that arrive
    until one raises (none does: [main_never_raises]).  [g] is the game [SnakesGame()] builds from the
    layout of snakes.kv. *)
Definition sg_main (g : game) (es : list app_event) : (app + py_error)%type :=
  match exec build (app0 g) with
  | inl a => app_run a es
  | inr err => inr err
  end.

(** The events of the game loop of [Game] that a sequence of application
    events delivers to the game: all of them while the handler is bound,
    only the ticks once the keyboard is released. *)
Definition game_events (es : list app_event) : list event :=
  omap (fun e => match e with
                 | AppTick => Some Tick
                 | AppKey k => Some (Key k)
                 | AppKeyboardClosed => None
                 end) es.

Definition tick_events (es : list app_event) : list event :=
  omap (fun e => match e with AppTick => Some Tick | _ => None end) es.

(** The attribute [self._keyboard], the binding of the handler and the
    callback of the keyboard agree: all three hold exactly while the game
    owns the keyboard. *)
Definition keyboard_consistent (a : app) : bool :=
  Bool.eqb (handler_bound (window_keyboard a)) (game_keyboard a) &&
  Bool.eqb (callback_set (window_keyboard a)) (game_keyboard a).

(** ** Lemmas *)

(** One event of Kivy's dispatch, before and after the release. *)
Lemma launched_step (g : game) (e : app_event) :
  exec (app_handle e) (launched g) =
    inl (match e with
         | AppTick => launched (update g)
         | AppKey k => launched (on_keyboard_down g k)
         | AppKeyboardClosed => released g
         end).
Proof. by destruct e. Qed.

Lemma released_step (g : game) (e : app_event) :
  exec (app_handle e) (released g) =
    inl (match e with
         | AppTick => released (update g)
         | _ => released g
         end).
Proof. by destruct e. Qed.

(** After the release, no event raises and the application stays
    released. *)
Lemma released_outcome (g : game) (es : list app_event) :
  exists g', app_run (released g) es = inl (released g').
Proof.
  revert g. induction es as [|e es IH]; intros g; [by eexists|]. cbn [app_run].
  rewrite released_step. destruct e; apply IH.
Qed.

(** From [launched], no event raises: the application stays launched until
    the first release and released after it. *)
Lemma launched_outcome (g : game) (es : list app_event) :
  exists g', app_run (launched g) es = inl (launched g') \/
             app_run (launched g) es = inl (released g').
Proof.
  revert g. induction es as [|e es IH]; intros g; [eexists; by left|]. cbn [app_run].
  rewrite launched_step. destruct e as [|k|]; [apply IH | apply IH |].
  destruct (released_outcome g es) as [g' Hr]. exists g'. by right.
Qed.

Lemma build_eval (g : game) : exec build (app0 g) = inl (launched g).
Proof. done. Qed.

Lemma launched_run (g : game) (es : list app_event) :
  AppKeyboardClosed ∉ es -> app_run (launched g) es = inl (launched (run g (game_events es))).
Proof.
  revert g. induction es as [|e es IH]; intros g Hc; [done|].
  rewrite not_elem_of_cons in Hc. destruct Hc as [He Hc].
  destruct e as [|k|]; [| |done]; cbn [app_run game_events omap]; apply IH, Hc.
Qed.

Lemma released_run (g : game) (es : list app_event) :
  AppKeyboardClosed ∉ es -> app_run (released g) es = inl (released (run g (tick_events es))).
Proof.
  revert g. induction es as [|e es IH]; intros g Hc; [done|].
  rewrite not_elem_of_cons in Hc. destruct Hc as [He Hc].
  destruct e as [|k|]; [| |done]; cbn [app_run tick_events omap]; apply IH, Hc.
Qed.

Lemma key_for_binding (k : string) (p : player) (d : Z * Z) :
  binding k = Some (p, d) <-> key_for p d = Some k.
Proof.
  unfold binding, key_for. split.
  - intros Hb. apply fmap_Some in Hb as [[k' [p' d']] [Hf Hpd]]. cbn in Hpd. simplify_eq.
    apply find_some in Hf as [Hin Hk]. apply String.eqb_eq in Hk. cbn in Hk. subst k.
    cbn in Hin. destruct_or! Hin; simplify_eq; try done; vm_compute; reflexivity.
  - intros Hk. apply fmap_Some in Hk as [[k' [p' d']] [Hf Hk]]. cbn in Hk. subst k.
    apply find_some in Hf as [Hin Hpd]. apply bool_decide_eq_true in Hpd. cbn in Hpd.
    simplify_eq. cbn in Hin. destruct_or! Hin; simplify_eq; try done; vm_compute; reflexivity.
Qed.

Lemma heading_nonzero (d : Z * Z) : heading d.1 d.2 = true -> d <> (0, 0)%Z.
Proof. intros Hh ->. discriminate. Qed.

Lemma set_direction_dir (g : game) (p q : player) (dx dy : Z) :
  dir_of (get_snake (set_direction g q dx dy) p) =
  if decide (p = q) then (dx, dy) else dir_of (get_snake g p).
Proof.
  pose proof (set_direction_frame g q dx dy) as F. cbn zeta in F.
  destruct F as (_ & _ & _ & Ho & _ & _ & _ & _ & _ & Hx & Hy). unfold dir_of.
  case_decide as Hpq; [subst; by rewrite Hx, Hy|]. by rewrite (ne_other q p Hpq), Ho.
Qed.

(** Pressing [k] on a game where snake [p] is idle turns it to the heading
    [d] exactly when [k] is the key of [(p, d)]. *)
Lemma idle_turn (g : game) (k : string) (p : player) (d : Z * Z) :
  heading d.1 d.2 = true -> dir_of (get_snake g p) = (0, 0)%Z ->
  key_for p d = Some k <-> dir_of (get_snake (on_keyboard_down g k) p) = d.
Proof.
  intros Hh Hidle. pose proof (heading_nonzero d Hh) as Hd0.
  rewrite <- key_for_binding, on_keyboard_down_table. split.
  - intros ->. rewrite decide_False.
    + rewrite set_direction_dir, decide_True by done. by destruct d.
    + rewrite Hidle. unfold opposite. destruct d as [x y]. intros [= Hx Hy].
      apply Hd0. f_equal; lia.
  - destruct (binding k) as [[q d']|]; [|congruence].
    case_decide; [congruence|]. rewrite set_direction_dir.
    case_decide; [|congruence]. subst q. destruct d'. cbn. by intros ->.
Qed.

(** ** Theorems *)

(** C33. Round trip of the key map: on a game where snake [p] is idle,
    pressing the key [k] turns [p] to the heading [d] exactly when [k] is
    [key_for p d].  Each of the eight (snake, heading) pairs has one key,
    and no other key produces it. *)
Theorem key_roundtrip (g : game) (k : string) (p : player) (d : Z * Z) :
  heading d.1 d.2 = true -> dir_of (get_snake g p) = (0, 0)%Z ->
  key_for p d = Some k <-> dir_of (get_snake (on_keyboard_down g k) p) = d.
Proof. apply idle_turn. Qed.

(** C35. Refinement of Kivy's loop: after [SnakesApp.build], until the
    keyboard is released, every key press reaches [_on_keyboard_down] and
    every clock tick reaches [update], in order: the application runs the
    event loop [run] of the game. *)
Theorem app_refines_loop (g : game) (es : list app_event) :
  AppKeyboardClosed ∉ es ->
  exec build (app0 g) = inl (launched g) /\
  app_run (launched g) es = inl (launched (run g (game_events es))).
Proof. intros Hc. split; [apply build_eval | by apply launched_run]. Qed.

(** C36. Once the keyboard is released, key presses no longer reach the
    game: the clock keeps calling [update], and the game evolves by the
    ticks alone. *)
Theorem keys_ignored_after_release (g : game) (es : list app_event) :
  AppKeyboardClosed ∉ es ->
  app_run (launched g) (AppKeyboardClosed :: es) = inl (released (run g (tick_events es))).
Proof. intros Hc. by apply released_run. Qed.

(** C34. Error behaviour and state invariant of [main]: no sequence of
    clock ticks, key presses and releases of the keyboard makes the
    application raise.  [_keyboard_closed] would raise [AttributeError] if
    it ran twice ([unbind] through [None]), but Kivy clears the keyboard's
    callback before calling it, so it runs at most once.  Every run ends
    with [update] scheduled and with [self._keyboard], the binding of the
    handler and the keyboard's callback in agreement. *)
Theorem main_never_raises (g : game) (es : list app_event) :
  exists a, sg_main g es = inl a /\ keyboard_consistent a = true /\ scheduled a = true.
Proof.
  unfold sg_main. rewrite build_eval.
  destruct (launched_outcome g es) as [g' [-> | ->]]; by eexists.
Qed.
