(* ===== verification/Invariants.v ===== *)
(** * Invariants: well-formed game states and what they guarantee

    A game is well formed ([wf]) when it satisfies the following.
    - Its sides are non-negative, so the speed scale is too.
    - Each direction is idle or one of the four headings.
    - Every identity held by [trails] or by a snake's [trail] was allocated:
      it is below [next_id].
    - The two snakes never refer to the same Trail.
    - The Trail widgets among the children are a permutation of [trails].
    - A snake with a heading refers to a Trail of [trails] that
      [trail_follows] it.  This is the aliasing fact the code relies on:
      growing [self.trail] in [move] grows the rectangle that [trails]
      presents to the collision checks.

    [initial] recognises a game as the .kv layout builds it: no trails and
    idle snakes.  [reachable] is rule induction over the events of the Kivy
    loop.  The theorems show:
    - every reachable game is well formed;
    - directions stay valid;
    - a heading snake's own trail never triggers its collision;
    - scores never decrease and grow by at most one per tick. *)

From S2P Require Import Prelude Geometry Widgets Snake Game.

Definition live_trail (g : game) (p : player) : Prop :=
  let s := get_snake g p in
  heading (direction_x s) (direction_y s) = true ->
  exists id t, strail s = Some id /\ id ∈ trails g /\ heap g !! id = Some t /\
               trail_follows s t.

(** The part of [wf] that does not speak about positions. *)
Record wf_base (g : game) : Prop := {
  wf_width : 0 <= gwidth g;
  wf_height : 0 <= gheight g;
  wf_dir : forall p, valid_direction (direction_x (get_snake g p))
                                     (direction_y (get_snake g p)) = true;
  wf_fresh_trails : forall id, id ∈ trails g -> (id < next_id g)%nat;
  wf_fresh_refs : forall p id, strail (get_snake g p) = Some id -> (id < next_id g)%nat;
  wf_distinct : forall id, strail (snake1 g) = Some id -> strail (snake2 g) <> Some id;
  wf_children : children g ≡ₚ trails g
}.

Definition wf (g : game) : Prop := wf_base g /\ forall p, live_trail g p.

(** A game as the .kv layout builds it. *)
Definition initial (g : game) : bool :=
  (0 <=? gwidth g) && (0 <=? gheight g) &&
  bool_decide (trails g = []) && bool_decide (children g = []) &&
  bool_decide (dir_of (snake1 g) = (0, 0)%Z) && bool_decide (dir_of (snake2 g) = (0, 0)%Z) &&
  bool_decide (strail (snake1 g) = None) && bool_decide (strail (snake2 g) = None).

Inductive reachable : game -> Prop :=
  | reachable_init (g : game) : initial g = true -> reachable g
  | reachable_step (g : game) (e : event) : reachable g -> reachable (handle g e).

(** ** Lemmas: which operations keep [wf_base] *)

Lemma valid_direction_zero : valid_direction 0 0 = true.
Proof. done. Qed.

Lemma heading_zero : heading 0 0 = false.
Proof. done. Qed.

Lemma heading_valid (dx dy : Z) : heading dx dy = true -> valid_direction dx dy = true.
Proof. unfold valid_direction. by intros ->. Qed.

Lemma initial_wf (g : game) : initial g = true -> wf g.
Proof.
  unfold initial, dir_of. rewrite !andb_true_iff, !Qle_bool_true_iff, !bool_decide_eq_true.
  intros (((((((Hw & Hh) & Ht) & Hc) & Hd1) & Hd2) & Hs1) & Hs2).
  injection Hd1 as Hx1 Hy1. injection Hd2 as Hx2 Hy2.
  split; [split|]; try done.
  - intros []; cbn; [rewrite Hx1, Hy1 | rewrite Hx2, Hy2]; done.
  - intros id. rewrite Ht. set_solver.
  - intros [] id; cbn; congruence.
  - intros id. congruence.
  - by rewrite Ht, Hc.
  - intros [] Hhd; cbn in Hhd; [rewrite Hx1, Hy1 in Hhd | rewrite Hx2, Hy2 in Hhd]; done.
Qed.

(** Changing a snake's position, score or direction (to a valid one), and
    keeping its [trail], keeps [wf_base]. *)
Lemma wf_base_set_snake (g : game) (p : player) (s : snake) :
  wf_base g ->
  valid_direction (direction_x s) (direction_y s) = true ->
  strail s = strail (get_snake g p) ->
  wf_base (set_snake g p s).
Proof.
  intros [Hw Hh Hd Hft Hfr Hdi Hc] Hv Ht.
  split; autorewrite with snakes_rw; try done.
  - intros q. destruct (decide (p = q)) as [<-|Hne].
    + by rewrite get_set_snake_eq.
    + rewrite get_set_snake_ne by done. apply Hd.
  - intros q id. destruct (decide (p = q)) as [<-|Hne].
    + rewrite get_set_snake_eq, Ht. apply Hfr.
    + rewrite get_set_snake_ne by done. apply Hfr.
  - destruct p; cbn in *; rewrite Ht; [apply Hdi|].
    intros id H1 H2. by apply (Hdi id).
Qed.

Lemma wf_base_on_direction (g : game) (p : player) :
  wf_base g -> wf_base (on_direction g p).
Proof.
  intros [Hw Hh Hd Hft Hfr Hdi Hc].
  assert (Hlt : forall q id, strail (get_snake g q) = Some id -> id ≠ next_id g).
  { intros q id Hq ->. specialize (Hfr q _ Hq). lia. }
  split; try (by destruct p); unfold on_direction.
  - intros []; destruct p; cbn; apply (Hd Player1) || apply (Hd Player2).
  - intros id. cbn. destruct p; cbn; rewrite elem_of_app, list_elem_of_singleton;
      intros [Hin| ->]; [specialize (Hft id Hin); lia | lia | specialize (Hft id Hin); lia | lia].
  - intros [] id; destruct p; cbn; intros Hs; simplify_eq;
      try lia; first [specialize (Hfr Player1 id Hs) | specialize (Hfr Player2 id Hs)]; lia.
  - destruct p; cbn; intros id Hs1 Hs2; simplify_eq.
    + by apply (Hlt Player2 (next_id g)).
    + by apply (Hlt Player1 (next_id g)).
  - destruct p; cbn; rewrite Hc; apply Permutation_cons_append.
Qed.

Lemma wf_base_set_direction (g : game) (p : player) (dx dy : Z) :
  wf_base g -> valid_direction dx dy = true -> wf_base (set_direction g p dx dy).
Proof.
  intros Hb Hv. unfold set_direction. case_decide; [done|].
  apply wf_base_on_direction, wf_base_set_snake; done.
Qed.

Lemma wf_base_set_heap (g : game) (h : gmap nat trail) :
  wf_base g -> wf_base (set_heap g h).
Proof. intros [] ; by split. Qed.

Lemma wf_distinct_other (g : game) (p : player) (id : nat) :
  wf_base g -> strail (get_snake g p) = Some id -> strail (get_snake g (other p)) <> Some id.
Proof.
  intros Hb Hs. destruct p; cbn in *.
  - by apply (wf_distinct _ Hb).
  - intros Hs1. by apply (wf_distinct _ Hb id Hs1).
Qed.

(** ** Lemmas: the live trails *)

Lemma on_direction_fields (g : game) (p : player) :
  let g' := on_direction g p in
  trails g' = trails g ++ [next_id g] /\
  heap g' = <[next_id g := new_trail (get_snake g p)]> (heap g) /\
  get_snake g' p = set_trail (get_snake g p) (Some (next_id g)) /\
  get_snake g' (other p) = get_snake g (other p).
Proof. by destruct p. Qed.

Lemma live_on_direction (g : game) (p : player) :
  wf_base g -> live_trail g (other p) ->
  forall q, live_trail (on_direction g p) q.
Proof.
  intros Hb Hl q. destruct (on_direction_fields g p) as (Ht & Hh & Hp & Ho).
  unfold live_trail. rewrite Ht, Hh.
  destruct (decide (q = p)) as [->|Hne].
  - rewrite Hp. intros Hhd. exists (next_id g), (new_trail (get_snake g p)).
    rewrite lookup_insert_eq, elem_of_app, list_elem_of_singleton.
    split_and!; try tauto. rewrite follows_set_trail. by apply new_trail_follows.
  - rewrite (ne_other p q Hne) in *.
    rewrite Ho. intros Hhd. destruct (Hl Hhd) as (id & t & Hs & Hin & Hid & Hf).
    exists id, t. rewrite lookup_insert_ne, elem_of_app; [tauto|].
    intros Heq. pose proof (wf_fresh_refs _ Hb (other p) _ Hs). lia.
Qed.

Lemma wf_set_direction (g : game) (p : player) (dx dy : Z) :
  wf g -> valid_direction dx dy = true -> wf (set_direction g p dx dy).
Proof.
  intros [Hb Hl] Hv. split; [by apply wf_base_set_direction|].
  unfold set_direction. case_decide; [done|].
  apply live_on_direction; [by apply wf_base_set_snake|].
  unfold live_trail. rewrite get_set_snake_ne, trails_set_snake, heap_set_snake
    by apply get_snake_other_ne.
  apply Hl.
Qed.

Lemma wf_move (g : game) (p : player) (o : snake) : wf g -> wf (fst (move g p o)).
Proof.
  intros [Hb Hl]. pose proof (speed_scale_nonneg g (wf_width _ Hb) (wf_height _ Hb)) as Hk.
  destruct (move_shape g p o) as (s' & Hs' & ->).
  set (s := get_snake g p) in *. set (k := speed_scale g) in *.
  assert (Hdir : direction_x s' = direction_x s /\ direction_y s' = direction_y s)
    by (by destruct Hs' as [-> | ->]).
  split.
  - apply wf_base_set_snake; [by apply wf_base_set_heap| |].
    + destruct Hdir as [-> ->]. apply (wf_dir _ Hb p).
    + rewrite get_snake_set_heap. by destruct Hs' as [-> | ->].
  - intros q. unfold live_trail. autorewrite with snakes_rw.
    destruct (decide (q = p)) as [->|Hne].
    + rewrite get_set_snake_eq. destruct Hdir as [-> ->]. intros Hhd.
      destruct (Hl p Hhd) as (id & t & Hs & Hin & Hid & Hf). fold s in Hs, Hf.
      exists id, (grow_trail (direction_x s) (direction_y s) k t).
      unfold grow_heap. rewrite Hs, lookup_alter_eq, Hid.
      assert (Hs'' : strail s' = strail s) by (by destruct Hs' as [-> | ->]).
      split_and!; [by rewrite Hs'', Hs | done | done |].
      destruct Hs' as [-> | ->]; rewrite ?follows_add_score; by apply follows_advance.
    + rewrite get_set_snake_ne, get_snake_set_heap by done.
      intros Hhd. destruct (Hl q Hhd) as (id & t & Hs & Hin & Hid & Hf).
      exists id, t. split_and!; try done.
      unfold grow_heap. destruct (strail s) as [ip|] eqn:Ep; [|done].
      rewrite lookup_alter_ne; [done|]. intros ->.
      rewrite (ne_other p q Hne) in *.
      by apply (wf_distinct_other g p id Hb Ep).
Qed.

Lemma wf_add_score (g : game) (p : player) :
  wf g -> wf (set_snake g p (add_score (get_snake g p))).
Proof.
  intros [Hb Hl]. split.
  - apply wf_base_set_snake; [done | apply (wf_dir _ Hb p) | done].
  - intros q. unfold live_trail. autorewrite with snakes_rw.
    destruct (decide (q = p)) as [->|Hne].
    + rewrite get_set_snake_eq. apply Hl.
    + rewrite get_set_snake_ne by done. apply Hl.
Qed.

Lemma wf_base_set_center (g : game) (p : player) (cx cy : Q) :
  wf_base g -> wf_base (set_snake g p (set_center (get_snake g p) cx cy)).
Proof. intros Hb. apply wf_base_set_snake; [done | apply (wf_dir _ Hb p) | done]. Qed.

(** [reset] needs only [wf_base]: both snakes end idle, so no trail has to
    follow them. *)
Lemma wf_reset (g : game) : wf_base g -> wf (reset g).
Proof.
  intros Hb. pose proof (reset_fields g) as F. cbn zeta in F.
  destruct F as (_ & _ & _ & _ & _ & _ & _ & _ & Hd1 & Hd2 & _ & _ & _ & _ & _ & Htr & Hch).
  unfold dir_of in Hd1, Hd2.
  assert (Hb4 : wf_base (reset g)).
  { unfold reset.
    set (g4 := set_direction (set_direction _ Player1 0 0) Player2 0 0).
    assert (Hg4 : wf_base g4).
    { apply wf_base_set_direction; [|done]. apply wf_base_set_direction; [|done].
      apply (wf_base_set_center (set_snake g Player1 _) Player2).
      apply (wf_base_set_center g Player1). done. }
    destruct Hg4 as [Hw Hh Hd Hft Hfr Hdi Hc]. split; try done; cbn.
    - set_solver.
    - by rewrite (remove_trail_widgets_perm g4 Hc). }
  apply pair_equal_spec in Hd1 as [Ex1 Ey1]. apply pair_equal_spec in Hd2 as [Ex2 Ey2].
  split; [done|]. intros [] Hhd; cbn [get_snake] in Hhd;
    [rewrite Ex1, Ey1 in Hhd | rewrite Ex2, Ey2 in Hhd]; done.
Qed.

Lemma wf_update (g : game) : wf g -> wf (update g).
Proof.
  intros Hwf. unfold update.
  pose proof (wf_move g Player1 (snake2 g) Hwf) as H1.
  destruct (move g Player1 (snake2 g)) as [g1 []]; cbn [fst] in H1.
  - apply wf_reset. apply (wf_add_score g1 Player2 H1).
  - pose proof (wf_move g1 Player2 (snake1 g1) H1) as H2.
    destruct (move g1 Player2 (snake1 g1)) as [g2 []]; cbn [fst] in H2; [|done].
    apply wf_reset. apply (wf_add_score g2 Player1 H2).
Qed.

Lemma binding_heading (k : string) (p : player) (d : Z * Z) :
  binding k = Some (p, d) -> heading d.1 d.2 = true.
Proof.
  unfold binding. cbn.
  repeat match goal with
  | |- context [String.eqb k ?key] => destruct (String.eqb k key)
  end; cbn; intros; simplify_eq; done.
Qed.

Lemma wf_on_keyboard_down (g : game) (k : string) : wf g -> wf (on_keyboard_down g k).
Proof.
  intros Hwf. rewrite on_keyboard_down_table.
  destruct (binding k) as [[p d]|] eqn:Hb; [|done].
  case_decide; [done|]. apply wf_set_direction; [done|].
  apply heading_valid. by apply (binding_heading k p d).
Qed.

Lemma wf_handle (g : game) (e : event) : wf g -> wf (handle g e).
Proof. destruct e; [apply wf_update | apply wf_on_keyboard_down]. Qed.

Lemma reachable_wf (g : game) : reachable g -> wf g.
Proof.
  induction 1 as [g Hi|g e _ IH]; [by apply initial_wf | by apply wf_handle].
Qed.

Lemma run_reachable (g : game) (es : list event) : reachable g -> reachable (run g es).
Proof.
  revert g. induction es as [|e es IH]; intros g Hr; [done|].
  apply IH. by constructor.
Qed.

Lemma run_wf (g0 : game) (es : list event) : initial g0 = true -> wf (run g0 es).
Proof. intros Hi. apply reachable_wf, run_reachable. by constructor. Qed.

Lemma run_cons (g : game) (e : event) (es : list event) :
  run g (e :: es) = run (handle g e) es.
Proof. done. Qed.

(** Number of clock ticks among the events. *)
Definition is_tick (e : event) : bool := match e with Tick => true | Key _ => false end.

Definition ticks (es : list event) : nat := length (filter (fun e => is_tick e = true) es).

Lemma ticks_cons (e : event) (es : list event) :
  ticks (e :: es) = (match e with Tick => 1 | Key _ => 0 end + ticks es)%nat.
Proof. unfold ticks. rewrite filter_cons. by destruct e. Qed.

(** ** Theorems *)

(** C2. Invariant, by rule induction over the Kivy loop: every game
    reachable from an initial one by clock ticks and key presses is well
    formed.  In particular a snake with a heading refers to a Trail of the
    game's list that is exactly the rectangle the head swept since its last
    turn. *)
Theorem wf_reachable (g : game) : reachable g -> wf g.
Proof.
  induction 1 as [g Hi|g e _ IH]; [by apply initial_wf | by apply wf_handle].
Qed.

(** C13. Type invariant: in every run from an initial game, each snake's
    direction is idle [(0, 0)] or one of the four headings. *)
Theorem directions_valid (g0 : game) (es : list event) (p : player) :
  initial g0 = true ->
  valid_direction (direction_x (get_snake (run g0 es) p))
                  (direction_y (get_snake (run g0 es) p)) = true.
Proof. intros Hi. apply (wf_dir _ (proj1 (run_wf g0 es Hi))). Qed.

(** C1. Safety: in every run from an initial game, a snake with a heading
    has a trail in the game's list, and the next [move] never reports a
    collision with that trail, even after growing it. *)
Theorem own_trail_safe (g0 : game) (es : list event) (p : player) :
  initial g0 = true ->
  let g := run g0 es in
  let s := get_snake g p in
  let k := speed_scale g in
  heading (direction_x s) (direction_y s) = true ->
  exists id, strail s = Some id /\ id ∈ trails g /\
             trail_hit (advance s k) (grow_heap s k (heap g)) id = false.
Proof.
  intros Hi. cbn zeta. intros Hhd. destruct (run_wf g0 es Hi) as [Hb Hl].
  pose proof (speed_scale_nonneg _ (wf_width _ Hb) (wf_height _ Hb)) as Hk.
  destruct (Hl p Hhd) as (id & t & Hs & Hin & Hid & Hf).
  exists id. split_and!; [done | done |].
  unfold trail_hit, grow_heap. rewrite Hs, lookup_alter_eq, Hid. cbn.
  apply follows_no_collision. by apply follows_advance.
Qed.

(** C12. Bounds on scores: along any sequence of events, no score ever
    decreases, and a score grows by at most the number of clock ticks. *)
Theorem score_bounds (g0 : game) (es : list event) (p : player) :
  (score (get_snake g0 p) <= score (get_snake (run g0 es) p) <=
   score (get_snake g0 p) + ticks es)%nat.
Proof.
  revert g0. induction es as [|e es IH]; intros g0; [cbn; lia|].
  rewrite run_cons, ticks_cons. specialize (IH (handle g0 e)).
  destruct e as [|k]; cbn [handle] in *.
  - destruct (update_score_step g0 p); lia.
  - rewrite on_keyboard_down_score in IH. lia.
Qed.
