(* ===== verification/StateMachine.v ===== *)
(** * StateMachine: the direction machine and the discipline of the trail list

    The direction of a snake follows a small state machine: it stays, it
    turns to a heading that is not the opposite of the current direction
    (on a key press), or it becomes idle (on the [reset] of a tick with a
    collision).  [dir_trans] is that machine, labelled by the event of the
    loop; every event of [handle] moves each snake's direction along it.

    The list [trails] only grows within a round: a key press appends at
    most one Trail, a tick without collision keeps it, and only a tick with
    a collision empties it.  A Trail that no snake refers to any more is
    frozen: no later event changes its rectangle in the store. *)

From S2P Require Import Prelude Geometry Widgets Snake Game Keyboard Invariants.

Inductive dir_trans : event -> Z * Z -> Z * Z -> Prop :=
  | dir_stay (e : event) (d : Z * Z) : dir_trans e d d
  | dir_turn (k : string) (d d' : Z * Z) :
      heading d'.1 d'.2 = true -> d' <> opposite d -> dir_trans (Key k) d d'
  | dir_idle (d : Z * Z) : dir_trans Tick d (0, 0)%Z.

(** The discipline of the trail list in one event, from [g] to [g']: a
    key press keeps the list or appends the Trail it creates; a tick keeps
    it when no snake collides and empties it when one does. *)
Definition trail_discipline (e : event) (g g' : game) : Prop :=
  match e with
  | Key _ => trails g' = trails g \/ trails g' = trails g ++ [next_id g]
  | Tick => (quiet g 1 = true /\ trails g' = trails g) \/ (quiet g 1 = false /\ trails g' = [])
  end.

(** No snake refers to the Trail [id]. *)
Definition frozen (g : game) (id : nat) : Prop :=
  forall p, strail (get_snake g p) <> Some id.

#[export] Instance frozen_dec (g : game) (id : nat) : Decision (frozen g id).
Proof.
  destruct (decide (strail (snake1 g) <> Some id /\ strail (snake2 g) <> Some id)) as [[H1 H2]|H].
  - left. by intros [].
  - right. intros Hf. apply H. split; [apply (Hf Player1)|apply (Hf Player2)].
Defined.

(** ** Lemmas *)

Lemma opposite_involutive (d : Z * Z) : opposite (opposite d) = d.
Proof. destruct d as [x y]. unfold opposite. cbn. f_equal; lia. Qed.

Lemma move_dir (g : game) (p q : player) (o : snake) :
  dir_of (get_snake (fst (move g p o)) q) = dir_of (get_snake g q).
Proof.
  pose proof (move_frame g p o) as F. cbn zeta in F.
  destruct F as [Hs [Ho _]]. destruct (decide (q = p)) as [->|Hne].
  - by destruct Hs as [-> | ->].
  - by rewrite (ne_other p q Hne), Ho.
Qed.

Lemma reset_dir (g : game) (p : player) : dir_of (get_snake (reset g) p) = (0, 0)%Z.
Proof. pose proof (reset_fields g) as F. cbn zeta in F. destruct_and! F. by destruct p. Qed.

(** A tick leaves every direction as it was, or makes both snakes idle. *)
Lemma update_dir (g : game) (p : player) :
  dir_of (get_snake (update g) p) = dir_of (get_snake g p) \/
  dir_of (get_snake (update g) p) = (0, 0)%Z.
Proof.
  unfold update. pose proof (move_dir g Player1 p (snake2 g)) as D1.
  destruct (move g Player1 (snake2 g)) as [g1 c1]. cbn [fst] in D1.
  pose proof (move_dir g1 Player2 p (snake1 g1)) as D2.
  destruct (move g1 Player2 (snake1 g1)) as [g2 c2]. cbn [fst] in D2.
  destruct c1; [right; apply reset_dir|]. destruct c2; [right; apply reset_dir|].
  left. by rewrite D2.
Qed.

(** The trails after a tick: unchanged without a collision, empty after
    one. *)
Lemma update_trails (g : game) :
  (quiet g 1 = true /\ trails (update g) = trails g) \/
  (quiet g 1 = false /\ trails (update g) = []).
Proof.
  unfold update, quiet.
  pose proof (move_frame g Player1 (snake2 g)) as F1. cbn zeta in F1.
  destruct (move g Player1 (snake2 g)) as [g1 c1]. cbn [fst] in F1.
  pose proof (move_frame g1 Player2 (snake1 g1)) as F2. cbn zeta in F2.
  destruct (move g1 Player2 (snake1 g1)) as [g2 c2]. cbn [fst] in F2.
  destruct_and! F1. destruct_and! F2.
  destruct c1; [right; split; [done|]|destruct c2; [right; split; [done|]|left; split; [done|]]];
    try congruence;
    match goal with |- trails (reset ?x) = [] =>
      pose proof (reset_fields x) as R; cbn zeta in R; by destruct_and! R end.
Qed.

(** [g'] keeps the Trail [id] of [g] frozen and unchanged. *)
Definition keeps (id : nat) (g g' : game) : Prop :=
  (id < next_id g)%nat -> frozen g id ->
  heap g' !! id = heap g !! id /\ (id < next_id g')%nat /\ frozen g' id.

Lemma keeps_trans (id : nat) (g1 g2 g3 : game) :
  keeps id g1 g2 -> keeps id g2 g3 -> keeps id g1 g3.
Proof.
  intros H12 H23 Hn Hf. destruct (H12 Hn Hf) as (Hh & Hn2 & Hf2).
  destruct (H23 Hn2 Hf2) as (Hh' & Hn3 & Hf3). by rewrite Hh', Hh.
Qed.

Lemma keeps_set_snake (id : nat) (g : game) (p : player) (s : snake) :
  strail s = strail (get_snake g p) -> keeps id g (set_snake g p s).
Proof.
  intros Hs Hn Hf. rewrite heap_set_snake, next_id_set_snake. split_and!; [done|done|].
  intros q. destruct (decide (p = q)) as [<-|Hne].
  - rewrite get_set_snake_eq, Hs. apply Hf.
  - rewrite get_set_snake_ne by done. apply Hf.
Qed.

Lemma on_direction_next (g : game) (p : player) :
  heap (on_direction g p) = <[next_id g := new_trail (get_snake g p)]> (heap g) /\
  next_id (on_direction g p) = S (next_id g) /\
  strail (get_snake (on_direction g p) p) = Some (next_id g) /\
  get_snake (on_direction g p) (other p) = get_snake g (other p).
Proof. by destruct p. Qed.

Lemma keeps_on_direction (id : nat) (g : game) (p : player) : keeps id g (on_direction g p).
Proof.
  intros Hn Hf. destruct (on_direction_next g p) as (Hh & Hnx & Hp & Ho).
  rewrite Hh, Hnx, lookup_insert_ne by lia. split_and!; [done|lia|].
  intros q. destruct (decide (q = p)) as [->|Hne].
  - rewrite Hp. intros [= Heq]. lia.
  - rewrite (ne_other p q Hne), Ho. apply Hf.
Qed.

Lemma keeps_set_direction (id : nat) (g : game) (p : player) (dx dy : Z) :
  keeps id g (set_direction g p dx dy).
Proof.
  unfold set_direction. case_decide; [by intros ? ?|].
  apply (keeps_trans _ _ (set_snake g p (set_dir (get_snake g p) dx dy)));
    [by apply keeps_set_snake|apply keeps_on_direction].
Qed.

Lemma keeps_move (id : nat) (g : game) (p : player) (o : snake) : keeps id g (fst (move g p o)).
Proof.
  intros Hn Hf. destruct (move_shape g p o) as (s' & Hs' & ->).
  assert (Hst : strail s' = strail (get_snake g p)) by (by destruct Hs' as [-> | ->]).
  destruct (keeps_set_snake id (set_heap g (grow_heap (get_snake g p) (speed_scale g) (heap g))) p s')
    as (Hh & Hn' & Hf'); [by rewrite get_snake_set_heap|done|intros q; rewrite get_snake_set_heap; apply Hf|].
  split_and!; [|done|done]. rewrite Hh. cbn. unfold grow_heap.
  destruct (strail (get_snake g p)) as [i|] eqn:Ei; [|done].
  rewrite lookup_alter_ne; [done|]. intros ->. by apply (Hf p).
Qed.

Lemma keeps_reset (id : nat) (g : game) : keeps id g (reset g).
Proof.
  unfold reset.
  set (g1 := set_snake g Player1 _). set (g2 := set_snake g1 Player2 _).
  set (g3 := set_direction g2 Player1 0 0). set (g4 := set_direction g3 Player2 0 0).
  apply (keeps_trans _ _ g4);
    [apply (keeps_trans _ _ g3); [apply (keeps_trans _ _ g2); [apply (keeps_trans _ _ g1)|]|]|].
  - by apply keeps_set_snake.
  - by apply keeps_set_snake.
  - apply keeps_set_direction.
  - apply keeps_set_direction.
  - intros Hn Hf. split_and!; [done|done|]. intros []; apply (Hf Player1) || apply (Hf Player2).
Qed.

(** A point and a reset after a move. *)
Lemma keeps_score_reset (id : nat) (g : game) (p : player) :
  keeps id g (reset (set_snake g p (add_score (get_snake g p)))).
Proof.
  apply (keeps_trans _ _ (set_snake g p (add_score (get_snake g p))));
    [by apply keeps_set_snake | apply keeps_reset].
Qed.

Lemma keeps_update (id : nat) (g : game) : keeps id g (update g).
Proof.
  unfold update. pose proof (keeps_move id g Player1 (snake2 g)) as K1.
  destruct (move g Player1 (snake2 g)) as [g1 c1]; cbn [fst] in K1.
  apply (keeps_trans _ _ g1 _ K1). destruct c1; [apply (keeps_score_reset _ _ Player2)|].
  pose proof (keeps_move id g1 Player2 (snake1 g1)) as K2.
  destruct (move g1 Player2 (snake1 g1)) as [g2 c2]; cbn [fst] in K2.
  apply (keeps_trans _ _ g2 _ K2). destruct c2; [apply (keeps_score_reset _ _ Player1)|by intros ? ?].
Qed.

Lemma keeps_handle (id : nat) (g : game) (e : event) : keeps id g (handle g e).
Proof.
  destruct e as [|k]; [apply keeps_update|]. cbn [handle]. rewrite on_keyboard_down_table.
  destruct (binding k) as [[p d]|]; [|by intros ? ?]. case_decide; [by intros ? ?|].
  apply keeps_set_direction.
Qed.

Lemma keeps_run (id : nat) (g : game) (es : list event) : keeps id g (run g es).
Proof.
  revert g. induction es as [|e es IH]; intros g; [by intros ? ?|].
  rewrite run_cons. apply (keeps_trans _ _ (handle g e)); [apply keeps_handle | apply IH].
Qed.

(** ** Reversal in two key presses *)

(** A key that turns snake [p] to [d] assigns the heading and fires
    [on_direction]. *)
Lemma key_turn (g : game) (k : string) (p : player) (d : Z * Z) :
  binding k = Some (p, d) -> dir_of (get_snake g p) <> opposite d -> dir_of (get_snake g p) <> d ->
  on_keyboard_down g k = on_direction (set_snake g p (set_dir (get_snake g p) d.1 d.2)) p.
Proof.
  intros Hb Hop Hne. rewrite on_keyboard_down_table, Hb, decide_False by done.
  unfold set_direction. rewrite decide_False; [done|]. unfold dir_of in Hne. by destruct d.
Qed.

(** What such a turn changes: one Trail more, and the direction and the
    trail of [p]; the rest of the store, the sizes and the other snake
    are kept. *)
Lemma turn_frame (g : game) (p : player) (d : Z * Z) :
  let g1 := on_direction (set_snake g p (set_dir (get_snake g p) d.1 d.2)) p in
  let s := get_snake g p in
  let s1 := get_snake g1 p in
  gwidth g1 = gwidth g /\ gheight g1 = gheight g /\ status_bar_y g1 = status_bar_y g /\
  trails g1 = trails g ++ [next_id g] /\ next_id g1 = S (next_id g) /\
  (forall i, i <> next_id g -> heap g1 !! i = heap g !! i) /\
  sx s1 = sx s /\ sy s1 = sy s /\ swidth s1 = swidth s /\ sheight s1 = sheight s /\
  dir_of s1 = d /\ strail s1 = Some (next_id g).
Proof.
  cbv zeta. destruct p, d; split_and!; try done; intros i Hi; cbn; by rewrite lookup_insert_ne.
Qed.

(** The guards of the two keys of a reversal: a quarter turn, then the
    opposite of the first heading. *)
Lemma reversal_guards (x y : Z) :
  heading x y = true ->
  (x, y) <> opposite (y, x) /\ (x, y) <> (y, x) /\
  (y, x) <> opposite (opposite (x, y)) /\ (y, x) <> opposite (x, y) /\
  heading y x = true /\ heading (- x) (- y) = true /\ opposite (x, y) <> opposite (y, x).
Proof.
  intros Hh. apply heading_cases in Hh.
  destruct_or! Hh; destruct_and! Hh; subst; split_and!; vm_compute; congruence.
Qed.

(** A head that turns to the opposite of the heading of the Trail that
    follows it and moves by at least one unit, and by less than its
    length minus one, overlaps that Trail by at least one unit. *)
Lemma reversed_hits_follow (s s' : snake) (t : trail) (k : Q) :
  trail_follows s t ->
  sx s' = sx s -> sy s' = sy s -> swidth s' = swidth s -> sheight s' = sheight s ->
  dir_of s' = opposite (dir_of s) ->
  1 <= k -> k + 1 <= swidth s -> k + 1 <= sheight s ->
  collide_widget (advance s' k) t = true.
Proof.
  intros Hf Hx Hy Hw Hh Hd Hk Hkw Hkh. apply collide_widget_iff.
  unfold dir_of, opposite in Hd. injection Hd as Hdx Hdy. cbn [fst snd] in *.
  unfold trail_follows, collides_spec, lo_x, hi_x, lo_y, hi_y, advance, right, top in *.
  cbn [wx wy wwidth wheight snake_widget trail_widget set_pos direction_x direction_y sx sy
       swidth sheight] in *.
  rewrite Hdx, Hdy, Hx, Hy, Hw, Hh. clear Hdx Hdy Hx Hy Hw Hh.
  rewrite !inject_Z_opp. destruct_heading s; qcase; qlra.
Qed.

(** ** Theorems *)

(** C37. Refinement of the direction state machine of the spec: on every
    event, each snake's direction stays, turns on a key press to a heading
    that is not the opposite of its current direction, or becomes idle on a
    clock tick (the [reset] after a collision).  No key press makes a snake
    idle, and no tick turns it. *)
Theorem direction_state_machine (g : game) (e : event) (p : player) :
  dir_trans e (dir_of (get_snake g p)) (dir_of (get_snake (handle g e) p)).
Proof.
  destruct e as [|k]; cbn [handle].
  - destruct (update_dir g p) as [-> | ->]; constructor.
  - rewrite on_keyboard_down_table. destruct (binding k) as [[q d]|] eqn:Hb; [|constructor].
    case_decide as Hop; [constructor|]. rewrite set_direction_dir.
    case_decide as Hq; [subst q|constructor]. destruct d as [dx dy].
    apply dir_turn; [exact (binding_heading k p _ Hb)|].
    cbn. intros Heq. apply Hop. by rewrite Heq, opposite_involutive.
Qed.

(** C38. A frozen Trail never changes: once no snake refers to an
    allocated Trail (its snake has turned since, or the round was reset),
    no sequence of later events changes its rectangle in the store. *)
Theorem frozen_trail_unchanged (g : game) (es : list event) (id : nat) :
  (id < next_id g)%nat -> frozen g id -> heap (run g es) !! id = heap g !! id.
Proof. intros Hn Hf. by destruct (keeps_run id g es Hn Hf). Qed.

(** C39. The trail list only grows within a round: a key press keeps it or
    appends the one Trail it creates; a clock tick without collision keeps
    it; only a tick with a collision empties it. *)
Theorem trails_append_only (g : game) (e : event) : trail_discipline e g (handle g e).
Proof.
  destruct e as [|k]; cbn [handle trail_discipline]; [apply update_trails|].
  rewrite on_keyboard_down_table. destruct (binding k) as [[q d]|]; [|by left].
  case_decide; [by left|].
  destruct (set_direction_trails g q d.1 d.2) as [(-> & _)|(-> & _)]; [by left | by right].
Qed.

(** C23. The no-reversal guard of [_on_keyboard_down] holds per key, not
    per tick.  In every reachable game where snake [p] has a heading [d],
    the key of a quarter turn followed by the key of [opposite d], pressed
    before the next tick, reverse the snake; and when the speed scale is at
    least one unit and less than the head's sides minus one, the next
    [move] of [p] reports a collision: the head runs into the Trail it was
    growing before the keys.  Each key is a legal step of the direction
    machine [dir_trans]; only their composition reverses the snake. *)
Theorem reversal_collides (g : game) (p : player) (d : Z * Z) (k1 k2 : string) :
  reachable g -> dir_of (get_snake g p) = d -> heading d.1 d.2 = true ->
  key_for p (d.2, d.1) = Some k1 -> key_for p (opposite d) = Some k2 ->
  1 <= speed_scale g -> speed_scale g + 1 <= swidth (get_snake g p) ->
  speed_scale g + 1 <= sheight (get_snake g p) ->
  let g' := on_keyboard_down (on_keyboard_down g k1) k2 in
  dir_trans (Key k1) d (d.2, d.1) /\ dir_trans (Key k2) (d.2, d.1) (opposite d) /\
  dir_of (get_snake g' p) = opposite d /\ snd (move g' p (get_snake g' (other p))) = true.
Proof.
  intros Hr Hd Hh Hk1 Hk2 Hk Hw Hht. cbv zeta.
  apply key_for_binding in Hk1, Hk2. destruct (reachable_wf g Hr) as [Hb Hl].
  destruct d as [x y]. cbn [fst snd] in *.
  destruct (reversal_guards x y Hh) as (G1 & G2 & G3 & G4 & G5 & G6 & G7).
  split; [by apply dir_turn|]. split; [by apply dir_turn|].
  destruct (Hl p) as (id & t & Hs & Hin & Hid & Hf); [unfold dir_of in Hd; by simplify_eq|].
  pose proof (wf_fresh_trails g Hb id Hin) as Hlt.
  rewrite (key_turn g k1 p (y, x)) by (by rewrite ?Hd).
  set (g1 := on_direction _ p).
  destruct (turn_frame g p (y, x)) as (W1 & H1 & B1 & T1 & N1 & S1 & X1 & Y1 & SW1 & SH1 & D1 & R1).
  fold g1 in W1, H1, B1, T1, N1, S1, X1, Y1, SW1, SH1, D1, R1.
  rewrite (key_turn g1 k2 p (opposite (x, y))) by (by rewrite ?D1).
  set (g2 := on_direction _ p).
  destruct (turn_frame g1 p (opposite (x, y)))
    as (W2 & H2 & B2 & T2 & N2 & S2 & X2 & Y2 & SW2 & SH2 & D2 & R2).
  fold g2 in W2, H2, B2, T2, N2, S2, X2, Y2, SW2, SH2, D2, R2.
  split; [done|]. unfold move. cbv zeta. repeat (case_match; [done|]). cbn [snd].
  apply existsb_exists. exists id. split.
  { rewrite T2, T1, <- app_assoc. apply in_or_app. left. by apply list_elem_of_In. }
  unfold trail_hit, grow_heap. rewrite R2, lookup_alter_ne by (rewrite N1; lia).
  rewrite S2, S1, Hid by (rewrite ?N1; lia).
  replace (speed_scale g2) with (speed_scale g) by (unfold speed_scale; by rewrite W2, H2, W1, H1).
  apply (reversed_hits_follow (get_snake g p)); [done | by rewrite X2 | by rewrite Y2 |
    by rewrite SW2 | by rewrite SH2 | by rewrite D2, Hd | done | done | done].
Qed.
