(* ===== verification/Liveness.v ===== *)
(** * Liveness: every round ends

    With no key pressed, a snake with a heading runs straight on.  The
    clock keeps calling [update], so the head reaches a wall or the status
    bar after a number of ticks bounded by the size of the game over the
    speed scale, unless something else ends the round first.  A collision
    in [update] always gives a point to one of the snakes, so the sum of
    the scores grows within that bound.

    [quiet g n] (in [Game]) says that the next [n] ticks run without a
    collision; the lemmas below read the position of the heads and the
    frame of the game along such ticks.  [first_collision g fuel] is the
    clock itself: it calls [update] until a tick collides and returns the
    number of quiet ticks before it; the termination theorem says it
    returns within the bound. *)

From S2P Require Import Prelude Geometry Widgets Snake Game.

Definition total_score (g : game) : nat := (score (snake1 g) + score (snake2 g))%nat.

(** Lines 59-60: [Clock.schedule_interval(self.update, 1/60.)], the clock
    calling [update] until a tick has a collision, for at most
    [fuel] ticks: the number of quiet ticks before the first tick with a
    collision, or [None] when all [fuel] ticks are quiet. *)
Fixpoint first_collision (g : game) (fuel : nat) : option nat :=
  match fuel with
  | O => None
  | S f => if quiet g 1 then S <$> first_collision (update g) f else Some O
  end.

(** ** The frame of a tick *)

(** A tick never changes the game's size or the status bar. *)
Lemma update_frame (g : game) :
  gwidth (update g) = gwidth g /\ gheight (update g) = gheight g /\
  status_bar_y (update g) = status_bar_y g.
Proof.
  unfold update.
  pose proof (move_frame g Player1 (snake2 g)) as F1. cbn zeta in F1.
  destruct (move g Player1 (snake2 g)) as [g1 c1]. cbn [fst] in F1.
  destruct F1 as (_ & _ & _ & _ & _ & _ & W1 & H1 & B1).
  pose proof (move_frame g1 Player2 (snake1 g1)) as F2. cbn zeta in F2.
  destruct (move g1 Player2 (snake1 g1)) as [g2 c2]. cbn [fst] in F2.
  destruct F2 as (_ & _ & _ & _ & _ & _ & W2 & H2 & B2).
  destruct c1; [|destruct c2];
  match goal with
  | |- context [reset ?x] =>
      pose proof (reset_fields x) as R; cbn zeta in R; destruct_and! R;
      repeat match goal with H : ?l = _ |- context [?l] => rewrite H end
  | _ => idtac
  end; cbn; split_and!; congruence.
Qed.

Lemma speed_scale_update (g : game) : speed_scale (update g) = speed_scale g.
Proof. destruct (update_frame g) as (Hw & Hh & _). unfold speed_scale. by rewrite Hw, Hh. Qed.

Lemma run_ticks_frame (g : game) (n : nat) :
  let g' := run g (repeat Tick n) in
  gwidth g' = gwidth g /\ status_bar_y g' = status_bar_y g /\ speed_scale g' = speed_scale g.
Proof.
  revert g. induction n as [|n IH]; intros g; [done|].
  change (run g (repeat Tick (S n))) with (run (update g) (repeat Tick n)). cbn zeta.
  destruct (IH (update g)) as (Hw & Hb & Hk). destruct (update_frame g) as (Hw' & _ & Hb').
  rewrite Hw, Hb, Hk, Hw', Hb', speed_scale_update. done.
Qed.

(** ** Quiet ticks *)

Lemma quiet_split (g : game) (n m : nat) :
  quiet g (n + m) = true -> quiet g n = true /\ quiet (run g (repeat Tick n)) m = true.
Proof.
  revert g. induction n as [|n IH]; intros g Hq; [done|].
  cbn [quiet Nat.add] in *. destruct (move g Player1 (snake2 g)) as [g1 c1].
  destruct (move g1 Player2 (snake1 g1)) as [g2 c2].
  apply andb_true_iff in Hq as [Hc Hr]. destruct (IH _ Hr) as [H1 H2].
  by rewrite Hc, H1.
Qed.

(** A move without collision leaves the head strictly inside the walls and
    below the status bar. *)
Lemma move_false_inside (g : game) (p : player) (o : snake) :
  snd (move g p o) = false ->
  let s1 := advance (get_snake g p) (speed_scale g) in
  right s1 < gwidth g /\ 0 < wx s1 /\ top s1 < status_bar_y g /\ 0 < wy s1.
Proof.
  unfold move. cbn zeta. set (s1 := advance (get_snake g p) (speed_scale g)).
  destruct (Qle_bool_spec (gwidth g) (right s1)), (Qle_bool_spec (wx s1) 0),
    (Qle_bool_spec (status_bar_y g) (top s1)), (Qle_bool_spec (wy s1) 0);
  cbn [orb snd]; intros Hc; try discriminate; split_and!; qlra.
Qed.

(** The first of [S m] quiet ticks keeps both heads inside. *)
Lemma quiet_inside (g : game) (m : nat) (p : player) :
  quiet g (S m) = true ->
  let s1 := advance (get_snake g p) (speed_scale g) in
  right s1 < gwidth g /\ 0 < wx s1 /\ top s1 < status_bar_y g /\ 0 < wy s1.
Proof.
  cbn [quiet]. pose proof (move_false_inside g Player1 (snake2 g)) as I1.
  pose proof (move_frame g Player1 (snake2 g)) as F1. cbn zeta in F1.
  destruct (move g Player1 (snake2 g)) as [g1 c1]. cbn [fst snd] in *.
  destruct F1 as (_ & O1 & _ & _ & _ & _ & W1 & H1 & B1).
  pose proof (move_false_inside g1 Player2 (snake1 g1)) as I2.
  destruct (move g1 Player2 (snake1 g1)) as [g2 c2]. cbn [snd] in I2.
  intros Hq. apply andb_true_iff in Hq as [Hq _]. apply andb_true_iff in Hq as [Hc1 Hc2].
  apply negb_true_iff in Hc1, Hc2. destruct p.
  - by apply I1.
  - assert (Hk : speed_scale g1 = speed_scale g) by (unfold speed_scale; by rewrite W1, H1).
    cbn in O1. rewrite <- W1, <- B1. rewrite <- Hk. cbn. rewrite <- O1. by apply I2.
Qed.

(** Quiet ticks do not change the size of a head. *)
Lemma quiet_sizes (g : game) (n : nat) (p : player) :
  quiet g n = true ->
  swidth (get_snake (run g (repeat Tick n)) p) = swidth (get_snake g p) /\
  sheight (get_snake (run g (repeat Tick n)) p) = sheight (get_snake g p).
Proof.
  revert g. induction n as [|n IH]; intros g Hq; [done|].
  change (run g (repeat Tick (S n))) with (run (update g) (repeat Tick n)).
  cbn [quiet] in Hq. pose proof (update_quiet_snake g p) as U.
  destruct (move g Player1 (snake2 g)) as [g1 c1].
  destruct (move g1 Player2 (snake1 g1)) as [g2 c2].
  apply andb_true_iff in Hq as [Hq Hrest]. apply andb_true_iff in Hq as [Hc1 Hc2].
  apply negb_true_iff in Hc1, Hc2. destruct (U Hc1 Hc2) as (Hs & _).
  destruct (IH _ Hrest) as [Hw Hh]. rewrite Hw, Hh, Hs. done.
Qed.

(** A head with a heading cannot stay inside for more than [n + 1]
    ticks once [n] ticks carry it across the larger of the game's width
    and the status bar's height. *)
Lemma quiet_bound (g : game) (p : player) (n : nat) :
  let s := get_snake g p in
  heading (direction_x s) (direction_y s) = true ->
  0 <= swidth s -> 0 <= sheight s ->
  Qmax (gwidth g) (status_bar_y g) <= inject_Z (Z.of_nat n) * speed_scale g ->
  quiet g (S n) = false.
Proof.
  cbn zeta. intros Hh Hw Hht Hn. destruct (quiet g (S n)) eqn:Hq; [exfalso|done].
  pose proof (quiet_inside g n p Hq) as Ifirst. cbn zeta in Ifirst.
  rewrite <- Nat.add_1_r in Hq. destruct (quiet_split g n 1 Hq) as [Hqn Hq1].
  pose proof (quiet_inside _ 0 p Hq1) as Ilast. cbn zeta in Ilast.
  destruct (quiet_advance g n p Hqn) as (Hx & Hy & Hd). cbn zeta in Hx, Hy, Hd.
  destruct (run_ticks_frame g n) as (Fw & Fb & Fk). cbn zeta in Fw, Fb, Fk.
  destruct (quiet_sizes g n p Hqn) as (Sw & Sh).
  rewrite Fw, Fb, Fk in Ilast.
  set (sn := get_snake (run g (repeat Tick n)) p) in *.
  set (s := get_snake g p) in *.
  unfold dir_of in Hd. injection Hd as Hdx Hdy.
  pose proof (Q.le_max_l (gwidth g) (status_bar_y g)).
  pose proof (Q.le_max_r (gwidth g) (status_bar_y g)).
  set (N := inject_Z (Z.of_nat n)) in *. set (k := speed_scale g) in *. clearbody N k.
  unfold advance, right, top in *. cbn [wx wy wwidth wheight snake_widget set_pos sx sy swidth sheight direction_x direction_y] in *.
  rewrite Hdx, Hdy, Sw, Sh in Ilast.
  apply heading_cases in Hh.
  destruct Hh as [[E1 E2]|[[E1 E2]|[[E1 E2]|[E1 E2]]]]; rewrite E1, E2 in *; qlra.
Qed.

(** A tick never lowers the total score; a tick with a collision raises it. *)
Lemma update_total_score (g : game) : (total_score g <= total_score (update g))%nat.
Proof.
  unfold total_score. destruct (update_score_step g Player1), (update_score_step g Player2);
    cbn [get_snake] in *; lia.
Qed.

Lemma update_collided_score (g : game) :
  let '(g1, c1) := move g Player1 (snake2 g) in
  let '(_, c2) := move g1 Player2 (snake1 g1) in
  c1 = true \/ c2 = true -> (total_score g < total_score (update g))%nat.
Proof.
  unfold update, total_score.
  pose proof (move_score_step g Player1 (snake2 g)) as S1.
  pose proof (move_false_score g Player1 (snake2 g)) as F1.
  pose proof (move_other g Player1 (snake2 g)) as O1.
  destruct (move g Player1 (snake2 g)) as [g1 c1]; cbn [fst snd get_snake other] in *.
  pose proof (move_score_step g1 Player2 (snake1 g1)) as S2.
  pose proof (move_other g1 Player2 (snake1 g1)) as O2.
  destruct (move g1 Player2 (snake1 g1)) as [g2 c2]; cbn [fst snd get_snake other] in *.
  intros Hc. destruct c1.
  - destruct (reset_scores (set_snake g1 Player2 (add_score (snake2 g1)))) as [-> ->].
    cbn. rewrite O1. destruct S1 as [-> | ->]; lia.
  - destruct Hc as [Hc|Hc]; [discriminate|subst c2]. specialize (F1 eq_refl).
    destruct (reset_scores (set_snake g2 Player1 (add_score (snake1 g2)))) as [-> ->].
    cbn. rewrite O2, F1, <- O1. destruct S2 as [-> | ->]; lia.
Qed.

Lemma run_ticks_total_score (g : game) (n : nat) :
  (total_score g <= total_score (run g (repeat Tick n)))%nat.
Proof.
  revert g. induction n as [|n IH]; intros g; [done|].
  change (run g (repeat Tick (S n))) with (run (update g) (repeat Tick n)).
  specialize (IH (update g)). pose proof (update_total_score g). lia.
Qed.

(** If one of the next [n] ticks has a collision, someone scores. *)
Lemma not_quiet_score (g : game) (n : nat) :
  quiet g n = false -> (total_score g < total_score (run g (repeat Tick n)))%nat.
Proof.
  revert g. induction n as [|n IH]; intros g Hq; [done|].
  change (run g (repeat Tick (S n))) with (run (update g) (repeat Tick n)).
  cbn [quiet] in Hq. pose proof (update_collided_score g) as U.
  pose proof (run_ticks_total_score (update g) n).
  destruct (move g Player1 (snake2 g)) as [g1 c1].
  destruct (move g1 Player2 (snake1 g1)) as [g2 c2].
  destruct c1, c2; cbn [negb andb] in Hq;
    [specialize (U (or_introl eq_refl)) | specialize (U (or_introl eq_refl))
    | specialize (U (or_intror eq_refl)) | specialize (IH _ Hq); pose proof (update_total_score g)];
    lia.
Qed.

(** ** The round length *)

Lemma quiet_S (g : game) (f : nat) : quiet g (S f) = quiet g 1 && quiet (update g) f.
Proof.
  cbn [quiet]. destruct (move g Player1 (snake2 g)) as [g1 c1].
  destruct (move g1 Player2 (snake1 g1)) as [g2 c2]. by destruct c1, c2.
Qed.

(** What [first_collision] returns: the length of the quiet prefix and a
    colliding tick after it, or [None] when all [fuel] ticks are quiet. *)
Lemma first_collision_spec (g : game) (fuel : nat) :
  match first_collision g fuel with
  | Some m => (m < fuel)%nat /\ quiet g m = true /\ quiet (run g (repeat Tick m)) 1 = false
  | None => quiet g fuel = true
  end.
Proof.
  revert g. induction fuel as [|f IH]; intros g; [done|]. cbn [first_collision].
  destruct (quiet g 1) eqn:Hq; [|cbn; split_and!; [lia|done|done]].
  rewrite (quiet_S g f), Hq. specialize (IH (update g)).
  destruct (first_collision (update g) f) as [m|]; cbn [fmap option_fmap option_map]; [|done].
  destruct IH as (Hlt & Hm & Hc). rewrite (quiet_S g m), Hq, Hm. split_and!; [lia|done|exact Hc].
Qed.

(** ** Theorems *)

(** C24. Points are awarded exactly on collisions: a tick raises the sum
    of the two scores exactly when [move] reports a collision in it (a
    quiet tick leaves both scores unchanged), and by at most two points. *)
Theorem score_iff_collision (g : game) :
  ((total_score g < total_score (update g))%nat <-> quiet g 1 = false) /\
  (total_score (update g) <= total_score g + 2)%nat.
Proof.
  split; [|pose proof (update_score_step g Player1); pose proof (update_score_step g Player2);
           unfold total_score; cbn [get_snake] in *; lia].
  pose proof (update_collided_score g) as U. pose proof (update_quiet_snake g Player1) as Q1.
  pose proof (update_quiet_snake g Player2) as Q2. cbn [quiet].
  destruct (move g Player1 (snake2 g)) as [g1 c1].
  destruct (move g1 Player2 (snake1 g1)) as [g2 c2].
  destruct c1, c2; cbn; split; intros; try done; try (apply U; tauto).
  destruct (Q1 eq_refl eq_refl) as [E1 _], (Q2 eq_refl eq_refl) as [E2 _].
  unfold total_score in *. cbn [get_snake] in E1, E2. rewrite E1, E2 in *. cbn in *. lia.
Qed.

(** C32. Liveness: every round ends.  Without key presses, if a snake has
    a heading and non-negative sides, and [n] ticks at the game's speed
    scale cover the larger of its width and the status bar's height, then
    within [n + 1] clock ticks a collision happens and some snake scores:
    the total score after the ticks is larger. *)
Theorem round_ends (g : game) (p : player) (n : nat) :
  let s := get_snake g p in
  heading (direction_x s) (direction_y s) = true ->
  0 <= swidth s -> 0 <= sheight s ->
  Qmax (gwidth g) (status_bar_y g) <= inject_Z (Z.of_nat n) * speed_scale g ->
  (total_score g < total_score (run g (repeat Tick (S n))))%nat.
Proof. intros s Hh Hw Hht Hn. apply not_quiet_score. by apply (quiet_bound g p n). Qed.

(** C40. Termination of a round: under the hypotheses of [round_ends], the
    clock calling [update] reaches a tick with a collision within [n + 1]
    ticks: [first_collision] returns a number [m <= n] of quiet ticks, and
    the tick after them collides. *)
Theorem round_terminates (g : game) (p : player) (n : nat) :
  let s := get_snake g p in
  heading (direction_x s) (direction_y s) = true ->
  0 <= swidth s -> 0 <= sheight s ->
  Qmax (gwidth g) (status_bar_y g) <= inject_Z (Z.of_nat n) * speed_scale g ->
  exists m, first_collision g (S n) = Some m /\ (m <= n)%nat /\
    quiet g m = true /\ quiet (run g (repeat Tick m)) 1 = false.
Proof.
  intros s Hh Hw Hht Hn. pose proof (first_collision_spec g (S n)) as Hs.
  destruct (first_collision g (S n)) as [m|].
  - destruct Hs as (Hlt & Hq & Hc). exists m. split_and!; [done|lia|done|done].
  - rewrite (quiet_bound g p n Hh Hw Hht Hn) in Hs. discriminate.
Qed.
