(* ===== verification/Legacy.v ===== *)
(** * Legacy: the older copy src/snakes.py, statement by statement

    src/snakes.py is the first version of the game; the package
    src/simply_snakes/snakes.py renames the keyboard methods and adds
    docstrings and [main].  Under Python 3, which its [super().__init__]
    requires, [x/3] and [x/3.] are the same division, so both files mean
    the same program.  This file checks that claim.  It translates every
    method of src/snakes.py statement by statement in the monad of
    [Python], on the same object store as the rest of the development:
    - attributes of a Trail are read and written through its identity
      ([getattr]/[setattr]), and an identity the store does not hold, or
      [None], raises [AttributeError];
    - [Trail(...)] allocates a fresh identity ([new_Trail]);
    - Kivy's [add_widget] raises [WidgetException] for a widget that
      already has a parent, and [remove_widget] returns at once for a
      widget that is not a child;
    - [other] in [move(other)] is a reference to the other snake, read when
      [collide_widget] runs.

    The theorems show that on every reachable game each method of the
    legacy copy raises nothing and computes the game of the functional
    model of [Snake] and [Game].  So every theorem of the development holds
    for src/snakes.py too. *)

From S2P Require Import Prelude Geometry Widgets Snake Game Invariants Python.

Abbreviation M R A := (pyM game R A).

(** ** Objects *)

Section Objects.
Context {R : Type}.

(** [self.snake1] / [self.snake2] (or [self] inside [Snake]). *)
Definition self_ (p : player) : M R snake := g ← py_get; mret (get_snake g p).

(** An assignment to attributes of the snake. *)
Definition set_self (p : player) (f : snake -> snake) : M R unit :=
  py_modify (fun g => set_snake g p (f (get_snake g p))).

(** [o.attr] for a Trail reference [o]. *)
Definition getattr (o : option nat) : M R trail :=
  match o with
  | None => py_raise AttributeError
  | Some id =>
      g ← py_get;
      match heap g !! id with Some t => mret t | None => py_raise AttributeError end
  end.

(** [o.attr = e] and [o.attr += e]: read the object, write it back with
    the attribute changed. *)
Definition setattr (o : option nat) (f : trail -> trail) : M R unit :=
  t ← getattr o;
  match o with
  | None => py_raise AttributeError
  | Some id => py_modify (fun g => set_heap g (<[id := f t]> (heap g)))
  end.

(** [Trail(size=..., pos=..., color=...)]: a new object. *)
Definition new_Trail (t : trail) : M R nat :=
  g ← py_get;
  py_modify (fun g => mk_game (gwidth g) (gheight g) (status_bar_y g) (snake1 g) (snake2 g)
                        (trails g) (<[next_id g := t]> (heap g)) (S (next_id g))
                        (children g));;
  mret (next_id g).

(** Kivy's [Widget.add_widget(widget)]: a widget with a parent is refused;
    otherwise it is inserted first among the children. *)
Definition add_widget (id : nat) : M R unit :=
  g ← py_get;
  if bool_decide (id ∈ children g) then py_raise WidgetException
  else py_modify (fun g => set_trails_children g (trails g) (id :: children g)).

(** Kivy's [Widget.remove_widget(widget)]: [if widget not in
    self.children: return], then [self.children.remove(widget)]. *)
Definition remove_widget (id : nat) : M R unit :=
  g ← py_get;
  py_if (bool_decide (id ∈ children g))
    (py_modify (fun g => set_trails_children g (trails g) (remove_first id (children g)))).

(** [self.parent.trails.append(t)] and [self.trails.clear()]. *)
Definition trails_append (id : nat) : M R unit :=
  py_modify (fun g => set_trails_children g (trails g ++ [id]) (children g)).

Definition trails_clear : M R unit :=
  py_modify (fun g => set_trails_children g [] (children g)).
End Objects.

(** Attribute assignments on a Trail. *)
Definition set_twidth (t : trail) (w : Q) : trail := mk_trail (tx t) (ty t) w (theight t) (tcolor t).
Definition set_theight (t : trail) (h : Q) : trail := mk_trail (tx t) (ty t) (twidth t) h (tcolor t).
Definition set_tx (t : trail) (x : Q) : trail := mk_trail x (ty t) (twidth t) (theight t) (tcolor t).
Definition set_ty (t : trail) (y : Q) : trail := mk_trail (tx t) y (twidth t) (theight t) (tcolor t).

(** ** The methods of src/snakes.py *)

(** Lines 87-109: [Snake.collide_widget(self, wid)], one [if] per line. *)
Definition l_collide_widget {A B} `{Widget A} `{Widget B} (self : A) (wid : B) : M bool bool :=
  (if wwidth wid <? 0 then
     py_if (right self <? right wid + 1) (py_return false);;
     py_if (wx wid - 1 <? wx self) (py_return false)
   else
     py_if (right self <? wx wid + 1) (py_return false);;
     py_if (right wid - 1 <? wx self) (py_return false));;
  (if wheight wid <? 0 then
     py_if (top self <? top wid + 1) (py_return false);;
     py_if (wy wid - 1 <? wy self) (py_return false)
   else
     py_if (top self <? wy wid + 1) (py_return false);;
     py_if (top wid - 1 <? wy self) (py_return false));;
  py_return true.

(** Lines 120-122: [if self.trail:] grow it by [direction * speed_scale]. *)
Definition l_grow_trail (s : snake) (speed_scale : Q) : M bool unit :=
  py_if (py_truthy (strail s))
    (setattr (strail s) (fun t => set_twidth t (twidth t + inject_Z (direction_x s) * speed_scale));;
     setattr (strail s) (fun t => set_theight t (theight t + inject_Z (direction_y s) * speed_scale))).

(** Lines 134-136: one iteration of the loop over [self.parent.trails]. *)
Definition l_check_trail (s : snake) (id : nat) : M bool unit :=
  t ← getattr (Some id);
  c ← call (l_collide_widget s t);
  py_if c (py_return true).

(** Lines 111-137: [Snake.move(self, other)]. *)
Definition l_move (p o : player) : M bool bool :=
  g ← py_get;
  let speed_scale := if gwidth g <? gheight g then gwidth g / 250 else gheight g / 250 in
  set_self p (fun s => set_pos s (inject_Z (direction_x s) * speed_scale + sx s)
                                 (inject_Z (direction_y s) * speed_scale + sy s));;
  s ← self_ p;
  l_grow_trail s speed_scale;;
  g ← py_get;
  py_if ((gwidth g <=? right s) || (wx s <=? 0)) (py_return true);;
  py_if ((status_bar_y g <=? top s) || (wy s <=? 0)) (py_return true);;
  other_snake ← self_ o;
  c ← call (l_collide_widget s other_snake);
  py_if c (set_self p add_score;; py_return true);;
  py_for (trails g) (l_check_trail s);;
  py_return false.

(** Lines 143-153: place the new Trail [id] behind the head [s]. *)
Definition l_place_trail (s : snake) (id : nat) : M unit unit :=
  if (direction_x s =? 1)%Z then setattr (Some id) (fun t => set_twidth t 0)
  else if (direction_x s =? -1)%Z then
    setattr (Some id) (fun t => set_twidth t 0);;
    setattr (Some id) (fun t => set_tx t (right s))
  else if (direction_y s =? 1)%Z then setattr (Some id) (fun t => set_theight t 0)
  else if (direction_y s =? -1)%Z then
    setattr (Some id) (fun t => set_theight t 0);;
    setattr (Some id) (fun t => set_ty t (top s))
  else mret ().

(** Lines 139-156: [Snake.on_direction].  [self.trail] is [Some id] from
    its first line on: no later statement assigns it. *)
Definition l_on_direction (p : player) : M unit unit :=
  s ← self_ p;
  id ← new_Trail (mk_trail (sx s) (sy s) (swidth s) (sheight s) (scolor s));
  set_self p (fun s => set_trail s (Some id));;
  l_place_trail s id;;
  add_widget id;;
  trails_append id.

(** [snake.direction = d] on the [ReferenceListProperty] of lines 81-83:
    Kivy stores the pair and dispatches [on_direction] only when it
    differs from the stored one. *)
Definition l_set_direction {R} (p : player) (d : Z * Z) : M R unit :=
  s ← self_ p;
  if decide ((direction_x s, direction_y s) = d) then mret ()
  else set_self p (fun s => set_dir s d.1 d.2);; call (l_on_direction p).

(** One branch of lines 29-53:
    [if snake.direction != forbidden: snake.direction = d]. *)
Definition l_steer (p : player) (forbidden d : Z * Z) : M unit unit :=
  s ← self_ p;
  py_if (bool_decide ((direction_x s, direction_y s) ≠ forbidden)) (l_set_direction p d).

(** Lines 29-53: [SnakesGame.on_keyboard_down]; [key] is [keycode[1]]. *)
Definition l_on_keyboard_down (key : string) : M unit unit :=
  if String.eqb key "s"%string then l_steer Player1 (0, 1)%Z (0, -1)%Z
  else if String.eqb key "w"%string then l_steer Player1 (0, -1)%Z (0, 1)%Z
  else if String.eqb key "a"%string then l_steer Player1 (1, 0)%Z (-1, 0)%Z
  else if String.eqb key "d"%string then l_steer Player1 (-1, 0)%Z (1, 0)%Z
  else if String.eqb key "down"%string then l_steer Player2 (0, 1)%Z (0, -1)%Z
  else if String.eqb key "up"%string then l_steer Player2 (0, -1)%Z (0, 1)%Z
  else if String.eqb key "left"%string then l_steer Player2 (1, 0)%Z (-1, 0)%Z
  else if String.eqb key "right"%string then l_steer Player2 (-1, 0)%Z (1, 0)%Z
  else mret ().

(** Lines 68-76: [SnakesGame.reset]. *)
Definition l_reset : M unit unit :=
  g ← py_get;
  set_self Player1 (fun s => set_center s (gwidth g / 3) (gheight g / 2));;
  g ← py_get;
  set_self Player2 (fun s => set_center s (gwidth g * 2 / 3) (gheight g / 2));;
  l_set_direction Player1 (0, 0)%Z;;
  l_set_direction Player2 (0, 0)%Z;;
  g ← py_get;
  py_for (trails g) remove_widget;;
  trails_clear.

(** Lines 59-66: [SnakesGame.update(dt)]. *)
Definition l_update : M unit unit :=
  c ← call (l_move Player1 Player2);
  if (c : bool) then set_self Player2 add_score;; call l_reset
  else
    c ← call (l_move Player2 Player1);
    py_if c (set_self Player1 add_score;; call l_reset).

(** Lines 55-57: the clock calls [update]; the keyboard calls
    [on_keyboard_down].  An exception ends the run. *)
Definition l_handle (e : event) : M unit unit :=
  match e with Tick => l_update | Key k => l_on_keyboard_down k end.

Fixpoint l_run (g : game) (es : list event) : (game + py_error)%type :=
  match es with
  | [] => inl g
  | e :: es' =>
      match exec (l_handle e) g with
      | inl g' => l_run g' es'
      | inr err => inr err
      end
  end.

(** Every identity the methods dereference is in the store: the Trails of
    the list and the Trails the snakes refer to. *)
Definition allocated (g : game) : Prop :=
  (forall id, id ∈ trails g -> is_Some (heap g !! id)) /\
  (forall p id, strail (get_snake g p) = Some id -> is_Some (heap g !! id)).

(** [allocated] as a test. *)
Definition allocatedb (g : game) : bool :=
  forallb (fun id => bool_decide (is_Some (heap g !! id))) (trails g) &&
  forallb (fun p => match strail (get_snake g p) with
                    | Some id => bool_decide (is_Some (heap g !! id))
                    | None => true
                    end) [Player1; Player2].

(** Every Trail among the children was allocated before [next_id]: a fresh
    Trail has no parent yet. *)
Definition fresh_children (g : game) : Prop :=
  forall id, id ∈ children g -> (id < next_id g)%nat.

Lemma allocatedb_spec (g : game) : allocatedb g = true <-> allocated g.
Proof.
  unfold allocatedb, allocated. rewrite andb_true_iff, !forallb_forall.
  setoid_rewrite bool_decide_eq_true. setoid_rewrite <- list_elem_of_In. split.
  - intros [Ht Hs]. split; [done|]. intros p id Hp. specialize (Hs p).
    rewrite Hp, bool_decide_eq_true in Hs. apply Hs. destruct p; set_solver.
  - intros [Ht Hs]. split; [done|]. intros p _.
    destruct (strail (get_snake g p)) eqn:Hp; [|done].
    rewrite bool_decide_eq_true. by apply (Hs p).
Qed.

#[export] Instance allocated_dec (g : game) : Decision (allocated g).
Proof.
  destruct (allocatedb g) eqn:E; [left | right]; rewrite <- allocatedb_spec; [done | by rewrite E].
Defined.

(** ** Evaluation of the legacy methods *)

Ltac py_unfold :=
  unfold py_if, py_get, py_modify, py_return, py_raise, call, mbind, pyM_bind, mret, pyM_ret.

(** Runs a statement that falls through by computation. *)
Ltac py_step := erewrite py_bind_go by reflexivity; cbv beta.

Lemma alter_lookup_insert {A} (h : gmap nat A) (id : nat) (t : A) (f : A -> A) :
  h !! id = Some t -> alter f id h = <[id := f t]> h.
Proof.
  intros Hid. apply map_eq. intros j. destruct (decide (id = j)) as [<-|Hne].
  - by rewrite lookup_alter_eq, lookup_insert_eq, Hid.
  - by rewrite lookup_alter_ne, lookup_insert_ne.
Qed.

Lemma remove_first_absent (x : nat) (l : list nat) : x ∉ l -> remove_first x l = l.
Proof.
  induction l as [|y l IH]; intros Hx; [done|]. cbn.
  rewrite elem_of_cons in Hx. rewrite decide_False by naive_solver. f_equal. naive_solver.
Qed.

Lemma setattr_eval {R} (id : nat) (t : trail) (f : trail -> trail) (g : game) :
  heap g !! id = Some t ->
  setattr (R := R) (Some id) f g = (set_heap g (<[id := f t]> (heap g)), Go ()).
Proof. intros Ht. unfold setattr, getattr. py_unfold. cbn. by rewrite Ht. Qed.

Lemma add_widget_eval {R} (id : nat) (g : game) :
  id ∉ children g ->
  add_widget (R := R) id g = (set_trails_children g (trails g) (id :: children g), Go ()).
Proof. intros Hn. unfold add_widget. py_unfold. cbn. by rewrite bool_decide_false. Qed.

Lemma remove_widget_eval {R} (id : nat) (g : game) :
  remove_widget (R := R) id g =
  (set_trails_children g (trails g) (remove_first id (children g)), Go ()).
Proof.
  unfold remove_widget. py_unfold. cbn. case_bool_decide as Hin; [done|].
  rewrite remove_first_absent by done. by destruct g.
Qed.

Lemma l_collide_widget_eval {A B} `{Widget A} `{Widget B} (self : A) (wid : B) (g : game) :
  l_collide_widget self wid g = (g, Return (collide_widget self wid)).
Proof.
  unfold l_collide_widget, collide_widget, collide_y. py_unfold.
  repeat case_match; by simplify_eq.
Qed.

Lemma l_check_trail_eval (s : snake) (id : nat) (g : game) :
  is_Some (heap g !! id) ->
  l_check_trail s id g = (g, if trail_hit s (heap g) id then Return true else Go ()).
Proof.
  intros [t Ht]. unfold l_check_trail, getattr, trail_hit. py_unfold.
  rewrite Ht, l_collide_widget_eval. by destruct (collide_widget s t).
Qed.

Lemma l_trail_loop_eval (s : snake) (l : list nat) (g : game) :
  (forall id, id ∈ l -> is_Some (heap g !! id)) ->
  py_for l (l_check_trail s) g =
  (g, if existsb (trail_hit s (heap g)) l then Return true else Go ()).
Proof.
  induction l as [|id l IH]; intros Hl; [done|]. cbn [py_for existsb].
  unfold mbind at 1, pyM_bind at 1.
  rewrite (l_check_trail_eval s id g) by (apply Hl; set_solver).
  destruct (trail_hit s (heap g) id); [done|]. apply IH. set_solver.
Qed.

Lemma l_grow_trail_eval (s : snake) (k : Q) (g : game) :
  (forall id, strail s = Some id -> is_Some (heap g !! id)) ->
  l_grow_trail s k g = (set_heap g (grow_heap s k (heap g)), Go ()).
Proof.
  intros Hs. unfold l_grow_trail, grow_heap, setattr, getattr.
  destruct (strail s) as [id|]; [|by destruct g].
  destruct (Hs id eq_refl) as [t Ht].
  py_unfold. cbn. rewrite Ht. cbn. rewrite lookup_insert_eq. cbn.
  rewrite insert_insert_eq, (alter_lookup_insert _ _ t) by done. reflexivity.
Qed.

Lemma l_move_eval (g : game) (p : player) :
  allocated g ->
  l_move p (other p) g =
  (fst (move g p (get_snake g (other p))), Return (snd (move g p (get_snake g (other p))))).
Proof.
  intros [Ht Hs]. unfold l_move. py_step. cbv zeta.
  change (if gwidth g <? gheight g then gwidth g / 250 else gheight g / 250) with (speed_scale g).
  py_step. py_step.
  erewrite py_bind_go
    by (apply l_grow_trail_eval; intros id; rewrite heap_set_snake, get_set_snake_eq; apply Hs).
  cbv beta. py_step.
  cbn [set_heap gwidth gheight status_bar_y trails heap]. autorewrite with snakes_rw.
  fold (advance (get_snake g p) (speed_scale g)).
  change (grow_heap (advance ?s ?k) ?k) with (grow_heap s k).
  unfold move. cbv zeta.
  set (s1 := advance (get_snake g p) (speed_scale g)).
  set (h := grow_heap (get_snake g p) (speed_scale g) (heap g)).
  destruct ((gwidth g <=? right s1) || (wx s1 <=? 0)); [by erewrite py_bind_return|].
  py_step.
  destruct ((status_bar_y g <=? top s1) || (wy s1 <=? 0)); [by erewrite py_bind_return|].
  py_step. py_step.
  erewrite py_bind_go by (apply call_go; right; apply l_collide_widget_eval). cbv beta.
  rewrite get_snake_set_heap, get_set_snake_ne by apply get_snake_other_ne.
  destruct (collide_widget s1 (get_snake g (other p))).
  { erewrite py_bind_return by reflexivity. cbn [fst snd].
    by rewrite get_snake_set_heap, get_set_snake_eq. }
  py_step. unfold mbind at 1, pyM_bind at 1.
  cbn [set_heap trails heap]. rewrite ?trails_set_snake, l_trail_loop_eval.
  - by destruct (existsb _ _).
  - intros id Hid. rewrite heap_set_heap. subst h. unfold grow_heap.
    destruct (strail _); rewrite ?lookup_alter_is_Some; by apply Ht.
Qed.

Lemma l_place_trail_eval (s : snake) (id : nat) (g : game) :
  heap g !! id = Some (mk_trail (sx s) (sy s) (swidth s) (sheight s) (scolor s)) ->
  l_place_trail s id g = (set_heap g (<[id := new_trail s]> (heap g)), Go ()).
Proof.
  intros Ht. unfold l_place_trail, new_trail. cbn zeta.
  repeat case_match;
    repeat (erewrite py_bind_go by (apply setattr_eval; first
             [eassumption | by rewrite heap_set_heap, lookup_insert_eq]); cbv beta);
    try erewrite setattr_eval by (first [eassumption | by rewrite heap_set_heap, lookup_insert_eq]);
    cbn [set_heap heap]; rewrite ?insert_insert_eq; try done.
  rewrite insert_id by exact Ht. by destruct g.
Qed.

Lemma l_on_direction_eval (g : game) (p : player) :
  next_id g ∉ children g ->
  l_on_direction p g = (on_direction g p, Go ()).
Proof.
  intros Hn. unfold l_on_direction. py_step. py_step. py_step.
  erewrite py_bind_go by (apply l_place_trail_eval; destruct p; apply lookup_insert_eq). cbv beta.
  erewrite py_bind_go by (apply add_widget_eval; by destruct p). cbv beta.
  unfold on_direction, trails_append. py_unfold. destruct p; cbn; by rewrite insert_insert_eq.
Qed.

Lemma fresh_children_next (g : game) : fresh_children g -> next_id g ∉ children g.
Proof. intros Hf Hin. specialize (Hf _ Hin). lia. Qed.

Lemma fresh_children_set_direction (g : game) (p : player) (dx dy : Z) :
  fresh_children g -> fresh_children (set_direction g p dx dy).
Proof.
  intros Hf id. destruct (set_direction_trails g p dx dy) as [(_ & -> & -> & _)|(_ & -> & -> & _)].
  - apply Hf.
  - rewrite elem_of_cons. intros [->|Hin]; [lia|]. specialize (Hf _ Hin). lia.
Qed.

Lemma l_set_direction_eval {R} (g : game) (p : player) (d : Z * Z) :
  next_id g ∉ children g ->
  l_set_direction (R := R) p d g = (set_direction g p d.1 d.2, Go ()).
Proof.
  intros Hn. unfold l_set_direction, set_direction. py_step. destruct d as [dx dy].
  cbn [fst snd]. case_decide; [done|]. py_step.
  apply call_go. left. apply l_on_direction_eval. by destruct p.
Qed.

Lemma l_steer_eval (g : game) (p : player) (forbidden d : Z * Z) :
  next_id g ∉ children g ->
  l_steer p forbidden d g = (steer g p forbidden d, Go ()).
Proof.
  intros Hn. unfold l_steer, steer. py_step. unfold py_if.
  case_decide as Hd.
  - by rewrite bool_decide_false by naive_solver.
  - rewrite bool_decide_true by done. by apply l_set_direction_eval.
Qed.

Lemma l_on_keyboard_down_eval (g : game) (k : string) :
  next_id g ∉ children g ->
  l_on_keyboard_down k g = (on_keyboard_down g k, Go ()).
Proof.
  intros Hn. unfold l_on_keyboard_down, on_keyboard_down.
  repeat case_match; by apply l_steer_eval || done.
Qed.

Lemma l_remove_loop_eval (l : list nat) (g : game) :
  py_for (R := unit) l remove_widget g =
  (set_trails_children g (trails g) (foldl (fun cs id => remove_first id cs) (children g) l),
   Go ()).
Proof.
  revert g. induction l as [|id l IH]; intros g; [by destruct g|].
  cbn [py_for foldl]. erewrite py_bind_go by apply remove_widget_eval. apply IH.
Qed.

Lemma l_reset_eval (g : game) :
  fresh_children g -> l_reset g = (reset g, Go ()).
Proof.
  intros Hf. unfold l_reset, reset. py_step. py_step. py_step. py_step.
  set (g2 := set_snake (set_snake g Player1 _) Player2 _).
  assert (Hf2 : fresh_children g2) by (intros id; apply Hf).
  erewrite py_bind_go by (apply l_set_direction_eval; by apply fresh_children_next). cbv beta.
  erewrite py_bind_go by (apply l_set_direction_eval, fresh_children_next,
                          fresh_children_set_direction, Hf2). cbv beta.
  py_step. erewrite py_bind_go by apply l_remove_loop_eval. done.
Qed.

(** ** The store stays allocated *)

Lemma allocated_set_snake (g : game) (p : player) (s : snake) :
  allocated g -> strail s = strail (get_snake g p) -> allocated (set_snake g p s).
Proof.
  intros [Ht Hs] Hst. split; autorewrite with snakes_rw; [done|].
  intros q id. destruct (decide (p = q)) as [<-|Hne].
  - rewrite get_set_snake_eq, Hst. apply Hs.
  - rewrite get_set_snake_ne by done. apply Hs.
Qed.

Lemma allocated_on_direction (g : game) (p : player) :
  allocated g -> allocated (on_direction g p).
Proof.
  intros [Ht Hs]. destruct (on_direction_fields g p) as (Htr & Hh & Hp & Ho).
  split; [intros id | intros q id]; rewrite ?Htr, Hh, lookup_insert_is_Some'.
  - rewrite elem_of_app, list_elem_of_singleton. intros [Hin| ->]; [right; by apply Ht | by left].
  - destruct (decide (q = p)) as [->|Hne].
    + rewrite Hp. intros [= ->]. by left.
    + rewrite (ne_other p q Hne), Ho. intros Hq. right. by apply (Hs (other p)).
Qed.

Lemma allocated_set_direction (g : game) (p : player) (dx dy : Z) :
  allocated g -> allocated (set_direction g p dx dy).
Proof.
  intros Ha. unfold set_direction. case_decide; [done|].
  by apply allocated_on_direction, allocated_set_snake.
Qed.

Lemma allocated_move (g : game) (p : player) (o : snake) :
  allocated g -> allocated (fst (move g p o)).
Proof.
  intros [Ht Hs]. destruct (move_shape g p o) as (s' & Hs' & ->).
  apply allocated_set_snake; [clear Hs'|rewrite get_snake_set_heap; by destruct Hs' as [-> | ->]].
  unfold grow_heap. destruct (strail (get_snake g p)); split;
    intros *; rewrite ?heap_set_heap, ?trails_set_heap, ?get_snake_set_heap, ?lookup_alter_is_Some;
    naive_solver.
Qed.

Lemma allocated_reset (g : game) : allocated g -> allocated (reset g).
Proof.
  intros Ha. unfold reset.
  set (g4 := set_direction (set_direction _ Player1 0 0) Player2 0 0).
  assert (Hg4 : allocated g4).
  { do 2 apply allocated_set_direction. apply allocated_set_snake; [apply allocated_set_snake|]; done. }
  destruct Hg4 as [_ Hs]. split; [set_solver|]. intros []; apply (Hs Player1) || apply (Hs Player2).
Qed.

Lemma allocated_update (g : game) : allocated g -> allocated (update g).
Proof.
  intros Ha. unfold update.
  pose proof (allocated_move g Player1 (snake2 g) Ha) as H1.
  destruct (move g Player1 (snake2 g)) as [g1 []]; cbn [fst] in H1.
  - by apply allocated_reset, allocated_set_snake.
  - pose proof (allocated_move g1 Player2 (snake1 g1) H1) as H2.
    destruct (move g1 Player2 (snake1 g1)) as [g2 []]; cbn [fst] in H2; [|done].
    by apply allocated_reset, (allocated_set_snake g2 Player1).
Qed.

Lemma allocated_on_keyboard_down (g : game) (k : string) :
  allocated g -> allocated (on_keyboard_down g k).
Proof.
  intros Ha. rewrite on_keyboard_down_table.
  destruct (binding k) as [[p d]|]; [|done]. case_decide; [done|].
  by apply allocated_set_direction.
Qed.

Lemma reachable_allocated (g : game) : reachable g -> allocated g.
Proof.
  induction 1 as [g Hi|g [] _ IH].
  - unfold initial in Hi. rewrite !andb_true_iff, !bool_decide_eq_true in Hi.
    destruct Hi as (((((((_ & _) & Ht) & _) & _) & _) & Hs1) & Hs2).
    split; [rewrite Ht; set_solver|].
    intros []; cbn; congruence.
  - by apply allocated_update.
  - by apply allocated_on_keyboard_down.
Qed.

Lemma wf_fresh_children (g : game) : wf_base g -> fresh_children g.
Proof. intros Hb id Hin. apply (wf_fresh_trails _ Hb). by rewrite (wf_children _ Hb) in Hin. Qed.

Lemma fresh_children_move (g : game) (p : player) (o : snake) :
  fresh_children g -> fresh_children (fst (move g p o)).
Proof.
  pose proof (move_frame g p o) as F. cbn zeta in F.
  destruct F as (_ & _ & _ & _ & Hn & Hc & _). intros Hf id. rewrite Hn, Hc. apply Hf.
Qed.

(** ** The legacy methods compute the functional model *)

Lemma l_update_eval (g : game) :
  allocated g -> fresh_children g -> l_update g = (update g, Go ()).
Proof.
  intros Ha Hf. unfold l_update, update.
  erewrite py_bind_go by (apply call_go; right; apply (l_move_eval g Player1 Ha)). cbv beta.
  pose proof (allocated_move g Player1 (snake2 g) Ha) as Ha1.
  pose proof (fresh_children_move g Player1 (snake2 g) Hf) as Hf1.
  cbn [get_snake other]. destruct (move g Player1 (snake2 g)) as [g1 []]; cbn [fst snd] in *.
  - py_step. apply call_go. left. apply l_reset_eval. intros id. apply Hf1.
  - erewrite py_bind_go by (apply call_go; right; apply (l_move_eval g1 Player2 Ha1)). cbv beta.
    pose proof (fresh_children_move g1 Player2 (snake1 g1) Hf1) as Hf2.
    cbn [get_snake other]. destruct (move g1 Player2 (snake1 g1)) as [g2 []]; cbn [fst snd py_if] in *;
      [|done].
    py_step. apply call_go. left. apply l_reset_eval. intros id. apply Hf2.
Qed.

Lemma l_handle_eval (g : game) (e : event) :
  wf g -> allocated g -> exec (l_handle e) g = inl (handle g e).
Proof.
  intros [Hb _] Ha. apply (exec_go _ _ _ ()). left. pose proof (wf_fresh_children g Hb) as Hf.
  destruct e; [by apply l_update_eval | by apply l_on_keyboard_down_eval, fresh_children_next].
Qed.

Lemma l_run_eval (g : game) (es : list event) : reachable g -> l_run g es = inl (run g es).
Proof.
  revert g. induction es as [|e es IH]; intros g Hr; [done|]. cbn [l_run].
  rewrite l_handle_eval by (apply reachable_wf || apply reachable_allocated; done).
  apply IH. by constructor.
Qed.

(** ** Theorems *)

(** C27. Refinement of the legacy copy: from every initial game, running
    the methods of src/snakes.py statement by statement on any sequence of
    clock ticks and key presses raises no exception and leaves exactly the
    game that the functional model of src/simply_snakes/snakes.py computes. *)
Theorem legacy_refines (g0 : game) (es : list event) :
  initial g0 = true -> l_run g0 es = inl (run g0 es).
Proof. intros Hi. apply l_run_eval. by constructor. Qed.

(** C28. Error paths: on every reachable game, neither the clock callback
    nor the key handler of src/snakes.py raises.  No [AttributeError]
    escapes: [move] reads [self.trail] only under [if self.trail:] and
    every Trail it reaches is in the store.  No [WidgetException] escapes:
    the Trail that [on_direction] adds has no parent yet. *)
Theorem legacy_no_exception (g : game) (e : event) (err : py_error) :
  reachable g -> exec (l_handle e) g <> inr err.
Proof.
  intros Hr. rewrite l_handle_eval by (apply reachable_wf || apply reachable_allocated; done).
  discriminate.
Qed.

(** C29. Equivalence of the two translations of [move]: when every Trail
    the method reaches is in the store, the statement-by-statement [move]
    of src/snakes.py (lines 111-137, with its early [return]s and its loop)
    returns the flag and leaves the game of the functional [move]. *)
Theorem l_move_refines (g : game) (p : player) :
  allocated g ->
  l_move p (other p) g =
  (fst (move g p (get_snake g (other p))), Return (snd (move g p (get_snake g (other p))))).
Proof. apply l_move_eval. Qed.

(** C30. Equivalence of the two translations of [on_direction]: the
    attribute assignments of lines 141-153 on the new Trail object build
    exactly the rectangle [new_trail]; the Trail is added to the children
    and appended to [trails] (when its fresh identity has no parent). *)
Theorem l_on_direction_refines (g : game) (p : player) :
  next_id g ∉ children g -> l_on_direction p g = (on_direction g p, Go ()).
Proof. apply l_on_direction_eval. Qed.

(** C21. Equivalence of the two translations of [reset]: on every
    reachable game, the statements of src/snakes.py (lines 68-76: the
    re-centring, the assignments of [(0, 0)] with their [on_direction], the
    loop of [remove_widget] calls and [trails.clear()]) raise nothing and
    leave the game of the functional [reset]. *)
Theorem l_reset_refines (g : game) :
  reachable g -> l_reset g = (reset g, Go ()).
Proof.
  intros Hr. apply l_reset_eval, wf_fresh_children, (proj1 (reachable_wf g Hr)).
Qed.

(** C22. Equivalence of the two translations of [on_keyboard_down]: on
    every reachable game, the eight branches of src/snakes.py (lines 29-53)
    with their guards and their assignments to [direction] raise nothing
    and leave the game of the functional [on_keyboard_down], for every
    key. *)
Theorem l_on_keyboard_down_refines (g : game) (k : string) :
  reachable g -> l_on_keyboard_down k g = (on_keyboard_down g k, Go ()).
Proof.
  intros Hr. apply l_on_keyboard_down_eval, fresh_children_next,
    wf_fresh_children, (proj1 (reachable_wf g Hr)).
Qed.

(** C31. Equivalence of the two translations of [collide_widget]: the
    sequence of guarded [return False] statements of lines 87-109 returns
    what the nested conditional [collide_widget] computes. *)
Theorem l_collide_widget_refines {A B} `{Widget A} `{Widget B} (self : A) (wid : B) (g : game) :
  l_collide_widget self wid g = (g, Return (collide_widget self wid)).
Proof. apply l_collide_widget_eval. Qed.
