(* ===== verification/LegacyApp.v ===== *)
(** * LegacyApp: the application around the legacy copy src/snakes.py

    src/snakes.py wires its game to Kivy as the package does, with the
    attribute named [self.keyboard] and the callback [keyboard_closed]:
    - [__init__] (lines 20-23) requests the keyboard and binds
      [on_keyboard_down];
    - [keyboard_closed] (lines 25-27) unbinds it through [self.keyboard] and
      sets the attribute to [None];
    - [run] (lines 55-57) schedules [update];
    - [SnakesApp.build] (lines 167-172) creates the game and calls [run];
    - the [__main__] guard (lines 175-176) runs [SnakesApp().run()].

    The state is [Keyboard.app].  Kivy's dispatch [l_app_handle] calls the
    statement-by-statement methods of [Legacy] on the game the application
    holds ([py_on]), so an exception of [update] or [on_keyboard_down] would
    end the run.  The theorem: from every initial game the legacy program
    and the package's [main] produce the same application, or raise the
    same exception, on every sequence of events. *)

From S2P Require Import Prelude Python Geometry Widgets Snake Game Keyboard Invariants Legacy.

(** Lines 20-23: [SnakesGame.__init__] after [Widget.__init__]. *)
Definition l_sg_init : A unit unit :=
  request_keyboard;;
  py_modify (fun a => set_game_keyboard a true);;
  bind_handler true.

(** Lines 25-27: [keyboard_closed]. *)
Definition l_keyboard_closed : A unit unit :=
  bind_handler false;;
  py_modify (fun a => set_game_keyboard a false).

(** Lines 55-57: [SnakesGame.run]. *)
Definition l_sg_run : A unit unit := py_modify set_scheduled.

(** Lines 167-172: [SnakesApp.build]. *)
Definition l_build : A unit unit := call l_sg_init;; call l_sg_run.

(** A method of the game, called by Kivy on the game the application holds. *)
Definition on_game (m : M unit unit) : A unit unit := py_on app_game set_app_game m.

(** Kivy's dispatch to the methods of src/snakes.py. *)
Definition l_app_handle (e : app_event) : A unit unit :=
  a ← py_get;
  match e with
  | AppTick => py_if (scheduled a) (on_game l_update)
  | AppKey k => py_if (handler_bound (window_keyboard a)) (on_game (l_on_keyboard_down k))
  | AppKeyboardClosed => release_keyboard l_keyboard_closed
  end.

Fixpoint l_app_run (a : app) (es : list app_event) : (app + py_error)%type :=
  match es with
  | [] => inl a
  | e :: es' => match exec (l_app_handle e) a with inl a' => l_app_run a' es' | inr err => inr err end
  end.

(** Lines 175-176: [if __name__ == '__main__': SnakesApp().run()]. *)
Definition l_main (g : game) (es : list app_event) : (app + py_error)%type :=
  match exec l_build (app0 g) with
  | inl a => l_app_run a es
  | inr err => inr err
  end.

(** ** Lemmas *)

Lemma l_build_eval (g : game) : exec l_build (app0 g) = inl (launched g).
Proof. done. Qed.

(** Kivy's dispatch keeps the game reachable: it hands it a tick, a key or
    nothing. *)
Lemma app_handle_reachable (e : app_event) (a a' : app) :
  exec (app_handle e) a = inl a' -> reachable (app_game a) -> reachable (app_game a').
Proof.
  destruct a as [kb ok sch g]. intros He Hr. destruct e as [|k|];
    cbv [exec app_handle mbind pyM_bind py_get py_if py_modify mret pyM_ret call keyboard_closed
      bind_handler py_raise release_keyboard] in He; cbn in He.
  - destruct sch; simplify_eq; cbn; [apply (reachable_step g Tick Hr) | done].
  - destruct (handler_bound kb); simplify_eq; cbn; [apply (reachable_step g (Key k) Hr) | done].
  - destruct kb as [hb []], ok; cbn in He; simplify_eq; done.
Qed.

(** On a reachable game each legacy dispatch is the dispatch of the
    package's application, state and outcome alike. *)
Lemma l_app_handle_eval (e : app_event) (a : app) :
  reachable (app_game a) -> l_app_handle e a = app_handle e a.
Proof.
  destruct a as [kb ok sch g]. intros Hr; cbn in Hr.
  pose proof (reachable_allocated g Hr) as Ha.
  pose proof (wf_fresh_children g (proj1 (reachable_wf g Hr))) as Hf.
  destruct e as [|k|]; cbv [l_app_handle app_handle mbind pyM_bind py_get py_if on_game py_modify];
    cbn [scheduled window_keyboard]; [destruct sch | destruct (handler_bound kb) | done];
    try done; apply py_on_go; left; cbn [app_game].
  - by apply l_update_eval.
  - by apply l_on_keyboard_down_eval, fresh_children_next.
Qed.

Lemma l_app_run_eval (a : app) (es : list app_event) :
  reachable (app_game a) -> l_app_run a es = app_run a es.
Proof.
  revert a. induction es as [|e es IH]; intros a Hr; [done|]. cbn [l_app_run app_run].
  unfold exec at 1. rewrite (l_app_handle_eval e a Hr). fold (exec (app_handle e) a).
  destruct (exec (app_handle e) a) as [a'|err] eqn:He; [|done].
  apply IH. by apply (app_handle_reachable e a).
Qed.

(** ** Theorems *)

(** C11. Refinement of the legacy application: from every initial game,
    the [__main__] of src/snakes.py ([build], then Kivy's dispatch of clock
    ticks, key presses and releases of the keyboard to the statement-by-
    statement methods) ends in the same application state as the package's
    [main], or raises the same exception, on every sequence of events. *)
Theorem legacy_app_refines (g : game) (es : list app_event) :
  initial g = true -> l_main g es = sg_main g es.
Proof.
  intros Hi. unfold l_main, sg_main. rewrite l_build_eval, build_eval.
  apply l_app_run_eval. by constructor.
Qed.
