(* ===== verification/Scenarios.v ===== *)
(** * Scenarios: concrete runs of the game

    This file holds the 250 x 250 game of the spec's scenarios, with its
    status bar at y = 240 and two 10 x 10 heads centred as [reset] centres
    them.  The theorems evaluate runs of the model on concrete event
    sequences: the games that make the hypotheses of the theorems true.
    It also holds one witness per theorem of the development that has
    hypotheses.  Each witness applies the theorem at a concrete input of
    this file. *)

From S2P Require Import Prelude Python Geometry Widgets Snake Game Keyboard Invariants StateMachine Liveness Legacy LegacyApp.



(** The game of the scenarios: snake 1 centred at a third of the width,
    snake 2 at two thirds, both idle. *)
Definition arena : game :=
  init_game 250 250 240 (init_snake (250 / 3 - 5) 120 10 10 [1; 0; 0])
    (init_snake (250 * 2 / 3 - 5) 120 10 10 [0; 0; 1]).

(** Snake 1 close to the right wall, heading right, with snake 2 just
    above the wall line. *)
Definition by_the_wall : game :=
  let s1 := set_dir (init_snake (479 / 2) 120 10 10 [1; 0; 0]) 1 0 in
  let s2 := init_snake 241 120 10 10 [0; 0; 1] in
  init_game 250 250 240 s1 s2.

(** ** Witnesses: the theorems with hypotheses, applied to concrete games *)

Definition rect_a : rect := mk_rect 0 0 10 10.
Definition rect_b : rect := mk_rect 5 5 10 10.

Lemma collide_widget_overlap_witness :
  (1 <= wwidth rect_a /\ 1 <= wheight rect_a /\
   1 <= hi_x rect_b - lo_x rect_b /\ 1 <= hi_y rect_b - lo_y rect_b) /\
  (collide_widget rect_a rect_b = true <->
   1 <= overlap (wx rect_a) (right rect_a) (lo_x rect_b) (hi_x rect_b) /\
   1 <= overlap (wy rect_a) (top rect_a) (lo_y rect_b) (hi_y rect_b)).
Proof.
  split; [split_and!; qdecide|].
  apply collide_widget_overlap; qdecide.
Defined.

Lemma collide_widget_sym_witness :
  (0 <= wwidth rect_a /\ 0 <= wheight rect_a /\ 0 <= wwidth rect_b /\ 0 <= wheight rect_b) /\
  collide_widget rect_a rect_b = collide_widget rect_b rect_a.
Proof.
  split; [split_and!; qdecide|].
  apply collide_widget_sym; qdecide.
Defined.

Lemma no_reversal_witness :
  binding "a" = Some (Player1, (-1, 0)%Z) /\
  dir_of (get_snake (run arena [Key "d"]) Player1) = opposite (-1, 0)%Z /\
  on_keyboard_down (run arena [Key "d"]) "a" = run arena [Key "d"].
Proof.
  split_and!; [reflexivity | vm_compute; reflexivity |].
  apply (no_reversal _ "a" Player1 (-1, 0)%Z); [reflexivity | vm_compute; reflexivity].
Defined.

Lemma on_keyboard_down_turn_witness :
  let g := run arena [Key "d"] in
  binding "w" = Some (Player1, (0, 1)%Z) /\
  dir_of (get_snake g Player1) <> opposite (0, 1)%Z /\
  dir_of (get_snake g Player1) <> (0, 1)%Z /\
  (let g' := on_keyboard_down g "w" in
   dir_of (get_snake g' Player1) = (0, 1)%Z /\ trails g' = trails g ++ [next_id g] /\
   children g' = next_id g :: children g /\
   strail (get_snake g' Player1) = Some (next_id g) /\
   heap g' !! next_id g = Some (new_trail (set_dir (get_snake g Player1) 0 1))).
Proof.
  cbv zeta. split_and!; [reflexivity | vm_compute; discriminate | vm_compute; discriminate |..];
  apply (on_keyboard_down_turn _ "w" Player1 (0, 1)%Z);
    first [reflexivity | vm_compute; discriminate].
Defined.

Lemma reset_spec_witness :
  let g := run arena [Key "d"; Tick; Key "w"] in
  children g ≡ₚ trails g /\
  (let g' := reset g in
   sx (snake1 g') = gwidth g / 3 - swidth (snake1 g) / 2 /\
   sy (snake1 g') = gheight g / 2 - sheight (snake1 g) / 2 /\
   sx (snake2 g') = gwidth g * 2 / 3 - swidth (snake2 g) / 2 /\
   sy (snake2 g') = gheight g / 2 - sheight (snake2 g) / 2 /\
   dir_of (snake1 g') = (0, 0)%Z /\ dir_of (snake2 g') = (0, 0)%Z /\
   trails g' = [] /\ children g' = [] /\
   score (snake1 g') = score (snake1 g) /\ score (snake2 g') = score (snake2 g)).
Proof.
  cbv zeta. assert (Hp : children (run arena [Key "d"; Tick; Key "w"]) ≡ₚ
                          trails (run arena [Key "d"; Tick; Key "w"])).
  { vm_compute. apply Permutation_swap. }
  split; [exact Hp | apply (reset_spec _ Hp)].
Defined.

(** The game one tick before snake 1 leaves through the left wall,
    evaluated once when the file is compiled. *)
Definition at_left_wall : game := Eval vm_compute in run arena (Key "a" :: repeat Tick 78).

Lemma update_collision_order_witness :
  snd (move at_left_wall Player1 (snake2 at_left_wall)) = true /\
  update at_left_wall =
  reset (set_snake (fst (move at_left_wall Player1 (snake2 at_left_wall))) Player2
           (add_score (snake2 at_left_wall))).
Proof.
  assert (Hc : snd (move at_left_wall Player1 (snake2 at_left_wall)) = true)
    by (vm_compute; reflexivity).
  split; [exact Hc|].
  pose proof (update_collision_order at_left_wall) as Ho.
  destruct (move at_left_wall Player1 (snake2 at_left_wall)) as [g1 c1]. cbn in Hc |- *. subst c1.
  destruct (move g1 Player2 (snake1 g1)) as [g2 c2]. by apply Ho.
Defined.

(** The game one tick before the two heads meet, evaluated once when the
    file is compiled. *)
Definition before_head_on : game := Eval vm_compute in run arena (Key "d" :: repeat Tick 74).

Lemma update_head_on_witness :
  let s1 := advance (snake1 before_head_on) (speed_scale before_head_on) in
  (right s1 < gwidth before_head_on /\ 0 < wx s1 /\
   top s1 < status_bar_y before_head_on /\ 0 < wy s1 /\
   collides_spec s1 (snake2 before_head_on)) /\
  score (snake1 (update before_head_on)) = S (score (snake1 before_head_on)) /\
  score (snake2 (update before_head_on)) = S (score (snake2 before_head_on)).
Proof.
  cbv zeta.
  assert (H : collides_spec (advance (snake1 before_head_on) (speed_scale before_head_on))
                (snake2 before_head_on))
    by (unfold collides_spec; split_and!; qdecide).
  split; [split_and!; first [qdecide | exact H]|].
  apply update_head_on; first [qdecide | exact H].
Defined.

Lemma wf_reachable_witness :
  reachable (handle (handle arena (Key "d")) Tick) /\
  wf (handle (handle arena (Key "d")) Tick).
Proof.
  assert (Hr : reachable (handle (handle arena (Key "d")) Tick)).
  { apply reachable_step, reachable_step, reachable_init. vm_compute. reflexivity. }
  split; [exact Hr | apply (wf_reachable _ Hr)].
Defined.

Lemma directions_valid_witness :
  initial arena = true /\
  valid_direction (direction_x (get_snake (run arena [Key "d"; Tick; Key "up"]) Player2))
                  (direction_y (get_snake (run arena [Key "d"; Tick; Key "up"]) Player2))
    = true.
Proof.
  assert (Hi : initial arena = true) by (vm_compute; reflexivity).
  split; [exact Hi | apply (directions_valid _ _ Player2 Hi)].
Defined.

Lemma own_trail_safe_witness :
  let es := [Key "d"; Tick; Tick; Key "w"; Tick] in
  let g := run arena es in
  let s := get_snake g Player1 in
  let k := speed_scale g in
  initial arena = true /\ heading (direction_x s) (direction_y s) = true /\
  exists id, strail s = Some id /\ id ∈ trails g /\
             trail_hit (advance s k) (grow_heap s k (heap g)) id = false.
Proof.
  cbv zeta.
  assert (Hi : initial arena = true) by (vm_compute; reflexivity).
  assert (Hh : heading
    (direction_x (get_snake (run arena [Key "d"; Tick; Tick; Key "w"; Tick]) Player1))
    (direction_y (get_snake (run arena [Key "d"; Tick; Tick; Key "w"; Tick]) Player1)) = true)
    by (vm_compute; reflexivity).
  split_and!; [exact Hi | exact Hh | apply (own_trail_safe _ _ Player1 Hi Hh)].
Defined.

Lemma ticks_advance_witness :
  let g := run arena [Key "d"] in
  quiet g 10 = true /\
  (let s := get_snake g Player1 in
   let s' := get_snake (run g (repeat Tick 10)) Player1 in
   sx s' == sx s + inject_Z (Z.of_nat 10) * (inject_Z (direction_x s) * speed_scale g) /\
   sy s' == sy s + inject_Z (Z.of_nat 10) * (inject_Z (direction_y s) * speed_scale g) /\
   dir_of s' = dir_of s).
Proof.
  cbv zeta. assert (Hq : quiet (run arena [Key "d"]) 10 = true) by (vm_compute; reflexivity).
  split; [exact Hq | apply (ticks_advance _ 10 Player1 Hq)].
Defined.

Lemma round_ends_witness :
  let g := run arena [Key "d"] in
  let s := get_snake g Player1 in
  heading (direction_x s) (direction_y s) = true /\
  (total_score g < total_score (run g (repeat Tick 251)))%nat.
Proof.
  cbv zeta. set (g := run arena [Key "d"]).
  assert (Hh : heading (direction_x (get_snake g Player1)) (direction_y (get_snake g Player1)) = true)
    by (vm_compute; reflexivity).
  split; [exact Hh|].
  apply (round_ends g Player1 250 Hh); qdecide.
Defined.

Lemma legacy_refines_witness :
  initial arena = true /\
  l_run arena [Key "d"; Tick; Key "w"; Tick] = inl (run arena [Key "d"; Tick; Key "w"; Tick]).
Proof.
  assert (Hi : initial arena = true) by (vm_compute; reflexivity).
  split; [exact Hi | apply (legacy_refines arena _ Hi)].
Defined.

Lemma legacy_no_exception_witness :
  let g := run arena [Key "d"; Tick] in
  reachable g /\ exec (l_handle (Key "w")) g <> inr WidgetException.
Proof.
  cbv zeta.
  assert (Hr : reachable (run arena [Key "d"; Tick])).
  { apply reachable_step, reachable_step, reachable_init. vm_compute. reflexivity. }
  split; [exact Hr | apply (legacy_no_exception _ _ _ Hr)].
Defined.

Lemma l_move_refines_witness :
  let g := run arena [Key "d"; Tick] in
  allocated g /\
  l_move Player1 (other Player1) g =
  (fst (move g Player1 (get_snake g (other Player1))),
   Return (snd (move g Player1 (get_snake g (other Player1))))).
Proof.
  cbv zeta.
  assert (Ha : allocated (run arena [Key "d"; Tick])).
  { apply allocatedb_spec. vm_compute. reflexivity. }
  split; [exact Ha | apply (l_move_refines _ Player1 Ha)].
Defined.

Lemma l_on_direction_refines_witness :
  let g := run arena [Key "d"; Tick] in
  (next_id g ∉ children g) /\ l_on_direction Player2 g = (on_direction g Player2, Go ()).
Proof.
  cbv zeta.
  assert (Hn : next_id (run arena [Key "d"; Tick]) ∉ children (run arena [Key "d"; Tick])).
  { apply (bool_decide_eq_true_1 (_ ∉ _)). vm_compute. reflexivity. }
  split; [exact Hn | apply (l_on_direction_refines _ Player2 Hn)].
Defined.

Lemma key_roundtrip_witness :
  key_for Player1 (1, 0)%Z = Some "d"%string /\
  dir_of (get_snake (on_keyboard_down arena "d") Player1) = (1, 0)%Z.
Proof.
  assert (Hk : key_for Player1 (1, 0)%Z = Some "d"%string) by (vm_compute; reflexivity).
  split; [exact Hk|].
  apply (key_roundtrip arena "d" Player1 (1, 0)%Z); [reflexivity | reflexivity | exact Hk].
Defined.

Lemma app_refines_loop_witness :
  let es := [AppKey "d"; AppTick; AppKey "down"; AppTick] in
  (AppKeyboardClosed ∉ es) /\
  app_run (launched arena) es = inl (launched (run arena (game_events es))).
Proof.
  cbv zeta.
  assert (Hc : AppKeyboardClosed ∉ [AppKey "d"; AppTick; AppKey "down"; AppTick]).
  { apply (bool_decide_eq_true_1 (_ ∉ _)). vm_compute. reflexivity. }
  split; [exact Hc | apply (app_refines_loop arena _ Hc)].
Defined.

Lemma keys_ignored_after_release_witness :
  let es := [AppKey "d"; AppTick; AppKey "down"; AppTick] in
  (AppKeyboardClosed ∉ es) /\
  app_run (launched arena) (AppKeyboardClosed :: es) = inl (released (run arena (tick_events es))).
Proof.
  cbv zeta.
  assert (Hc : AppKeyboardClosed ∉ [AppKey "d"; AppTick; AppKey "down"; AppTick]).
  { apply (bool_decide_eq_true_1 (_ ∉ _)). vm_compute. reflexivity. }
  split; [exact Hc | apply (keys_ignored_after_release arena _ Hc)].
Defined.

Lemma frozen_trail_unchanged_witness :
  let g := run arena [Key "d"; Tick; Key "w"] in
  (0 < next_id g)%nat /\ frozen g 0 /\
  heap (run g [Tick; Key "a"; Tick; Tick]) !! 0%nat = heap g !! 0%nat.
Proof.
  cbv zeta.
  assert (Hn : (0 < next_id (run arena [Key "d"; Tick; Key "w"]))%nat) by (vm_compute; lia).
  assert (Hf : frozen (run arena [Key "d"; Tick; Key "w"]) 0).
  { apply (bool_decide_eq_true_1 (frozen _ _)). vm_compute. reflexivity. }
  split_and!; [exact Hn | exact Hf | apply (frozen_trail_unchanged _ _ 0 Hn Hf)].
Defined.

Lemma round_terminates_witness :
  let g := run arena [Key "d"] in
  let s := get_snake g Player1 in
  heading (direction_x s) (direction_y s) = true /\
  exists m, first_collision g 251 = Some m /\ (m <= 250)%nat /\
    quiet g m = true /\ quiet (run g (repeat Tick m)) 1 = false.
Proof.
  cbv zeta. set (g := run arena [Key "d"]).
  assert (Hh : heading (direction_x (get_snake g Player1)) (direction_y (get_snake g Player1)) = true)
    by (vm_compute; reflexivity).
  split; [exact Hh|].
  apply (round_terminates g Player1 250 Hh); qdecide.
Defined.

Lemma legacy_app_refines_witness :
  let es := [AppKey "d"; AppTick; AppKeyboardClosed; AppKey "w"; AppTick] in
  initial arena = true /\ l_main arena es = sg_main arena es.
Proof.
  cbv zeta. assert (Hi : initial arena = true) by (vm_compute; reflexivity).
  split; [exact Hi | apply (legacy_app_refines arena _ Hi)].
Defined.

(** Snake 1 moving up, snake 2 coming from the right, half a unit short of
    snake 1's head: snake 1's move is quiet and snake 2's runs into it. *)
Definition snake2_head_on : game :=
  init_game 250 250 240 (set_dir (init_snake 100 100 10 10 [1; 0; 0]) 0 1)
    (set_dir (init_snake (219 # 2) 101 10 10 [0; 0; 1]) (-1) 0).

Lemma update_head_on_snake2_witness :
  let g := snake2_head_on in
  let g1 := fst (move g Player1 (snake2 g)) in
  let s2 := advance (snake2 g1) (speed_scale g1) in
  (snd (move g Player1 (snake2 g)) = false /\ right s2 < gwidth g1 /\ 0 < wx s2 /\
   top s2 < status_bar_y g1 /\ 0 < wy s2 /\ collides_spec s2 (snake1 g1)) /\
  score (snake1 (update g)) = S (score (snake1 g)) /\
  score (snake2 (update g)) = S (score (snake2 g)).
Proof.
  cbv zeta.
  assert (Hq : snd (move snake2_head_on Player1 (snake2 snake2_head_on)) = false)
    by (vm_compute; reflexivity).
  set (g1 := fst (move snake2_head_on Player1 (snake2 snake2_head_on))).
  assert (Hc : collides_spec (advance (snake2 g1) (speed_scale g1)) (snake1 g1))
    by (unfold collides_spec; split_and!; qdecide).
  split; [split_and!; first [exact Hq | exact Hc | qdecide]|].
  apply update_head_on_snake2; first [exact Hq | exact Hc | qdecide].
Defined.

(** A game after a first key and a tick, reachable from the scenario game. *)
Lemma arena_moving_reachable : reachable (run arena [Key "d"; Tick]).
Proof. apply run_reachable, reachable_init. vm_compute. reflexivity. Qed.

Lemma l_reset_refines_witness :
  let g := run arena [Key "d"; Tick] in
  reachable g /\ l_reset g = (reset g, Go ()).
Proof.
  cbv zeta. split; [exact arena_moving_reachable|].
  apply (l_reset_refines _ arena_moving_reachable).
Defined.

Lemma l_on_keyboard_down_refines_witness :
  let g := run arena [Key "d"; Tick] in
  reachable g /\ l_on_keyboard_down "w" g = (on_keyboard_down g "w", Go ()).
Proof.
  cbv zeta. split; [exact arena_moving_reachable|].
  apply (l_on_keyboard_down_refines _ _ arena_moving_reachable).
Defined.

Lemma reversal_collides_witness :
  let g := run arena [Key "d"; Tick] in
  let g' := on_keyboard_down (on_keyboard_down g "w") "a" in
  (reachable g /\ dir_of (get_snake g Player1) = (1, 0)%Z /\
   key_for Player1 (0, 1)%Z = Some "w" /\ key_for Player1 (opposite (1, 0)%Z) = Some "a" /\
   1 <= speed_scale g /\ speed_scale g + 1 <= swidth (get_snake g Player1) /\
   speed_scale g + 1 <= sheight (get_snake g Player1)) /\
  dir_trans (Key "w") (1, 0)%Z (0, 1)%Z /\ dir_trans (Key "a") (0, 1)%Z (opposite (1, 0)%Z) /\
  dir_of (get_snake g' Player1) = opposite (1, 0)%Z /\
  snd (move g' Player1 (get_snake g' (other Player1))) = true.
Proof.
  cbv zeta.
  assert (Hd : dir_of (get_snake (run arena [Key "d"; Tick]) Player1) = (1, 0)%Z)
    by (vm_compute; reflexivity).
  assert (H1 : key_for Player1 (0, 1)%Z = Some "w") by (vm_compute; reflexivity).
  assert (H2 : key_for Player1 (opposite (1, 0)%Z) = Some "a") by (vm_compute; reflexivity).
  split; [split_and!; first [exact arena_moving_reachable | exact Hd | exact H1 | exact H2 | qdecide]|].
  apply (reversal_collides _ Player1 (1, 0)%Z "w" "a" arena_moving_reachable Hd);
    first [reflexivity | exact H1 | exact H2 | qdecide].
Defined.

Lemma update_wall_preempts_witness :
  let s1 := advance (snake1 by_the_wall) (speed_scale by_the_wall) in
  collide_widget s1 (snake2 by_the_wall) = true /\
  gwidth by_the_wall <= right s1 /\
  score (snake1 (update by_the_wall)) = score (snake1 by_the_wall) /\
  score (snake2 (update by_the_wall)) = S (score (snake2 by_the_wall)).
Proof.
  cbv zeta. assert (Hw : gwidth by_the_wall <= right (advance (snake1 by_the_wall) (speed_scale by_the_wall)))
    by qdecide.
  split_and!; [vm_compute; reflexivity | exact Hw | |];
    apply (update_wall_preempts by_the_wall); by left.
Defined.
